(** * MED-SR workflow: train/test split, equation compilation and scoring

    A shallow embedding of [utils/general_utils.py],
    [utils/MEDProcessor.py] and of one run of [med_fitting.py].  Python
    floats and numpy [float64] values are IEEE 754 binary64 numbers
    ([SpecFloat.spec_float] with 53 bits of precision); exceptions are an
    explicit error result; the global numpy generator and the file system
    are an explicit world that is threaded through the effectful functions.
    The calls into pandas, numpy, sympy, the operating system and the
    discovery backend that the repository does not define are interfaces
    (type classes); the parser of the expression pipeline and the
    arithmetic of the code it generates are written out where they are
    defined. *)

From Stdlib Require Import ZArith List String Ascii Bool Lia Permutation.
From Stdlib Require Import SpecFloat DecimalString DecimalZ.
Import ListNotations.
Local Open Scope Z_scope.

(* ================================================================== *)
(** * Part I: definitions *)
(* ================================================================== *)

(** ** Python exceptions as results *)

Module Py.

Inductive exn : Type :=
| ValueError (msg : string)
| OverflowError
| KeyError (key : string)
| IndexError
| NameError (name : string)
| TypeError
| ZeroDivisionError
| SympifyError
| FileNotFoundError (path : string).

Inductive result (A : Type) : Type :=
| Ok (a : A)
| Raise (e : exn).

Arguments Ok {A} a.
Arguments Raise {A} e.

Definition bind {A B} (c : result A) (k : A -> result B) : result B :=
  match c with
  | Ok a => k a
  | Raise e => Raise e
  end.

Fixpoint mapM {A B} (f : A -> result B) (l : list A) : result (list B) :=
  match l with
  | [] => Ok []
  | x :: r => bind (f x) (fun y => bind (mapM f r) (fun ys => Ok (y :: ys)))
  end.

Definition is_ok {A} (c : result A) : bool :=
  match c with Ok _ => true | Raise _ => false end.

(** Truthiness of an optional string: [None] and the empty string are falsy. *)
Definition truthy (s : option string) : bool :=
  match s with
  | Some (String _ _) => true
  | _ => false
  end.

(** [str(n)] for an integer. *)
Definition str_int (n : Z) : string := NilEmpty.string_of_int (Z.to_int n).

(** [s.replace(old, new)] for a one-character [old]. *)
Fixpoint replace_char (old : ascii) (new : string) (s : string) : string :=
  match s with
  | EmptyString => EmptyString
  | String c r =>
      if Ascii.eqb c old then String.append new (replace_char old new r)
      else String c (replace_char old new r)
  end.

(** Slice bound of [seq[:k]] / [seq[k:]] on a sequence of length [n]:
    a negative [k] counts from the end, and the bound is clamped to [0..n]. *)
Definition slice_bound (k : Z) (n : nat) : nat :=
  if k <? 0 then Z.to_nat (Z.max (Z.of_nat n + k) 0)
  else Nat.min (Z.to_nat k) n.

Definition slice_to {A} (k : Z) (l : list A) : list A :=
  firstn (slice_bound k (List.length l)) l.

Definition slice_from {A} (k : Z) (l : list A) : list A :=
  skipn (slice_bound k (List.length l)) l.

(** An insertion-ordered dictionary with string keys: assigning to an
    existing key overwrites its value in place, a new key is appended. *)
Definition dict (V : Type) : Type := list (string * V).

Fixpoint dict_set {V} (k : string) (v : V) (d : dict V) : dict V :=
  match d with
  | [] => [(k, v)]
  | (k', v') :: r =>
      if String.eqb k' k then (k', v) :: r else (k', v') :: dict_set k v r
  end.

Fixpoint dict_get {V} (k : string) (d : dict V) : option V :=
  match d with
  | [] => None
  | (k', v') :: r => if String.eqb k' k then Some v' else dict_get k r
  end.

End Py.

Import Py.

Declare Scope py_scope.
Delimit Scope py_scope with py.
Notation "x <- c ;; k" := (Py.bind c (fun x => k))
  (at level 61, c at next level, right associativity) : py_scope.
Local Open Scope py_scope.

(** ** binary64 floating point *)

Module Float64.

Definition prec : Z := 53.
Definition emax : Z := 1024.

Definition float : Type := spec_float.

Definition zero : float := S754_zero false.
Definition one : float := S754_finite false 4503599627370496 (-52).
Definition two : float := S754_finite false 4503599627370496 (-51).
Definition nan : float := S754_nan.
Definition infinity : float := S754_infinity false.
Definition neg_infinity : float := S754_infinity true.

Definition add : float -> float -> float := SFadd prec emax.
Definition sub : float -> float -> float := SFsub prec emax.
Definition mul : float -> float -> float := SFmul prec emax.
Definition div : float -> float -> float := SFdiv prec emax.
Definition abs : float -> float := SFabs.
Definition opp : float -> float := SFopp.
Definition ltb : float -> float -> bool := SFltb.
Definition leb : float -> float -> bool := SFleb.
Definition eqb : float -> float -> bool := SFeqb.
Definition valid (x : float) : bool := valid_binary prec emax x.

Definition is_nan (x : float) : bool :=
  match x with S754_nan => true | _ => false end.

Definition is_finite (x : float) : bool :=
  match x with
  | S754_zero _ | S754_finite _ _ _ => true
  | _ => false
  end.

(** [float(n)] for an integer, rounded to nearest even. *)
Definition of_Z (n : Z) : float := binary_normalize prec emax n 0 false.

(** The decimal literal [m * 10^k], correctly rounded. *)
Definition of_decimal (m k : Z) : float :=
  match m with
  | Z0 => zero
  | Zpos p =>
      if 0 <=? k then of_Z (m * 10 ^ k)
      else div (S754_finite false p 0) (S754_finite false (Z.to_pos (10 ^ (- k))) 0)
  | Zneg p =>
      if 0 <=? k then of_Z (m * 10 ^ k)
      else div (S754_finite true p 0) (S754_finite false (Z.to_pos (10 ^ (- k))) 0)
  end.

(** The literal [1e-8]. *)
Definition eps : float := Eval vm_compute in of_decimal 1 (-8).

(** [int(x)]: truncation toward zero; NaN and the infinities raise. *)
Definition to_int (x : float) : result Z :=
  match x with
  | S754_nan => Raise (ValueError "cannot convert float NaN to integer")
  | S754_infinity _ => Raise OverflowError
  | S754_zero _ => Ok 0
  | S754_finite s m e => Ok (cond_Zopp s (Z.shiftl (Z.pos m) e))
  end.

(** The platform's elementary functions, on the arguments where IEEE 754 and
    C99 do not fix the result. *)
Class Libm : Type := {
  libm_exp : float -> float;
  libm_log : float -> float;
  libm_pow : float -> float -> float
}.

(** [numpy.exp], [numpy.log] and [**] on binary64 scalars: the special
    values are those of C99 Annex F (no exception is raised, numpy only
    warns); other arguments go to the platform's functions. *)
Definition np_exp {L : Libm} (x : float) : float :=
  match x with
  | S754_nan => nan
  | S754_infinity false => infinity
  | S754_infinity true => zero
  | S754_zero _ => one
  | S754_finite _ _ _ => libm_exp x
  end.

Definition np_log {L : Libm} (x : float) : float :=
  match x with
  | S754_nan => nan
  | S754_zero _ => neg_infinity
  | S754_infinity false => infinity
  | S754_infinity true => nan
  | S754_finite true _ _ => nan
  | S754_finite false _ _ => libm_log x
  end.

Definition np_power {L : Libm} (x y : float) : float :=
  match y with
  | S754_zero _ => one
  | _ => if eqb y one then x
         else if eqb y two then mul x x
         else libm_pow x y
  end.

(** Minimum and maximum of a column with missing values (NaN) skipped, as
    [Series.min()] and [Series.max()] do; NaN when nothing is left.  Of two
    values that compare equal (the two zeros) the later one is kept. *)
Definition min_step (acc x : float) : float :=
  if is_nan x then acc
  else if is_nan acc then x
  else if ltb acc x then acc else x.

Definition max_step (acc x : float) : float :=
  if is_nan x then acc
  else if is_nan acc then x
  else if ltb x acc then acc else x.

Definition series_min (l : list float) : float := fold_left min_step l nan.
Definition series_max (l : list float) : float := fold_left max_step l nan.

Definition is_zero (x : float) : bool :=
  match x with S754_zero _ => true | _ => false end.

(** A value at run time.  numpy's [float64] and Python's [float] hold the
    same binary64 numbers but differ in their arithmetic; every other
    object (a sympy expression, a complex number) belongs to the
    libraries, whose objects are of type [O]. *)
Inductive value (O : Type) : Type :=
| NpFloat (x : float)
| PyFloat (x : float)
| PyObject (o : O).

Arguments NpFloat {O} x.
Arguments PyFloat {O} x.
Arguments PyObject {O} o.

(** The number that a value holds, if it is one. *)
Definition number {O} (v : value O) : option float :=
  match v with
  | NpFloat x | PyFloat x => Some x
  | PyObject _ => None
  end.

End Float64.

Import Float64.

(** ** numpy random generators *)

(** [np.random.RandomState]: a generator state is built from an integer
    seed, and [permutation n] draws a shuffling of the positions
    [0 .. n-1], advancing the state. *)
Class NumpyRandom : Type := {
  rng_state : Type;
  RandomState : Z -> rng_state;
  rng_permutation : rng_state -> nat -> list nat * rng_state
}.

(** The generator of an integer seed: numpy takes the seeds
    [0 .. 2**32 - 1] and raises [ValueError] for every other integer. *)
Definition seed_generator {R : NumpyRandom} (seed : Z) : result rng_state :=
  if (0 <=? seed) && (seed <? 2 ^ 32) then Ok (RandomState seed)
  else Raise (ValueError "Seed must be between 0 and 2**32 - 1").

(** What a generator is expected to do: every draw is a rearrangement of
    the positions. *)
Definition permutes (R : NumpyRandom) : Prop :=
  forall g n, Permutation (fst (rng_permutation g n)) (seq 0 n).

(** ** Tables *)

Module Pandas.

(** A row of a table: its index label and its cells, one per column.
    The cells are numbers. *)
Record Row : Type := { label : nat; cells : list float }.

(** A table: its column names, its rows, and the names of the columns
    whose type is not [float64] but [object] (their numbers are Python
    floats).  Columns of other types, columns of integers among them, are
    not modelled. *)
Record DataFrame : Type := {
  columns : list string;
  rows : list Row;
  object_columns : list string
}.

Definition len (df : DataFrame) : nat := List.length (rows df).

(** Some column of the table has the type [object]. *)
Definition mixed (df : DataFrame) : bool :=
  existsb (fun c => existsb (String.eqb c) (object_columns df)) (columns df).

(** Position of a column name (the first one when a name is repeated). *)
Fixpoint column_index (name : string) (cols : list string) : option nat :=
  match cols with
  | [] => None
  | c :: r =>
      if String.eqb c name then Some 0%nat
      else option_map S (column_index name r)
  end.

(** [name in df.columns] *)
Definition has_column (df : DataFrame) (name : string) : bool :=
  existsb (String.eqb name) (columns df).

(** [row[name]] for a row of [df]. *)
Definition row_get (df : DataFrame) (r : Row) (name : string) : result float :=
  match column_index name (columns df) with
  | Some i =>
      match nth_error (cells r) i with
      | Some v => Ok v
      | None => Raise (KeyError name)
      end
  | None => Raise (KeyError name)
  end.

(** [df[name]]: the values of a column, in row order. *)
Definition get_column (df : DataFrame) (name : string) : result (list float) :=
  match column_index name (columns df) with
  | Some i =>
      mapM (fun r => match nth_error (cells r) i with
                     | Some v => Ok v
                     | None => Raise (KeyError name)
                     end) (rows df)
  | None => Raise (KeyError name)
  end.

(** [df.take(locs)]: the rows at the given positions, in that order. *)
Definition take (df : DataFrame) (locs : list nat) : result DataFrame :=
  rs <- mapM (fun i => match nth_error (rows df) i with
                       | Some r => Ok r
                       | None => Raise IndexError
                       end) locs ;;
  Ok {| columns := columns df; rows := rs; object_columns := object_columns df |}.

(** [df.reset_index(drop=True)]: the labels become [0 .. n-1]. *)
Definition reset_index (df : DataFrame) : DataFrame :=
  {| columns := columns df;
     rows := map (fun ir => {| label := fst ir; cells := cells (snd ir) |})
                 (combine (seq 0 (len df)) (rows df));
     object_columns := object_columns df |}.

(** [df.iloc[:k]] and [df.iloc[k:]] *)
Definition iloc_to (k : Z) (df : DataFrame) : DataFrame :=
  {| columns := columns df; rows := slice_to k (rows df);
     object_columns := object_columns df |}.

Definition iloc_from (k : Z) (df : DataFrame) : DataFrame :=
  {| columns := columns df; rows := slice_from k (rows df);
     object_columns := object_columns df |}.

(** [df.sort_values(by=names)]: pandas leaves the order of rows that agree
    on every sort key to the sorting algorithm, so the reordering is an
    interface. *)
Class Sorting : Type := {
  sort_values : list string -> DataFrame -> DataFrame
}.

Definition sorts (S : Sorting) : Prop :=
  forall by_ df,
    columns (sort_values by_ df) = columns df /\
    Permutation (rows (sort_values by_ df)) (rows df).


End Pandas.

Import Pandas.

(** ** The world: the global generator [np.random] and the files on disk *)

(** One record of the equation table [hall_of_fame.csv]. *)
Record EquationRecord : Type := { Equation : string; Complexity : Z }.

Record World {R : NumpyRandom} : Type := {
  np_random : rng_state;
  files : string -> option (list EquationRecord)
}.

(** Effectful code: a result and the world after the call. *)
Definition M {R : NumpyRandom} (A : Type) : Type := World -> result A * World.

Definition ret {R : NumpyRandom} {A} (a : A) : M A := fun w => (Ok a, w).

Definition lift {R : NumpyRandom} {A} (c : result A) : M A := fun w => (c, w).

Definition bindM {R : NumpyRandom} {A B} (c : M A) (k : A -> M B) : M B :=
  fun w =>
    match c w with
    | (Ok a, w') => k a w'
    | (Raise e, w') => (Raise e, w')
    end.

Notation "x <~ c ;; k" := (bindM c (fun x => k))
  (at level 61, c at next level, right associativity) : py_scope.

(** [pd.read_csv(path)] of an equation table. *)
Definition read_csv {R : NumpyRandom} (path : string) : M (list EquationRecord) :=
  fun w =>
    match files w path with
    | Some t => (Ok t, w)
    | None => (Raise (FileNotFoundError path), w)
    end.

(** [df.sample(frac=1, random_state=rs)]: all rows in shuffled order.  An
    integer [random_state] seeds a generator of its own, and is refused
    when numpy refuses it as a seed; [None] draws from the global generator
    and advances it. *)
Definition sample {R : NumpyRandom} (df : DataFrame) (random_state : option Z)
  : M DataFrame :=
  fun w =>
    match random_state with
    | Some seed =>
        (rs <- seed_generator seed ;;
         take df (fst (rng_permutation rs (len df))), w)
    | None =>
        let '(locs, g) := rng_permutation (np_random w) (len df) in
        (take df locs, {| np_random := g; files := files w |})
    end.

(** ** utils/general_utils.py *)

(** *** The expression pipeline behind [create_function]

    [sympy.sympify] and [sympy.lambdify] are library code, not code of the
    repository.  [sympify] parses the text and evaluates the parsed
    expression to sympy's own form of it ([x/x] becomes [1], numbers are
    folded, the names that sympy knows become its constants and functions);
    [lambdify] prints that form as the body of a Python function of the
    listed symbols, over numpy.  Here:
    - the parser covers the expressions that the discovery backend writes
      (its operators are [+ - * / ^], [exp] and [log]): numbers, names,
      [+ - * / **], parentheses and one-argument calls, with Python's
      precedence; any other text is a parse error.  The parser receives the
      text alone, not the parameter names;
    - what sympy makes of the parsed expression, up to the expression that
      [lambdify] prints, is an interface: [canonical];
    - the printed expression is evaluated as Python evaluates it: a name
      that is an argument is the argument, every other name is bound to its
      sympy symbol ([lambdify] adds the free symbols of the expression to
      the namespace of the function); arithmetic between numpy [float64]
      values, or between one of them and a Python float, is numpy's and
      raises nothing; arithmetic between two Python floats is Python's,
      where a division by zero raises; [exp] and [log] are numpy's.  What
      an operation makes of an object that is not a float, Python's own
      [**], and the numpy functions other than [exp] and [log] are left to
      the interface.  Integer literals are read as the floats they convert
      to. *)

Module Sympy.

Inductive binop : Type := Add | Sub | Mul | Div | Pow.

Inductive expr : Type :=
| Num (m k : Z)                       (* the literal m * 10^k *)
| Const (x : float)                   (* a constant of numpy, as numpy.pi *)
| Sym (name : string)
| Neg (a : expr)
| Bin (op : binop) (a b : expr)
| Call (f : string) (a : expr).

Inductive token : Type :=
| TNum (m k : Z)
| TName (s : string)
| TPlus | TMinus | TStar | TSlash | TPow
| TLParen | TRParen.

Definition is_digit (c : ascii) : bool :=
  let n := nat_of_ascii c in (48 <=? n)%nat && (n <=? 57)%nat.

Definition is_alpha (c : ascii) : bool :=
  let n := nat_of_ascii c in
  ((65 <=? n)%nat && (n <=? 90)%nat) || ((97 <=? n)%nat && (n <=? 122)%nat)
  || (n =? 95)%nat.

Definition is_alnum (c : ascii) : bool := is_alpha c || is_digit c.

Definition is_space (c : ascii) : bool :=
  let n := nat_of_ascii c in (n =? 32)%nat || (n =? 9)%nat.

Definition digit_val (c : ascii) : Z := Z.of_nat (nat_of_ascii c) - 48.

(** The longest prefix of characters that satisfy [p], and the rest. *)
Fixpoint span (p : ascii -> bool) (s : string) : string * string :=
  match s with
  | EmptyString => (EmptyString, EmptyString)
  | String c r =>
      if p c then let '(a, b) := span p r in (String c a, b)
      else (EmptyString, s)
  end.

Fixpoint digits_val (acc : Z) (s : string) : Z :=
  match s with
  | EmptyString => acc
  | String c r => digits_val (10 * acc + digit_val c) r
  end.

(** A number: digits, an optional fraction, an optional exponent.  The
    result is the integer of all digits and the power of ten to apply. *)
Definition scan_number (s : string) : Z * Z * string :=
  let '(ip, r1) := span is_digit s in
  let '(fp, r2) :=
    match r1 with
    | String "."%char r => span is_digit r
    | _ => (EmptyString, r1)
    end in
  let m := digits_val 0 (String.append ip fp) in
  let k := - Z.of_nat (String.length fp) in
  match r2 with
  | String c r3 =>
      if Ascii.eqb c "e"%char || Ascii.eqb c "E"%char then
        let '(sgn, r4) :=
          match r3 with
          | String "-"%char r => (-1, r)
          | String "+"%char r => (1, r)
          | _ => (1, r3)
          end in
        let '(ep, r5) := span is_digit r4 in
        match ep with
        | EmptyString => (m, k, r2)
        | _ => (m, k + sgn * digits_val 0 ep, r5)
        end
      else (m, k, r2)
  | EmptyString => (m, k, r2)
  end.

Fixpoint tokenize (fuel : nat) (s : string) : result (list token) :=
  match fuel with
  | O => Raise SympifyError
  | S fuel' =>
      match s with
      | EmptyString => Ok []
      | String c r =>
          if is_space c then tokenize fuel' r
          else if is_digit c
                  || (Ascii.eqb c "."%char
                      && match r with String d _ => is_digit d | _ => false end)
          then
            let '(m, k, rest) := scan_number s in
            if (String.length rest <? String.length s)%nat then
              ts <- tokenize fuel' rest ;; Ok (TNum m k :: ts)
            else Raise SympifyError
          else if is_alpha c then
            let '(name, rest) := span is_alnum s in
            if (String.length rest <? String.length s)%nat then
              ts <- tokenize fuel' rest ;; Ok (TName name :: ts)
            else Raise SympifyError
          else
            match c, r with
            | "*"%char, String "*"%char r' =>
                ts <- tokenize fuel' r' ;; Ok (TPow :: ts)
            | "*"%char, _ => ts <- tokenize fuel' r ;; Ok (TStar :: ts)
            | "+"%char, _ => ts <- tokenize fuel' r ;; Ok (TPlus :: ts)
            | "-"%char, _ => ts <- tokenize fuel' r ;; Ok (TMinus :: ts)
            | "/"%char, _ => ts <- tokenize fuel' r ;; Ok (TSlash :: ts)
            | "("%char, _ => ts <- tokenize fuel' r ;; Ok (TLParen :: ts)
            | ")"%char, _ => ts <- tokenize fuel' r ;; Ok (TRParen :: ts)
            | _, _ => Raise SympifyError
            end
      end
  end.

(** The grammar, with Python's precedence:
      expr   ::= term (('+' | '-') term)*
      term   ::= factor (('*' | '/') factor)*
      factor ::= ('+' | '-') factor | power
      power  ::= atom ['**' factor]
      atom   ::= NUMBER | NAME | NAME '(' expr ')' | '(' expr ')'        *)
Inductive nonterminal : Type :=
| PExpr | PExprRest (acc : expr)
| PTerm | PTermRest (acc : expr)
| PFactor | PPower | PAtom.

Fixpoint parse (fuel : nat) (nt : nonterminal) (ts : list token)
  : option (expr * list token) :=
  match fuel with
  | O => None
  | S fuel' =>
      match nt with
      | PExpr =>
          match parse fuel' PTerm ts with
          | Some (a, ts') => parse fuel' (PExprRest a) ts'
          | None => None
          end
      | PExprRest acc =>
          match ts with
          | TPlus :: ts' =>
              match parse fuel' PTerm ts' with
              | Some (b, ts'') => parse fuel' (PExprRest (Bin Add acc b)) ts''
              | None => None
              end
          | TMinus :: ts' =>
              match parse fuel' PTerm ts' with
              | Some (b, ts'') => parse fuel' (PExprRest (Bin Sub acc b)) ts''
              | None => None
              end
          | _ => Some (acc, ts)
          end
      | PTerm =>
          match parse fuel' PFactor ts with
          | Some (a, ts') => parse fuel' (PTermRest a) ts'
          | None => None
          end
      | PTermRest acc =>
          match ts with
          | TStar :: ts' =>
              match parse fuel' PFactor ts' with
              | Some (b, ts'') => parse fuel' (PTermRest (Bin Mul acc b)) ts''
              | None => None
              end
          | TSlash :: ts' =>
              match parse fuel' PFactor ts' with
              | Some (b, ts'') => parse fuel' (PTermRest (Bin Div acc b)) ts''
              | None => None
              end
          | _ => Some (acc, ts)
          end
      | PFactor =>
          match ts with
          | TPlus :: ts' => parse fuel' PFactor ts'
          | TMinus :: ts' =>
              match parse fuel' PFactor ts' with
              | Some (a, ts'') => Some (Neg a, ts'')
              | None => None
              end
          | _ => parse fuel' PPower ts
          end
      | PPower =>
          match parse fuel' PAtom ts with
          | Some (a, TPow :: ts') =>
              match parse fuel' PFactor ts' with
              | Some (b, ts'') => Some (Bin Pow a b, ts'')
              | None => None
              end
          | other => other
          end
      | PAtom =>
          match ts with
          | TNum m k :: ts' => Some (Num m k, ts')
          | TName f :: TLParen :: ts' =>
              match parse fuel' PExpr ts' with
              | Some (a, TRParen :: ts'') => Some (Call f a, ts'')
              | _ => None
              end
          | TName x :: ts' => Some (Sym x, ts')
          | TLParen :: ts' =>
              match parse fuel' PExpr ts' with
              | Some (a, TRParen :: ts'') => Some (a, ts'')
              | _ => None
              end
          | _ => None
          end
      end
  end.

(** The parser of [sympify]: the text as an expression.  ([sympify]
    reports the parser's [SyntaxError] as a [SympifyError].) *)
Definition parse_expr (text : string) : result expr :=
  ts <- tokenize (S (String.length text)) text ;;
  match parse (8 * List.length ts + 8) PExpr ts with
  | Some (e, []) => Ok e
  | _ => Raise SympifyError
  end.

(** What the libraries do and the repository does not fix. *)
Class Library : Type := {
  (** the form that sympy gives to a parsed expression, as [lambdify]
      prints it: sums and products are reordered and simplified, a name
      that sympy knows ([pi], [E]) becomes a constant, any other name a
      free symbol *)
  canonical : expr -> result expr;
  (** the Python objects that are not floats: sympy expressions, complex
      numbers *)
  pyobject : Type;
  (** [sympy.Symbol(name)] *)
  symbol : string -> pyobject;
  (** [-v] for an object: an object again *)
  object_neg : pyobject -> result pyobject;
  (** an operator with an object among its operands: an object again *)
  object_binop : binop -> value pyobject -> value pyobject -> result pyobject;
  (** [numpy.abs(v)] for an object: an object again *)
  object_abs : pyobject -> result pyobject;
  (** [x ** y] for two Python floats: a float, a complex number or an
      exception *)
  float_pow : float -> float -> result (value pyobject);
  (** a call that is not [exp] or [log] of a float: another function of
      numpy's namespace, a function of an object, or [NameError] for a name
      that the namespace lacks *)
  namespace_call : string -> value pyobject -> result (value pyobject)
}.

Abbreviation Value := (value pyobject).

(** [sympy.sympify(text, locals={"exp": sp.exp, "log": sp.log})] *)
Definition sympify {Y : Library} (text : string) : result expr :=
  e <- parse_expr text ;;
  canonical e.

(** A function made by [lambdify]: its positional arguments and its body. *)
Record Lambda : Type := { lam_args : list string; lam_body : expr }.

(** [sympy.symbols(names)], for names that are plain identifiers. *)
Definition symbols (names : list string) : list string := names.

(** [sympy.lambdify(args, e, "numpy")] *)
Definition lambdify (args : list string) (e : expr) : Lambda :=
  {| lam_args := args; lam_body := e |}.

(** numpy's arithmetic on [float64]. *)
Definition numpy_arith {L : Libm} (op : binop) (x y : float) : float :=
  match op with
  | Add => add x y
  | Sub => sub x y
  | Mul => mul x y
  | Div => div x y
  | Pow => np_power x y
  end.

(** Python's arithmetic on its own floats. *)
Definition python_arith {Y : Library} (op : binop) (x y : float) : result Value :=
  match op with
  | Add => Ok (PyFloat (add x y))
  | Sub => Ok (PyFloat (sub x y))
  | Mul => Ok (PyFloat (mul x y))
  | Div => if is_zero y then Raise ZeroDivisionError else Ok (PyFloat (div x y))
  | Pow => float_pow x y
  end.

(** [a op b]: numpy's arithmetic as soon as one operand is a [float64]. *)
Definition arith {L : Libm} {Y : Library} (op : binop) (a b : Value) : result Value :=
  match a, b with
  | PyFloat x, PyFloat y => python_arith op x y
  | NpFloat x, NpFloat y | NpFloat x, PyFloat y | PyFloat x, NpFloat y =>
      Ok (NpFloat (numpy_arith op x y))
  | _, _ => o <- object_binop op a b ;; Ok (PyObject o)
  end.

Definition negative {Y : Library} (v : Value) : result Value :=
  match v with
  | NpFloat x => Ok (NpFloat (opp x))
  | PyFloat x => Ok (PyFloat (opp x))
  | PyObject o => r <- object_neg o ;; Ok (PyObject r)
  end.

(** [exp(v)], [log(v)] and the other functions of the namespace. *)
Definition apply_function {L : Libm} {Y : Library} (f : string) (v : Value)
  : result Value :=
  match v with
  | NpFloat x | PyFloat x =>
      if String.eqb f "exp" then Ok (NpFloat (np_exp x))
      else if String.eqb f "log" then Ok (NpFloat (np_log x))
      else namespace_call f v
  | PyObject _ => namespace_call f v
  end.

(** Evaluation of the body with the arguments bound. *)
Fixpoint eval {L : Libm} {Y : Library} (env : list (string * Value)) (e : expr)
  : result Value :=
  match e with
  | Num m k => Ok (PyFloat (of_decimal m k))
  | Const x => Ok (PyFloat x)
  | Sym x =>
      match dict_get x env with
      | Some v => Ok v
      | None => Ok (PyObject (symbol x))
      end
  | Neg a => v <- eval env a ;; negative v
  | Bin op a b => x <- eval env a ;; y <- eval env b ;; arith op x y
  | Call f a => v <- eval env a ;; apply_function f v
  end.

(** Calling the function with positional arguments. *)
Definition call {L : Libm} {Y : Library} (f : Lambda) (args : list Value)
  : result Value :=
  if (List.length args =? List.length (lam_args f))%nat
  then eval (combine (lam_args f) args) (lam_body f)
  else Raise TypeError.

End Sympy.

Import Sympy.

(** *** [create_function] *)

Definition create_function {Y : Library} (equation_str : string)
  (param_names : list string) : result Lambda :=
  let equation_str := replace_char "^"%char "**" equation_str in
  let symbols := symbols param_names in
  expr <- sympify equation_str ;;
  let func := lambdify symbols expr in
  Ok func.

(** *** [split_df] *)

Definition split_df {R : NumpyRandom} (df : DataFrame) (split_frac : float) (seed : Z)
  : M (DataFrame * DataFrame) :=
  sampled <~ sample df (Some seed) ;;
  let df_shuffled := reset_index sampled in
  split_idx <~ lift (to_int (mul split_frac (of_Z (Z.of_nat (len df_shuffled))))) ;;
  let train_df := iloc_to split_idx df_shuffled in
  let test_df := iloc_from split_idx df_shuffled in
  ret (train_df, test_df).

(** ** utils/MEDProcessor.py *)

Record MEDProcessor : Type := {
  self_df : DataFrame;
  self_target : string;
  self_folder_save_name : string;
  self_param_names : list string
}.

(** The dictionary returned by [prepare_data]. *)
Record Parameters : Type := {
  names : list string;
  minimums : list float;
  maximums : list float
}.

(** The characters that [repr] treats apart. *)
Definition backslash : ascii := "092"%char.
Definition single_quote : ascii := "039"%char.
Definition double_quote : ascii := "034"%char.

Fixpoint contains (c : ascii) (s : string) : bool :=
  match s with
  | EmptyString => false
  | String d r => Ascii.eqb d c || contains c r
  end.

Definition hex_digit (n : nat) : ascii :=
  ascii_of_nat (if (n <? 10)%nat then 48 + n else 87 + n).

(** The escaped characters between the quotes. *)
Fixpoint repr_chars (quote : ascii) (s : string) : string :=
  match s with
  | EmptyString => EmptyString
  | String c r =>
      let n := nat_of_ascii c in
      let rest := repr_chars quote r in
      if Ascii.eqb c quote || Ascii.eqb c backslash then String backslash (String c rest)
      else if (n =? 9)%nat then String backslash (String "t" rest)
      else if (n =? 10)%nat then String backslash (String "n" rest)
      else if (n =? 13)%nat then String backslash (String "r" rest)
      else if (n <? 32)%nat || (n =? 127)%nat then
        String backslash (String "x" (String (hex_digit (n / 16))
                                             (String (hex_digit (n mod 16)) rest)))
      else String c rest
  end.

(** [repr(s)] of a string: single quotes, or double quotes when the
    string has a single quote and no double quote; the quote in use and the
    backslash are escaped, and so are the control characters.  (Bytes above
    127 are taken to belong to printable characters, which Python leaves as
    they are.) *)
Definition repr_str (s : string) : string :=
  let quote :=
    if contains single_quote s && negb (contains double_quote s) then double_quote
    else single_quote in
  String quote (String.append (repr_chars quote s) (String quote EmptyString)).

(** [repr(l)] of a list of strings, as an f-string writes it. *)
Definition repr_names (l : list string) : string :=
  String.append "[" (String.append (String.concat ", " (map repr_str l)) "]").

Definition __init__ (param_names : list string) (df : DataFrame)
  (target : string) (folder_save_name : string) : result MEDProcessor :=
  let missing := filter (fun p => negb (has_column df p)) param_names in
  match missing with
  | _ :: _ =>
      Raise (ValueError (String.append
        "The following param_names are not found in the DataFrame columns: "
        (repr_names missing)))
  | [] =>
      Ok {| self_df := df;
            self_target := target;
            self_folder_save_name := folder_save_name;
            self_param_names := param_names |}
  end.

Definition prepare_data {R : NumpyRandom} (self : MEDProcessor)
  (split_frac : float) (seed : Z) : M (DataFrame * DataFrame * Parameters) :=
  split <~ split_df (self_df self) split_frac seed ;;
  let '(train_df, test_df) := split in
  minimums <~ lift (mapM (fun param =>
      col <- get_column (self_df self) param ;; Ok (series_min col))
    (self_param_names self)) ;;
  maximums <~ lift (mapM (fun param =>
      col <- get_column (self_df self) param ;; Ok (series_max col))
    (self_param_names self)) ;;
  let parameters :=
    {| names := self_param_names self;
       minimums := minimums;
       maximums := maximums |} in
  ret (train_df, test_df, parameters).

(** [tmp_path if tmp_path else f"{self.folder_save_name}/hall_of_fame.csv"] *)
Definition eq_path (self : MEDProcessor) (tmp_path : option string) : string :=
  match tmp_path with
  | Some p => if truthy tmp_path then p
              else String.append (self_folder_save_name self) "/hall_of_fame.csv"
  | None => String.append (self_folder_save_name self) "/hall_of_fame.csv"
  end.

(** [f"Complexity {complexity} {self.target} p err"] *)
Definition err_column (complexity : Z) (target : string) : string :=
  String.append "Complexity " (String.append (str_int complexity)
    (String.append " " (String.append target " p err"))).

(** [np.abs(actual - pred) / (np.abs(actual) + 1e-8)] on numbers. *)
Definition relative_error (actual pred : float) : float :=
  div (abs (sub actual pred)) (add (abs actual) eps).

(** A value of a row that [iterrows] yields: a numpy [float64] when every
    column of the table is [float64], a Python float when some column has
    the type [object]. *)
Definition iterrows_value {Y : Library} (df : DataFrame) (x : float) : Value :=
  if mixed df then PyFloat x else NpFloat x.

(** [test_row[name]] *)
Definition row_item {Y : Library} (df : DataFrame) (test_row : Row) (name : string)
  : result Value :=
  v <- row_get df test_row name ;;
  Ok (iterrows_value df v).

(** [np.abs(v)] *)
Definition np_abs {Y : Library} (v : Value) : result Value :=
  match v with
  | NpFloat x | PyFloat x => Ok (NpFloat (abs x))
  | PyObject o => r <- object_abs o ;; Ok (PyObject r)
  end.

(** [np.abs(actual - pred) / (np.abs(actual) + 1e-8)] *)
Definition np_relative_error {L : Libm} {Y : Library} (actual pred : Value)
  : result Value :=
  diff <- arith Sub actual pred ;;
  num <- np_abs diff ;;
  mag <- np_abs actual ;;
  den <- arith Add mag (PyFloat eps) ;;
  arith Div num den.

(** [{param: test_row[param] for param in self.param_names}] *)
Fixpoint param_entries {Y : Library} (df : DataFrame) (test_row : Row)
  (params : list string) (d : dict Value) : result (dict Value) :=
  match params with
  | [] => Ok d
  | param :: rest =>
      v <- row_item df test_row param ;;
      param_entries df test_row rest (dict_set param v d)
  end.

(** The inner loop of [test_equations]: one error entry per equation.  (A
    function object is always truthy, so the [if func:] test always
    passes.) *)
Fixpoint score_equations {L : Libm} {Y : Library} (self : MEDProcessor)
  (df : DataFrame) (test_row : Row) (equations : list (Lambda * Z))
  (result_row : dict Value) : result (dict Value) :=
  match equations with
  | [] => Ok result_row
  | (func, complexity) :: rest =>
      param_values <- mapM (row_item df test_row) (self_param_names self) ;;
      pred <- call func param_values ;;
      actual <- row_item df test_row (self_target self) ;;
      err <- np_relative_error actual pred ;;
      score_equations self df test_row rest
        (dict_set (err_column complexity (self_target self)) err result_row)
  end.

(** The body of the outer loop: the result row of one test row. *)
Definition score_row {L : Libm} {Y : Library} (self : MEDProcessor) (df : DataFrame)
  (equations : list (Lambda * Z)) (test_row : Row) : result (dict Value) :=
  result_row <- param_entries df test_row (self_param_names self) [] ;;
  t <- row_item df test_row (self_target self) ;;
  let result_row := dict_set (self_target self) t result_row in
  score_equations self df test_row equations result_row.

(** The [Function] column: every equation text compiled. *)
Definition compile_all {Y : Library} (self : MEDProcessor)
  (df_equations : list EquationRecord) : result (list (Lambda * Z)) :=
  mapM (fun row =>
          f <- create_function (Equation row) (self_param_names self) ;;
          Ok (f, Complexity row))
       df_equations.

(** The rows of the result are dictionaries; [pd.DataFrame(results)] makes
    a table of them. *)
Definition test_equations {R : NumpyRandom} {L : Libm} {S : Sorting} {Y : Library}
  (self : MEDProcessor) (test_df : DataFrame) (tmp_path : option string)
  : M (list (dict Value)) :=
  df_equations <~ read_csv (eq_path self tmp_path) ;;
  equations <~ lift (compile_all self df_equations) ;;
  let test_df := sort_values (self_param_names self) test_df in
  results <~ lift (mapM (score_row self test_df equations) (rows test_df)) ;;
  ret results.

Definition get_complexity_equation {R : NumpyRandom} (self : MEDProcessor)
  (complexity : Z) (tmp_path : option string) : M (option string) :=
  df_equations <~ read_csv (eq_path self tmp_path) ;;
  let equation_row :=
    filter (fun r => Complexity r =? complexity) df_equations in
  ret (match equation_row with
       | r :: _ => Some (Equation r)
       | [] => None
       end).

(** ** utils/general_utils.py: the artifact of the discovery backend

    [find_hof_file] and [move_hof_file] work on the file system through
    [glob], [os] and [shutil].  These calls are an interface over a state
    of the file system; a failing call returns the exception it raises.
    Console output ([print]) is not modelled. *)

Module Os.

(** [OSError] (told by its [errno]: [FileNotFoundError] is [ENOENT], ...),
    [shutil.Error], and the built-in exceptions. *)
Inductive exception : Type :=
| Builtin (e : exn)
| OSError (errno : Z)
| ShutilError (msg : string).

Inductive outcome (A : Type) : Type :=
| Done (a : A)
| Failed (e : exception).

Arguments Done {A} a.
Arguments Failed {A} e.

Definition and_then {A B} (c : outcome A) (k : A -> outcome B) : outcome B :=
  match c with
  | Done a => k a
  | Failed e => Failed e
  end.

Class FileSystem : Type := {
  fs_state : Type;
  (** [glob.glob(pattern, recursive=True)] *)
  glob : string -> fs_state -> list string;
  (** [os.path.getmtime(path)] *)
  getmtime : string -> fs_state -> outcome float;
  (** [os.path.exists(path)] *)
  path_exists : string -> fs_state -> bool;
  (** [os.makedirs(path)] *)
  makedirs : string -> fs_state -> outcome unit * fs_state;
  (** [shutil.move(src, dst)]: the path that the file was moved to *)
  move : string -> string -> fs_state -> outcome string * fs_state
}.

(** [os.path.join(a, b)] on POSIX. *)
Definition startswith_sep (s : string) : bool :=
  match s with
  | String c _ => Ascii.eqb c "/"
  | EmptyString => false
  end.

Fixpoint endswith_sep (s : string) : bool :=
  match s with
  | EmptyString => false
  | String c EmptyString => Ascii.eqb c "/"
  | String _ r => endswith_sep r
  end.

Definition path_join (a b : string) : string :=
  if startswith_sep b then b
  else if String.eqb a EmptyString || endswith_sep a then String.append a b
  else String.append a (String.append "/" b).

(** [max(items, key=key)]: the keys are computed in the order of the
    items, and an item replaces the one kept so far when its key is greater
    ([>]). *)
Fixpoint max_from {A} (key : A -> outcome float) (best : A) (best_key : float)
  (items : list A) : outcome A :=
  match items with
  | [] => Done best
  | x :: rest =>
      and_then (key x) (fun k =>
        if ltb best_key k then max_from key x k rest
        else max_from key best best_key rest)
  end.

Definition max_by_key {A} (key : A -> outcome float) (items : list A) : outcome A :=
  match items with
  | [] => Failed (Builtin (ValueError "max() arg is an empty sequence"))
  | x :: rest => and_then (key x) (fun k => max_from key x k rest)
  end.

End Os.

Import Os.

Definition find_hof_file {F : FileSystem} (pattern : string) (s : fs_state)
  : outcome (option string) :=
  let files := glob pattern s in
  if (List.length files =? 0)%nat then Done None
  else if (1 <? List.length files)%nat then
    and_then (max_by_key (fun path => getmtime path s) files) (fun most_recent_file =>
    Done (Some most_recent_file))
  else
    match nth_error files 0 with
    | Some f => Done (Some f)
    | None => Failed (Builtin IndexError)
    end.

(** [os.path.join(dest_dir, "hall_of_fame.csv")] *)
Definition dest_file (dest_dir : string) : string :=
  path_join dest_dir "hall_of_fame.csv".

Definition move_hof_file {F : FileSystem} (dest_dir : string) (hof_file : option string)
  (s : fs_state) : outcome bool * fs_state :=
  if negb (truthy hof_file) then (Done false, s)
  else
    match hof_file with
    | Some src =>
        let '(made, s1) :=
          if negb (path_exists dest_dir s) then makedirs dest_dir s
          else (Done tt, s) in
        match made with
        | Failed e => (Failed e, s1)
        | Done _ =>
            match move src (dest_file dest_dir) s1 with
            | (Done _, s2) => (Done true, s2)
            | (Failed _, s2) => (Done false, s2)
            end
        end
    | None => (Done false, s)
    end.

(** ** The state of the process

    The code of the first part runs in a world of the global generator and
    the equation tables on disk.  The rest of the workflow also writes to
    the file system and calls the discovery backend: its state is the
    global generator and the file system. *)

Module Process.

Record Machine {R : NumpyRandom} {F : FileSystem} : Type := {
  random : rng_state;
  disk : fs_state
}.

Definition Run {R : NumpyRandom} {F : FileSystem} (A : Type) : Type :=
  Machine -> outcome A * Machine.

Definition run_bind {R : NumpyRandom} {F : FileSystem} {A B} (c : Run A) (k : A -> Run B)
  : Run B :=
  fun m =>
    match c m with
    | (Done a, m') => k a m'
    | (Failed e, m') => (Failed e, m')
    end.

(** Code without effect. *)
Definition run_lift {R : NumpyRandom} {F : FileSystem} {A} (c : outcome A) : Run A :=
  fun m => (c, m).

(** Code that only looks at the file system. *)
Definition read_disk {R : NumpyRandom} {F : FileSystem} {A} (c : fs_state -> outcome A)
  : Run A :=
  fun m => (c (disk m), m).

(** Code that works on the file system. *)
Definition on_disk {R : NumpyRandom} {F : FileSystem} {A}
  (c : fs_state -> outcome A * fs_state) : Run A :=
  fun m =>
    let '(r, s) := c (disk m) in
    (r, {| random := random m; disk := s |}).

(** An exception of the first part, raised here. *)
Definition of_result {A} (c : result A) : outcome A :=
  match c with
  | Ok a => Done a
  | Raise e => Failed (Builtin e)
  end.

(** pandas reads and writes the tables: a dataset, an equation table (as
    the first part reads it), a table of results. *)
Class Csv {F : FileSystem} {Y : Library} : Type := {
  (** [pd.read_csv(path)] of a dataset *)
  read_dataset : string -> fs_state -> outcome DataFrame;
  (** [pd.read_csv(path)] of an equation table *)
  read_table : string -> fs_state -> option (list EquationRecord);
  (** [df_results.to_csv(path)] *)
  to_csv : list (dict Value) -> string -> fs_state -> outcome unit * fs_state
}.

(** The world that the code of the first part sees. *)
Definition world_of {R : NumpyRandom} {F : FileSystem} {Y : Library} {C : Csv}
  (m : Machine) : World :=
  {| np_random := random m; files := fun path => read_table path (disk m) |}.

(** Code of the first part: it reads the files and may draw from the
    generator. *)
Definition in_world {R : NumpyRandom} {F : FileSystem} {Y : Library} {C : Csv} {A}
  (c : M A) : Run A :=
  fun m =>
    let '(r, w) := c (world_of m) in
    (of_result r, {| random := np_random w; disk := disk m |}).

End Process.

Import Process.

Notation "x <== c ;; k" := (run_bind c (fun x => k))
  (at level 61, c at next level, right associativity) : py_scope.

(** ** utils/MEDProcessor.py: [run_med_discovery]

    The discovery backend [medeq] is an interface: the calls that
    [run_med_discovery] makes, with the arguments it passes.  Each call may
    fail, write to the file system and use the global generator. *)

Module Backend.

Class Medeq {R : NumpyRandom} {F : FileSystem} : Type := {
  med_parameters : Type;
  med_object : Type;
  (** [medeq.create_parameters(names, minimums=, maximums=)] *)
  create_parameters : list string -> list float -> list float -> Run med_parameters;
  (** [medeq.MED(parameters, response_names=, seed=)] *)
  MED : med_parameters -> string -> Z -> Run med_object;
  (** [med.augment(data, response)] *)
  augment : med_object -> DataFrame -> list float -> Run med_object;
  (** [med.save(folder)] *)
  save : med_object -> string -> Run unit;
  (** [med.discover(binary_operators=, constraints=, unary_operators=)] *)
  discover : med_object -> list string -> list (string * (Z * Z)) -> list string ->
             Run unit
}.

(** [df[names]]: the listed columns, in the listed order.  (pandas names
    every absent column in the message of its [KeyError]; here the first
    one is the key.) *)
Definition select_columns (df : DataFrame) (names : list string) : result DataFrame :=
  locs <- mapM (fun name => match column_index name (columns df) with
                            | Some i => Ok i
                            | None => Raise (KeyError name)
                            end) names ;;
  rs <- mapM (fun r =>
                cs <- mapM (fun i => match nth_error (cells r) i with
                                     | Some v => Ok v
                                     | None => Raise IndexError
                                     end) locs ;;
                Ok {| label := label r; cells := cs |}) (rows df) ;;
  Ok {| columns := names; rows := rs; object_columns := object_columns df |}.

End Backend.

Import Backend.

Definition run_med_discovery {R : NumpyRandom} {F : FileSystem} {B : Medeq}
  (self : MEDProcessor) (train_df : DataFrame) (parameters : Parameters) : Run unit :=
  target_values <== run_lift (of_result (get_column train_df (self_target self))) ;;
  med_params <== create_parameters (names parameters) (minimums parameters)
                                   (maximums parameters) ;;
  med <== MED med_params (self_target self) 200 ;;
  data <== run_lift (of_result (select_columns train_df (names parameters))) ;;
  med <== augment med data target_values ;;
  _ <== save med (self_folder_save_name self) ;;
  discover med ["+"; "-"; "*"; "/"; "^"]%string [("^"%string, (-1, 1))]
           ["exp"; "log"]%string.

(** ** med_fitting.py

    [time.sleep] and the console output are not modelled. *)

Definition hof_pattern : string := "/var/folders/lp/*/T**/**/hall_of_fame.csv".

(** The keyword defaults [split_seed=100] and [tt_split=0.7]. *)
Definition default_split_seed : Z := 100.
Definition default_tt_split : float := Eval vm_compute in of_decimal 7 (-1).

Definition run_med_processor {R : NumpyRandom} {L : Libm} {S : Sorting}
  {F : FileSystem} {B : Medeq} {Y : Library} {C : Csv}
  (in_df_path folder_save_path : string) (param_list : list string) (target : string)
  (split_seed : Z) (tt_split : float) : Run unit :=
  df <== read_disk (read_dataset in_df_path) ;;
  med_study <== run_lift (of_result (__init__ param_list df target folder_save_path)) ;;
  prepared <== in_world (prepare_data med_study tt_split split_seed) ;;
  let '(train_df, test_df, parameters) := prepared in
  _ <== run_med_discovery med_study train_df parameters ;;
  hof_path <== read_disk (find_hof_file hof_pattern) ;;
  _ <== on_disk (move_hof_file folder_save_path hof_path) ;;
  df_results <== in_world (test_equations med_study test_df None) ;;
  let test_results_path := String.append folder_save_path "/med_unseen.csv" in
  on_disk (to_csv df_results test_results_path).

(** [study_params.split("-")] of the batch loop: [s.split(sep)] for a
    one-character separator. *)
Fixpoint split_on (sep : ascii) (s : string) : list string :=
  match s with
  | EmptyString => [EmptyString]
  | String c r =>
      if Ascii.eqb c sep then EmptyString :: split_on sep r
      else match split_on sep r with
           | word :: words => String c word :: words
           | [] => [String c EmptyString]
           end
  end.

Definition sweep_parameter_list (study_params : string) : list string :=
  split_on "-" study_params.

(** ** Names used to state the properties of [split_df] *)

Definition no_row : Row := {| label := 0%nat; cells := [] |}.

(** The original row at a position. *)
Definition row_at (df : DataFrame) (i : nat) : Row := nth i (rows df) no_row.

(** The positions drawn for a seed. *)
Definition drawn {R : NumpyRandom} (df : DataFrame) (seed : Z) : list nat :=
  fst (rng_permutation (RandomState seed) (len df)).

(** The table [df_shuffled] of [split_df]. *)
Definition shuffled {R : NumpyRandom} (df : DataFrame) (seed : Z) : DataFrame :=
  reset_index {| columns := columns df; rows := map (row_at df) (drawn df seed);
                 object_columns := object_columns df |}.


(** ** Names used to state the rounding lemmas *)

Module Dyadic.

(** [shr_inv X k mrs]: the record holds [X] shifted right by [k] bits. *)
Definition shr_inv (X k : Z) (mrs : shr_record) : Prop :=
  shr_m mrs = X / 2 ^ k /\ (shr_r mrs || shr_s mrs = false <-> X mod 2 ^ k = 0).

(** Comparison of the dyadic number [m * 2^e] with the integer [B]. *)
Definition le_sc (m e B : Z) : Prop := m * 2 ^ Z.max 0 e <= B * 2 ^ Z.max 0 (- e).
Definition ge_sc (m e B : Z) : Prop := B * 2 ^ Z.max 0 (- e) <= m * 2 ^ Z.max 0 e.

End Dyadic.

(** The floor of the exact product of a positive finite float and an
    integer. *)
Definition exact_floor (f : float) (n : Z) : Z :=
  match f with
  | S754_finite false m e => Z.shiftl (Z.pos m * n) e
  | _ => 0
  end.

(** ** Names used to state the properties of the column bounds *)

(** [m] is the least value of a column, NaN skipped: it is below every
    value, it is one of the values when there is one, and NaN otherwise. *)
Definition is_minimum (m : float) (col : list float) : Prop :=
  (forall v, In v col -> is_nan v = false -> leb m v = true) /\
  ((exists v, In v col /\ is_nan v = false) -> In m col /\ is_nan m = false) /\
  ((forall v, In v col -> is_nan v = true) -> is_nan m = true).

Definition is_maximum (m : float) (col : list float) : Prop :=
  (forall v, In v col -> is_nan v = false -> leb v m = true) /\
  ((exists v, In v col /\ is_nan v = false) -> In m col /\ is_nan m = false) /\
  ((forall v, In v col -> is_nan v = true) -> is_nan m = true).

(** Every row has one cell per column. *)
Definition well_formed (df : DataFrame) : Prop :=
  Forall (fun r => List.length (cells r) = List.length (columns df)) (rows df).

(** ** Names used to state the properties of compiled equations *)




(** The characters of a text. *)
Definition chars (s : string) : list ascii := list_ascii_of_string s.

(** ** Names used to compare binary64 values *)

Module FloatOrder.

(** A key whose lexicographic order is the order of the non-NaN floats. *)
Definition key (x : float) : Z * Z * Z :=
  match x with
  | S754_nan => (0, 0, 0)
  | S754_zero _ => (0, 0, 0)
  | S754_infinity false => (2, 0, 0)
  | S754_infinity true => (-2, 0, 0)
  | S754_finite false m e => (1, e, Z.pos m)
  | S754_finite true m e => (-1, - e, - Z.pos m)
  end.

Definition lt3 (a b : Z * Z * Z) : Prop :=
  let '(a1, a2, a3) := a in
  let '(b1, b2, b3) := b in
  a1 < b1 \/ (a1 = b1 /\ (a2 < b2 \/ (a2 = b2 /\ a3 < b3))).

Definition le3 (a b : Z * Z * Z) : Prop :=
  let '(a1, a2, a3) := a in
  let '(b1, b2, b3) := b in
  a1 < b1 \/ (a1 = b1 /\ (a2 < b2 \/ (a2 = b2 /\ a3 <= b3))).

End FloatOrder.

(** ** Names used to state the properties of the relative error *)

Module Sign.

(** A float is NaN or carries the sign [s]. *)
Definition signed (s : bool) (x : float) : Prop :=
  match x with
  | S754_nan => True
  | S754_zero s' | S754_infinity s' | S754_finite s' _ _ => s' = s
  end.

(** A float is a positive number or [+inf]. *)
Definition positive (x : float) : Prop :=
  match x with
  | S754_finite false _ _ | S754_infinity false => True
  | _ => False
  end.

End Sign.

(** ** Sample data *)

Module Examples.

(** A generator that always draws the reversed order; its state counts the
    draws. *)
#[export] Instance reversing : NumpyRandom := {|
  rng_state := Z;
  RandomState := fun seed => seed;
  rng_permutation := fun g n => (rev (seq 0 n), g + 1)
|}.

(** A sort that keeps the order of the rows. *)
#[export] Instance keep_order : Sorting := {| sort_values := fun _ df => df |}.

(** Stand-ins for the platform's elementary functions. *)
#[export] Instance no_libm : Libm := {|
  libm_exp := fun _ => nan;
  libm_log := fun _ => nan;
  libm_pow := fun _ _ => nan
|}.

(** A library that leaves every parsed expression as it is written.  Its
    objects are expressions: an operation on an object gives the expression
    of the operation. *)
Definition as_expr (v : value expr) : expr :=
  match v with
  | NpFloat x | PyFloat x => Const x
  | PyObject e => e
  end.

#[export] Instance as_written : Library := {|
  canonical := fun e => Ok e;
  pyobject := expr;
  symbol := Sym;
  object_neg := fun o => Ok (Neg o);
  object_binop := fun op a b => Ok (Bin op (as_expr a) (as_expr b));
  object_abs := fun o => Ok (Call "Abs" o);
  float_pow := fun x y => Ok (PyFloat (np_power x y));
  namespace_call := fun f v => Ok (PyObject (Call f (as_expr v)))
|}.

(** [x = 0 .. n-1] with [y = 2*x + 1]. *)
Definition line_row (i : nat) : Row :=
  {| label := i; cells := [of_Z (Z.of_nat i); of_Z (2 * Z.of_nat i + 1)] |}.

Definition line (n : nat) : DataFrame :=
  {| columns := ["x"; "y"]%string; rows := map line_row (seq 0 n);
     object_columns := [] |}.



Definition seven_tenths : float := Eval vm_compute in of_decimal 7 (-1).
Definition twenty_nine_hundredths : float := Eval vm_compute in of_decimal 29 (-2).
Definition minus_half : float := Eval vm_compute in of_decimal (-5) (-1).

Definition hall_of_fame : list EquationRecord :=
  [ {| Equation := "x"; Complexity := 1 |};
    {| Equation := "2*x + 1"; Complexity := 5 |};
    {| Equation := "x^2"; Complexity := 3 |};
    {| Equation := "x + x + 1"; Complexity := 5 |} ]%string.

(** The table of a run that found the exact law. *)
Definition linear_table : list EquationRecord :=
  [ {| Equation := "2*x + 1"; Complexity := 1 |} ]%string.

(** A table with a logarithm and a quotient. *)
Definition singular_table : list EquationRecord :=
  [ {| Equation := "log(x)"; Complexity := 2 |};
    {| Equation := "1/x"; Complexity := 3 |} ]%string.

Definition disk (path : string) : option (list EquationRecord) :=
  if String.eqb path "med_study/hall_of_fame.csv" then Some hall_of_fame
  else if String.eqb path "linear/hall_of_fame.csv" then Some linear_table
  else if String.eqb path "singular/hall_of_fame.csv" then Some singular_table
  else None.

(** A study of [y] against [x] on the ten-row line. *)
Definition study (folder : string) : MEDProcessor :=
  {| self_df := line 10;
     self_target := "y";
     self_folder_save_name := folder;
     self_param_names := ["x"%string] |}.

Definition world0 : World := {| np_random := 0; files := disk |}.

End Examples.

(** ** More sample data *)

Module Samples.

Definition three : float := Eval vm_compute in of_Z 3.

(** A table whose second equation is cut short, and a table whose second
    equation has a name that is not a parameter. *)
Definition cut_record : EquationRecord := {| Equation := "2*x +"; Complexity := 3 |}.

Definition cut_short : list EquationRecord :=
  [ {| Equation := "x"; Complexity := 1 |};
    cut_record;
    {| Equation := "x + 1"; Complexity := 5 |} ]%string.

Definition undeclared : list EquationRecord :=
  [ {| Equation := "x"; Complexity := 1 |};
    {| Equation := "x + z"; Complexity := 3 |} ]%string.

Definition tables (path : string) : option (list EquationRecord) :=
  if String.eqb path "cut_short/hall_of_fame.csv" then Some cut_short
  else if String.eqb path "undeclared/hall_of_fame.csv" then Some undeclared
  else Examples.disk path.

Definition world : World (R := Examples.reversing) :=
  {| np_random := RandomState (NumpyRandom := Examples.reversing) 0; files := tables |}.

(** A test table without rows. *)
Definition no_rows : DataFrame :=
  {| columns := ["x"; "y"]%string; rows := []; object_columns := [] |}.

(** A toy file system: the regular files with their modification times,
    and the directories.  Every pattern matches every file. *)
Record shelf_state : Type := {
  shelf_files : list (string * float);
  shelf_dirs : list string
}.

#[export] Instance shelf : FileSystem := {|
  fs_state := shelf_state;
  glob := fun _ s => map fst (shelf_files s);
  getmtime := fun p s =>
    match dict_get p (shelf_files s) with
    | Some t => Done t
    | None => Failed (OSError 2)
    end;
  path_exists := fun p s =>
    match dict_get p (shelf_files s) with
    | Some _ => true
    | None => existsb (String.eqb p) (shelf_dirs s)
    end;
  makedirs := fun p s =>
    (Done tt, {| shelf_files := shelf_files s; shelf_dirs := p :: shelf_dirs s |});
  move := fun src dst s =>
    match dict_get src (shelf_files s) with
    | Some t =>
        (Done dst,
         {| shelf_files :=
              dict_set dst t
                (filter (fun e => negb (String.eqb (fst e) src)) (shelf_files s));
            shelf_dirs := shelf_dirs s |})
    | None => (Failed (OSError 2), s)
    end
|}.

(** A backend that finds nothing, and tables that do not depend on the
    shelf: the dataset is the ten-row line. *)
#[export] Instance idle : Medeq (R := Examples.reversing) (F := shelf) := {|
  med_parameters := unit;
  med_object := unit;
  create_parameters := fun _ _ _ => run_lift (Done tt);
  MED := fun _ _ _ => run_lift (Done tt);
  augment := fun _ _ _ => run_lift (Done tt);
  save := fun _ _ => run_lift (Done tt);
  discover := fun _ _ _ _ => run_lift (Done tt)
|}.

#[export] Instance csv : Csv (F := shelf) (Y := Examples.as_written) := {|
  read_dataset := fun path _ =>
    if String.eqb path "med_input_csvs/data.csv" then Done (Examples.line 10)
    else Failed (OSError 2);
  read_table := fun path _ => Examples.disk path;
  to_csv := fun _ _ s => (Done tt, s)
|}.

Definition earlier : float := Eval vm_compute in of_Z 1000.
Definition later : float := Eval vm_compute in of_Z 2000.

(** Three artifacts; the last two were written at the same time. *)
Definition temp : shelf_state :=
  {| shelf_files := [("/tmp/a/hall_of_fame.csv", earlier);
                     ("/tmp/b/hall_of_fame.csv", later);
                     ("/tmp/c/hall_of_fame.csv", later)]%string;
     shelf_dirs := [] |}.

Definition bare : shelf_state := {| shelf_files := []; shelf_dirs := [] |}.

Definition machine (s : shelf_state) : Machine (R := Examples.reversing) (F := shelf) :=
  {| random := RandomState (NumpyRandom := Examples.reversing) 0; disk := s |}.

(** A backend that keeps a journal of the calls it receives.  Its file
    system is the journal; the parameters object that it makes is the
    triple of the arguments it was made from. *)
Inductive BackendCall : Type :=
| CreateParameters (names : list string) (minimums maximums : list float)
| NewMED (parameters : list string * list float * list float)
         (response_names : string) (seed : Z)
| Augment (data : DataFrame) (response : list float)
| Save (folder : string)
| Discover (binary_operators : list string) (constraints : list (string * (Z * Z)))
           (unary_operators : list string).

#[export] Instance journal : FileSystem := {|
  fs_state := list BackendCall;
  glob := fun _ _ => [];
  getmtime := fun _ _ => Failed (OSError 2);
  path_exists := fun _ _ => false;
  makedirs := fun _ s => (Done tt, s);
  move := fun _ _ s => (Failed (OSError 2), s)
|}.

(** The state of the process with the calls recorded so far. *)
Definition recording {R : NumpyRandom} (g : rng_state) (calls : list BackendCall)
  : Machine (R := R) (F := journal) :=
  @Build_Machine R journal g calls.

Definition note {R : NumpyRandom} {A} (c : BackendCall) (a : A) : Run (F := journal) A :=
  fun m => (Done a, recording (random m) (List.app (disk m) [c])).

#[export] Instance recorder {R : NumpyRandom} : Medeq (R := R) (F := journal) := {|
  med_parameters := list string * list float * list float;
  med_object := unit;
  create_parameters := fun ns mn mx => note (CreateParameters ns mn mx) (ns, mn, mx);
  MED := fun p r s => note (NewMED p r s) tt;
  augment := fun _ data response => note (Augment data response) tt;
  save := fun _ folder => note (Save folder) tt;
  discover := fun _ b c u => note (Discover b c u) tt
|}.

End Samples.

(* ================================================================== *)
(** * Part II: properties *)
(* ================================================================== *)

(** ** Rounding of binary64 products

    The split index is [int(split_frac * len(df))]: a binary64 product,
    rounded to nearest even, then truncated.  The lemmas below bound the
    rounded product of a fraction and an exactly representable integer. *)

Module Float64Facts.

Import Dyadic.

Lemma digits2_size p : digits2_pos p = Pos.size p.
Proof. induction p; simpl; congruence. Qed.

Lemma Zdigits2_bounds M : 0 < M -> 2 ^ (Zdigits2 M - 1) <= M < 2 ^ (Zdigits2 M).
Proof.
  destruct M as [|p|p]; try lia. intros _. simpl Zdigits2. rewrite digits2_size.
  assert (H : Z.pos (Pos.size p) = Z.log2 (Z.pos p) + 1).
  { destruct p; simpl; lia. }
  rewrite H. replace (Z.log2 (Z.pos p) + 1 - 1) with (Z.log2 (Z.pos p)) by lia.
  replace (Z.log2 (Z.pos p) + 1) with (Z.succ (Z.log2 (Z.pos p))) by lia.
  apply Z.log2_spec. lia.
Qed.


Lemma shr_1_inv X k mrs : 0 <= X -> 0 <= k -> shr_inv X k mrs -> shr_inv X (k + 1) (shr_1 mrs).
Proof.
  intros HX Hk [Hm Hrs]. destruct mrs as [m r s]. simpl in *.
  assert (Hp : 0 < 2 ^ k) by (apply Z.pow_pos_nonneg; lia).
  assert (Hdiv : X / 2 ^ (k + 1) = m / 2).
  { rewrite Z.pow_add_r by lia. change (2 ^ 1) with 2. rewrite <- Z.div_div by lia. now rewrite Hm. }
  assert (Hmod : X mod 2 ^ (k + 1) = X mod 2 ^ k + 2 ^ k * (m mod 2)).
  { rewrite Z.pow_add_r by lia. change (2 ^ 1) with 2. rewrite Z.rem_mul_r by lia. rewrite Hm. lia. }
  assert (Hm0 : 0 <= m) by (rewrite Hm; apply Z.div_pos; lia).
  unfold shr_inv. rewrite Hdiv, Hmod, <- Z.div2_div, Zmod_odd.
  assert (0 <= X mod 2 ^ k) by (apply Z.mod_pos_bound; lia).
  destruct m as [|[p|p|]|p]; simpl; try lia.
  all: split; [reflexivity|].
  all: split; [try discriminate; intros Hf; apply Hrs in Hf; lia | intros Hf].
  all: try (apply Hrs; lia); exfalso; lia.
Qed.

Lemma iter_pos_inv {A} (f : A -> A) (P : Z -> A -> Prop) :
  (forall k x, 0 <= k -> P k x -> P (k + 1) (f x)) ->
  forall p k x, 0 <= k -> P k x -> P (k + Z.pos p) (iter_pos f p x).
Proof.
  intros Hstep. induction p as [p IH|p IH|]; intros k x Hk Hx; simpl.
  - replace (k + Z.pos p~1) with (k + 1 + Z.pos p + Z.pos p) by lia.
    apply IH; [lia|]. apply IH; [lia|]. now apply Hstep.
  - replace (k + Z.pos p~0) with (k + Z.pos p + Z.pos p) by lia.
    apply IH; [lia|]. now apply IH.
  - now apply Hstep.
Qed.

Lemma shr_inv_iter X p :
  0 <= X -> shr_inv X (Z.pos p) (iter_pos shr_1 p (Build_shr_record X false false)).
Proof.
  intros HX. change (Z.pos p) with (0 + Z.pos p).
  apply (iter_pos_inv shr_1 (shr_inv X)); [intros; now apply shr_1_inv | lia |].
  split; simpl; [now rewrite Z.div_1_r | split; auto using Z.mod_1_r].
Qed.

(** Round to nearest even, applied to a shifted record, gives the floor or the
    floor plus one, and the floor when nothing was shifted out. *)
Lemma round_shr_bounds X k mrs :
  shr_inv X k mrs ->
  let m1 := round_nearest_even (shr_m mrs) (loc_of_shr_record mrs) in
  X / 2 ^ k <= m1 <= X / 2 ^ k + 1 /\ (X mod 2 ^ k = 0 -> m1 = X / 2 ^ k).
Proof.
  intros [Hm Hrs] m1. subst m1. destruct mrs as [m [|] [|]]; simpl in *; subst m.
  all: split; [try destruct (Z.even _); lia|].
  all: intros H0; apply Hrs in H0; try discriminate; reflexivity.
Qed.


Lemma pow2_pos k : 0 <= k -> 0 < 2 ^ k.
Proof. intros; apply Z.pow_pos_nonneg; lia. Qed.

Lemma pow2_split a b : 0 <= a -> 0 <= b -> 2 ^ (a + b) = 2 ^ a * 2 ^ b.
Proof. intros; apply Z.pow_add_r; lia. Qed.

(** Both sides of a scaled comparison can be brought to a common scale. *)
Lemma scale_le x y e K :
  0 <= K -> 0 <= e + K ->
  (x * 2 ^ Z.max 0 e <= y * 2 ^ Z.max 0 (- e) <-> x * 2 ^ (e + K) <= y * 2 ^ K).
Proof.
  intros HK HeK.
  assert (H1 : 2 ^ (e + K) = 2 ^ Z.max 0 e * 2 ^ (K - Z.max 0 (- e))).
  { rewrite <- pow2_split by lia. f_equal; lia. }
  assert (H2 : 2 ^ K = 2 ^ Z.max 0 (- e) * 2 ^ (K - Z.max 0 (- e))).
  { rewrite <- pow2_split by lia. f_equal; lia. }
  rewrite H1, H2 at 1. rewrite !Z.mul_assoc.
  apply Z.mul_le_mono_pos_r. apply pow2_pos; lia.
Qed.

Lemma le_sc_scale m e B K :
  0 <= K -> 0 <= e + K -> (le_sc m e B <-> m * 2 ^ (e + K) <= B * 2 ^ K).
Proof. apply scale_le. Qed.

Lemma ge_sc_scale m e B K :
  0 <= K -> 0 <= e + K -> (ge_sc m e B <-> B * 2 ^ K <= m * 2 ^ (e + K)).
Proof.
  intros HK HeK. unfold ge_sc.
  assert (H1 : 2 ^ (e + K) = 2 ^ Z.max 0 e * 2 ^ (K - Z.max 0 (- e))).
  { rewrite <- pow2_split by lia. f_equal; lia. }
  assert (H2 : 2 ^ K = 2 ^ Z.max 0 (- e) * 2 ^ (K - Z.max 0 (- e))).
  { rewrite <- pow2_split by lia. f_equal; lia. }
  rewrite H1, H2 at 1. rewrite !Z.mul_assoc.
  apply Z.mul_le_mono_pos_r. apply pow2_pos; lia.
Qed.

Lemma le_sc_neg m e B : e <= 0 -> (le_sc m e B <-> m <= B * 2 ^ (- e)).
Proof.
  intros H. unfold le_sc. rewrite (Z.max_l 0 e), (Z.max_r 0 (- e)) by lia.
  now rewrite Z.pow_0_r, Z.mul_1_r.
Qed.

Lemma ge_sc_neg m e B : e <= 0 -> (ge_sc m e B <-> B * 2 ^ (- e) <= m).
Proof.
  intros H. unfold ge_sc. rewrite (Z.max_l 0 e), (Z.max_r 0 (- e)) by lia.
  now rewrite Z.pow_0_r, Z.mul_1_r.
Qed.

Lemma le_sc_pos m e B : 0 <= e -> (le_sc m e B <-> m * 2 ^ e <= B).
Proof.
  intros H. unfold le_sc. rewrite (Z.max_r 0 e), (Z.max_l 0 (- e)) by lia.
  now rewrite Z.pow_0_r, Z.mul_1_r.
Qed.

Lemma ge_sc_pos m e B : 0 <= e -> (ge_sc m e B <-> B <= m * 2 ^ e).
Proof.
  intros H. unfold ge_sc. rewrite (Z.max_r 0 e), (Z.max_l 0 (- e)) by lia.
  now rewrite Z.pow_0_r, Z.mul_1_r.
Qed.

Lemma floor_le_sc X e s B :
  0 <= X -> 0 <= s -> 0 <= B -> le_sc X e B -> le_sc (X / 2 ^ s) (e + s) B.
Proof.
  intros HX Hs HB H.
  set (K := Z.max 0 (- e)).
  apply (le_sc_scale X e B K) in H; try lia.
  apply (le_sc_scale _ (e + s) B K); try lia.
  replace (e + s + K) with (s + (e + K)) by lia. rewrite pow2_split by lia.
  pose proof (pow2_pos s Hs). pose proof (pow2_pos (e + K) ltac:(lia)).
  pose proof (Z.mul_div_le X (2 ^ s) ltac:(lia)).
  rewrite Z.mul_assoc. etransitivity; [|exact H].
  apply Z.mul_le_mono_nonneg_r; lia.
Qed.

Lemma ceil_le_sc X e s B m1 :
  0 <= X -> 0 <= s -> 0 <= B -> e + s <= 0 -> le_sc X e B ->
  m1 <= X / 2 ^ s + 1 -> (X mod 2 ^ s = 0 -> m1 <= X / 2 ^ s) ->
  le_sc m1 (e + s) B.
Proof.
  intros HX Hs HB Hes H Hm1 Hex.
  apply (proj1 (le_sc_neg X e B ltac:(lia))) in H. apply le_sc_neg; [lia|].
  replace (- e) with (- (e + s) + s) in H by lia. rewrite pow2_split in H by lia.
  pose proof (pow2_pos s Hs). pose proof (pow2_pos (- (e + s)) ltac:(lia)).
  set (C := B * 2 ^ (- (e + s))) in *. rewrite Z.mul_assoc in H. fold C in H.
  pose proof (Z.div_mod X (2 ^ s) ltac:(lia)).
  pose proof (Z.mod_pos_bound X (2 ^ s) ltac:(lia)).
  destruct (Z.eq_dec (X mod 2 ^ s) 0) as [E0|N0].
  - specialize (Hex E0). nia.
  - nia.
Qed.

Lemma floor_ge_sc X e s B :
  0 <= X -> 0 <= s -> e + s <= 0 -> ge_sc X e B -> ge_sc (X / 2 ^ s) (e + s) B.
Proof.
  intros HX Hs Hes H.
  apply (proj1 (ge_sc_neg X e B ltac:(lia))) in H. apply ge_sc_neg; [lia|].
  replace (- e) with (- (e + s) + s) in H by lia. rewrite pow2_split in H by lia.
  pose proof (pow2_pos s Hs). rewrite Z.mul_assoc in H.
  apply Z.div_le_lower_bound; lia.
Qed.

Lemma shr_fexp_exact_spec X e :
  0 <= X ->
  exists s, 0 <= s /\ snd (shr_fexp prec emax X e loc_Exact) = e + s /\
    shr_inv X s (fst (shr_fexp prec emax X e loc_Exact)) /\
    (s = 0 \/ (0 < s /\ e + s = fexp prec emax (Zdigits2 X + e))).
Proof.
  intros HX. unfold shr_fexp, shr. simpl shr_record_of_loc.
  destruct (fexp prec emax (Zdigits2 X + e) - e) as [|p|p] eqn:E; simpl fst; simpl snd.
  1,3: exists 0; repeat split; try lia; simpl; auto using Z.div_1_r, Z.mod_1_r.
  exists (Z.pos p). repeat split; try lia; try apply shr_inv_iter; auto.
Qed.

Lemma fexp_eq x : fexp prec emax x = Z.max (x - 53) (-1074).
Proof. reflexivity. Qed.

(** Rounding a positive exact product that does not exceed the integer [B]
    (itself exactly representable) gives a float that does not exceed [B]. *)
Lemma binary_round_aux_le sx M E B :
  0 < M -> 0 <= B < 2 ^ 53 -> le_sc M E B ->
  match binary_round_aux prec emax sx M E loc_Exact with
  | S754_zero s => s = sx
  | S754_finite s m e => s = sx /\ le_sc (Z.pos m) e B
  | _ => False
  end.
Proof.
  intros HM HB Hle. unfold binary_round_aux.
  destruct (shr_fexp_exact_spec M E ltac:(lia)) as (s & Hs & He' & Hinv & Hcase).
  destruct (shr_fexp prec emax M E loc_Exact) as [mrs' e']. simpl fst in *; simpl snd in *.
  pose proof (round_shr_bounds M s mrs' Hinv) as [Hb Hex].
  set (m1 := round_nearest_even (shr_m mrs') (loc_of_shr_record mrs')) in *.
  assert (Hq : 0 <= M / 2 ^ s) by (apply Z.div_pos; [lia | apply pow2_pos; lia]).
  assert (H1 : le_sc m1 e' B).
  { subst e'. destruct (Z_le_gt_dec (E + s) 0) as [Hn|Hp].
    - apply ceil_le_sc with (X := M);
        [lia | lia | lia | lia | exact Hle | lia | intros H0; rewrite (Hex H0); lia].
    - destruct Hcase as [->|[Hs0 Hf]].
      + rewrite Z.pow_0_r, Z.div_1_r, Z.mod_1_r in *. rewrite Z.add_0_r.
        rewrite (Hex eq_refl). exact Hle.
      + exfalso. rewrite fexp_eq in Hf.
        pose proof (Zdigits2_bounds M HM) as [Hd _].
        set (d := Zdigits2 M) in *.
        assert (Hd54 : 54 <= d + E) by lia.
        destruct (Z_le_gt_dec 0 E).
        * apply (proj1 (le_sc_pos M E B ltac:(lia))) in Hle.
          assert (2 ^ 53 <= 2 ^ (d - 1 + E)) by (apply Z.pow_le_mono_r; lia).
          assert (1 <= d) by (destruct M; try lia; unfold d; simpl; lia).
          rewrite pow2_split in H by lia. pose proof (pow2_pos E ltac:(lia)).
          assert (2 ^ (d - 1) * 2 ^ E <= M * 2 ^ E) by (apply Z.mul_le_mono_nonneg_r; lia).
          lia.
        * apply (proj1 (le_sc_neg M E B ltac:(lia))) in Hle.
          assert (2 ^ (53 + - E) <= 2 ^ (d - 1)) by (apply Z.pow_le_mono_r; lia).
          rewrite pow2_split in H by lia. pose proof (pow2_pos (- E) ltac:(lia)).
          assert (B * 2 ^ (- E) < 2 ^ 53 * 2 ^ (- E)) by (apply Z.mul_lt_mono_pos_r; lia).
          lia. }
  destruct (shr_fexp_exact_spec m1 e' ltac:(lia)) as (s2 & Hs2 & He'' & Hinv2 & _).
  destruct (shr_fexp prec emax m1 e' loc_Exact) as [mrs'' e'']. simpl fst in *; simpl snd in *.
  destruct Hinv2 as [Hm2 _].
  assert (H2 : le_sc (shr_m mrs'') e'' B).
  { rewrite Hm2, He''. apply floor_le_sc; [lia | lia | lia | exact H1]. }
  assert (Hm2pos : 0 <= shr_m mrs'').
  { rewrite Hm2. apply Z.div_pos; [lia | apply pow2_pos; lia]. }
  destruct (shr_m mrs'') as [|m2|m2]; try lia; auto.
  destruct (Z.leb_spec e'' (emax - prec)); auto.
  unfold emax, prec in *. apply (proj1 (le_sc_pos _ e'' B ltac:(lia))) in H2.
  assert (2 ^ 53 <= 2 ^ e'') by (apply Z.pow_le_mono_r; lia).
  assert (1 * 2 ^ e'' <= Z.pos m2 * 2 ^ e'') by (apply Z.mul_le_mono_nonneg_r; lia).
  lia.
Qed.

Lemma ge_sc_mono m m' e B : m <= m' -> ge_sc m e B -> ge_sc m' e B.
Proof.
  unfold ge_sc. intros Hm H. etransitivity; [exact H|].
  apply Z.mul_le_mono_nonneg_r; [|exact Hm].
  apply Z.lt_le_incl, pow2_pos; lia.
Qed.

Lemma ge_sc_pos_mantissa m e B : 1 <= B -> ge_sc m e B -> 0 < m.
Proof.
  unfold ge_sc. intros HB H.
  pose proof (pow2_pos (Z.max 0 (- e)) ltac:(lia)).
  pose proof (pow2_pos (Z.max 0 e) ltac:(lia)). nia.
Qed.

Lemma floor_ge_grid X e s B :
  0 < X -> 0 <= s -> B < 2 ^ 53 ->
  s = 0 \/ (0 < s /\ e + s = fexp prec emax (Zdigits2 X + e)) ->
  ge_sc X e B -> ge_sc (X / 2 ^ s) (e + s) B.
Proof.
  intros HX Hs HB Hcase H.
  destruct (Z_le_gt_dec (e + s) 0) as [Hn|Hp]; [apply floor_ge_sc; auto; lia|].
  destruct Hcase as [->|[Hs0 Hf]].
  - now rewrite Z.pow_0_r, Z.div_1_r, Z.add_0_r.
  - rewrite fexp_eq in Hf. pose proof (Zdigits2_bounds X HX) as [Hd _].
    set (d := Zdigits2 X) in *.
    assert (Hsd : s = d - 53) by lia.
    replace (d - 1) with (52 + s) in Hd by lia. rewrite pow2_split in Hd by lia.
    pose proof (pow2_pos s Hs).
    assert (Hq : 2 ^ 52 <= X / 2 ^ s) by (apply Z.div_le_lower_bound; lia).
    apply ge_sc_pos; [lia|].
    assert (2 ^ 1 <= 2 ^ (e + s)) by (apply Z.pow_le_mono_r; lia).
    change (2 ^ 1) with 2 in *.
    assert (2 ^ 52 * 2 <= X / 2 ^ s * 2 ^ (e + s)) by (apply Z.mul_le_mono_nonneg; lia).
    change (2 ^ 52 * 2) with (2 ^ 53) in *. lia.
Qed.

(** Rounding a positive exact product that is at least the integer [B]
    gives a float that is at least [B], or overflows to infinity. *)
Lemma binary_round_aux_ge sx M E B :
  0 < M -> 1 <= B < 2 ^ 53 -> ge_sc M E B ->
  match binary_round_aux prec emax sx M E loc_Exact with
  | S754_finite s m e => s = sx /\ ge_sc (Z.pos m) e B
  | S754_infinity s => s = sx
  | _ => False
  end.
Proof.
  intros HM HB Hge. unfold binary_round_aux.
  destruct (shr_fexp_exact_spec M E ltac:(lia)) as (s & Hs & He' & Hinv & Hcase).
  destruct (shr_fexp prec emax M E loc_Exact) as [mrs' e']. simpl fst in *; simpl snd in *.
  pose proof (round_shr_bounds M s mrs' Hinv) as [Hb _].
  set (m1 := round_nearest_even (shr_m mrs') (loc_of_shr_record mrs')) in *.
  assert (H1 : ge_sc m1 e' B).
  { subst e'. apply ge_sc_mono with (m := M / 2 ^ s); [lia|].
    apply floor_ge_grid; auto; lia. }
  assert (Hm1 : 0 < m1) by (apply (ge_sc_pos_mantissa m1 e' B); [lia | exact H1]).
  destruct (shr_fexp_exact_spec m1 e' ltac:(lia)) as (s2 & Hs2 & He'' & Hinv2 & Hcase2).
  destruct (shr_fexp prec emax m1 e' loc_Exact) as [mrs'' e'']. simpl fst in *; simpl snd in *.
  destruct Hinv2 as [Hm2 _].
  assert (H2 : ge_sc (shr_m mrs'') e'' B).
  { rewrite Hm2, He''. apply floor_ge_grid; auto; lia. }
  assert (Hm2pos : 0 < shr_m mrs'') by (apply (ge_sc_pos_mantissa _ e'' B); [lia | exact H2]).
  destruct (shr_m mrs'') as [|m2|m2]; try lia.
  destruct (Z.leb e'' (emax - prec)); auto.
Qed.

Lemma le_sc_mul m1 e1 m2 e2 B :
  0 <= m1 -> 0 <= m2 -> 0 <= B ->
  le_sc m1 e1 1 -> le_sc m2 e2 B -> le_sc (m1 * m2) (e1 + e2) B.
Proof.
  intros H1 H2 HB L1 L2.
  assert (HK1 : exists K1, 0 <= K1 /\ 0 <= e1 + K1) by (exists (Z.max 0 (- e1)); lia).
  assert (HK2 : exists K2, 0 <= K2 /\ 0 <= e2 + K2) by (exists (Z.max 0 (- e2)); lia).
  destruct HK1 as (K1 & ? & ?), HK2 as (K2 & ? & ?).
  apply (proj1 (le_sc_scale m1 e1 1 K1 ltac:(lia) ltac:(lia))) in L1.
  apply (proj1 (le_sc_scale m2 e2 B K2 ltac:(lia) ltac:(lia))) in L2.
  apply (le_sc_scale _ _ B (K1 + K2)); try lia.
  replace (e1 + e2 + (K1 + K2)) with ((e1 + K1) + (e2 + K2)) by lia.
  rewrite (pow2_split (e1 + K1) (e2 + K2)), (pow2_split K1 K2) by lia.
  pose proof (pow2_pos (e1 + K1) ltac:(lia)). pose proof (pow2_pos (e2 + K2) ltac:(lia)).
  pose proof (pow2_pos K1 ltac:(lia)). pose proof (pow2_pos K2 ltac:(lia)).
  replace (m1 * m2 * (2 ^ (e1 + K1) * 2 ^ (e2 + K2)))
    with ((m1 * 2 ^ (e1 + K1)) * (m2 * 2 ^ (e2 + K2))) by ring.
  replace (B * (2 ^ K1 * 2 ^ K2)) with ((1 * 2 ^ K1) * (B * 2 ^ K2)) by ring.
  apply Z.mul_le_mono_nonneg; [apply Z.mul_nonneg_nonneg; lia | lia | apply Z.mul_nonneg_nonneg; lia | lia].
Qed.

Lemma ge_sc_mul m1 e1 m2 e2 B :
  0 <= m1 -> 0 <= m2 -> 0 <= B ->
  ge_sc m1 e1 1 -> ge_sc m2 e2 B -> ge_sc (m1 * m2) (e1 + e2) B.
Proof.
  intros H1 H2 HB L1 L2.
  assert (HK1 : exists K1, 0 <= K1 /\ 0 <= e1 + K1) by (exists (Z.max 0 (- e1)); lia).
  assert (HK2 : exists K2, 0 <= K2 /\ 0 <= e2 + K2) by (exists (Z.max 0 (- e2)); lia).
  destruct HK1 as (K1 & ? & ?), HK2 as (K2 & ? & ?).
  apply (proj1 (ge_sc_scale m1 e1 1 K1 ltac:(lia) ltac:(lia))) in L1.
  apply (proj1 (ge_sc_scale m2 e2 B K2 ltac:(lia) ltac:(lia))) in L2.
  apply (ge_sc_scale _ _ B (K1 + K2)); try lia.
  replace (e1 + e2 + (K1 + K2)) with ((e1 + K1) + (e2 + K2)) by lia.
  rewrite (pow2_split (e1 + K1) (e2 + K2)), (pow2_split K1 K2) by lia.
  pose proof (pow2_pos (e1 + K1) ltac:(lia)). pose proof (pow2_pos (e2 + K2) ltac:(lia)).
  pose proof (pow2_pos K1 ltac:(lia)). pose proof (pow2_pos K2 ltac:(lia)).
  replace (m1 * m2 * (2 ^ (e1 + K1) * 2 ^ (e2 + K2)))
    with ((m1 * 2 ^ (e1 + K1)) * (m2 * 2 ^ (e2 + K2))) by ring.
  replace (B * (2 ^ K1 * 2 ^ K2)) with ((1 * 2 ^ K1) * (B * 2 ^ K2)) by ring.
  apply Z.mul_le_mono_nonneg; [lia | lia | apply Z.mul_nonneg_nonneg; lia | lia].
Qed.

Lemma iter_xO m d : Z.pos (Pos.iter xO m d) = Z.pos m * 2 ^ Z.pos d.
Proof.
  induction d using Pos.peano_ind.
  - simpl. lia.
  - rewrite Pos.iter_succ, Pos2Z.inj_xO, IHd, Pos2Z.inj_succ, Z.pow_succ_r by lia. ring.
Qed.


(** Integers below [2^53] convert exactly. *)
Lemma of_Z_exact n :
  0 < n < 2 ^ 53 ->
  exists m e, of_Z n = S754_finite false m e /\ le_sc (Z.pos m) e n /\ ge_sc (Z.pos m) e n.
Proof.
  intros Hn. destruct n as [|p|p]; try lia. unfold of_Z, binary_normalize, binary_round.
  remember (fexp prec emax (Z.pos (digits2_pos p) + 0)) as fe eqn:Hfe. clear Hfe.
  destruct (shl_align p 0 fe) as [mz ez] eqn:Hal.
  assert (Hv : le_sc (Z.pos mz) ez (Z.pos p) /\ ge_sc (Z.pos mz) ez (Z.pos p)).
  { unfold shl_align in Hal.
    destruct (fe - 0) as [|d|d] eqn:Hd; inversion Hal; subst mz ez; clear Hal.
    1,2: unfold le_sc, ge_sc; simpl; lia.
    assert (He : fe = Z.neg d) by lia. subst fe.
    split; [apply le_sc_neg | apply ge_sc_neg]; try lia.
    all: rewrite iter_xO; simpl Z.opp; lia. }
  destruct Hv as [Hle Hge].
  pose proof (binary_round_aux_le false (Z.pos mz) ez (Z.pos p) ltac:(lia) ltac:(lia) Hle) as Hu.
  pose proof (binary_round_aux_ge false (Z.pos mz) ez (Z.pos p) ltac:(lia) ltac:(lia) Hge) as Hl.
  destruct (binary_round_aux prec emax false (Z.pos mz) ez loc_Exact) as [s|s| |s m e];
    try contradiction.
  destruct Hu as [-> Hu], Hl as [_ Hl]. eauto.
Qed.


Lemma valid_finite_digits s m e :
  valid_binary prec emax (S754_finite s m e) = true ->
  Z.pos m < 2 ^ 53 /\ -1074 <= e /\ (-1074 < e -> 2 ^ 52 <= Z.pos m).
Proof.
  unfold valid_binary, bounded, canonical_mantissa. rewrite andb_true_iff, Z.eqb_eq, fexp_eq.
  intros [Hc _]. pose proof (Zdigits2_bounds (Z.pos m) ltac:(lia)) as [Hlo Hhi].
  simpl Zdigits2 in *. set (d := Z.pos (digits2_pos m)) in *.
  assert (Hd : d <= 53) by lia.
  repeat split; try lia.
  - eapply Z.lt_le_trans; [exact Hhi|]. apply Z.pow_le_mono_r; lia.
  - intros He. assert (d = 53) by lia. replace (d - 1) with 52 in Hlo by lia. exact Hlo.
Qed.

Lemma finite_compare m1 e1 m2 e2 :
  SFcompare (S754_finite false m1 e1) (S754_finite false m2 e2) =
  Some (match e1 ?= e2 with Lt => Lt | Gt => Gt | Eq => (m1 ?= m2)%positive end).
Proof.
  simpl. rewrite Pos.compare_cont_spec.
  destruct (e1 ?= e2); try reflexivity. now destruct (m1 ?= m2)%positive.
Qed.

Lemma lt_finite_le_sc m e p :
  Z.pos p = 2 ^ 52 -> Z.pos m < 2 ^ 53 ->
  SFltb (S754_finite false m e) (S754_finite false p (-52)) = true ->
  le_sc (Z.pos m) e 1.
Proof.
  intros Hp Hm H1. unfold SFltb in H1. rewrite finite_compare in H1.
  destruct (Z.compare_spec e (-52)) as [He|He|He]; try discriminate.
  - subst e. apply le_sc_neg; [lia|].
    destruct (Pos.compare_spec m p); try discriminate. simpl Z.opp. lia.
  - apply le_sc_neg; [lia|].
    assert (2 ^ 53 <= 2 ^ (- e)) by (apply Z.pow_le_mono_r; lia). lia.
Qed.

Lemma le_finite_ge_sc m e p :
  Z.pos p = 2 ^ 52 -> (-1074 < e -> 2 ^ 52 <= Z.pos m) ->
  SFleb (S754_finite false p (-52)) (S754_finite false m e) = true ->
  ge_sc (Z.pos m) e 1.
Proof.
  intros Hp Hn H1. unfold SFleb in H1. rewrite finite_compare in H1.
  destruct (Z.compare_spec (-52) e) as [He|He|He]; try discriminate.
  - subst e. apply ge_sc_neg; [lia|].
    destruct (Pos.compare_spec p m); try discriminate; simpl Z.opp; lia.
  - destruct (Z_le_gt_dec 0 e).
    + apply ge_sc_pos; [lia|]. pose proof (pow2_pos e ltac:(lia)). nia.
    + apply ge_sc_neg; [lia|]. specialize (Hn ltac:(lia)).
      assert (2 ^ (- e) <= 2 ^ 52) by (apply Z.pow_le_mono_r; lia). lia.
Qed.

Lemma lt_one_le_sc f :
  valid_binary prec emax f = true -> ltb zero f = true -> ltb f one = true ->
  exists m e, f = S754_finite false m e /\ le_sc (Z.pos m) e 1.
Proof.
  intros Hv H0 H1. destruct f as [s|s| |s m e]; try discriminate H0.
  - destruct s; [discriminate H0 | discriminate H1].
  - destruct s; [discriminate H0|]. exists m, e. split; [reflexivity|].
    apply valid_finite_digits in Hv. destruct Hv as (Hm & _ & _).
    eapply lt_finite_le_sc; [| exact Hm | exact H1]. reflexivity.
Qed.

Lemma ge_one_ge_sc s m e :
  valid_binary prec emax (S754_finite s m e) = true ->
  leb one (S754_finite false m e) = true -> ge_sc (Z.pos m) e 1.
Proof.
  intros Hv H1. apply valid_finite_digits in Hv. destruct Hv as (Hm & Hlo & Hn).
  eapply le_finite_ge_sc; [| exact Hn | exact H1]. reflexivity.
Qed.

Lemma shiftl_le_sc m e B : 0 <= m -> le_sc m e B -> Z.shiftl m e <= B.
Proof.
  intros Hm H. destruct (Z_le_gt_dec 0 e).
  - rewrite Z.shiftl_mul_pow2 by lia. now apply le_sc_pos.
  - rewrite Z.shiftl_div_pow2 by lia.
    apply (proj1 (le_sc_neg m e B ltac:(lia))) in H.
    pose proof (pow2_pos (- e) ltac:(lia)).
    apply Z.div_le_upper_bound; lia.
Qed.

Lemma shiftl_ge_sc m e B : ge_sc m e B -> B <= Z.shiftl m e.
Proof.
  intros H. destruct (Z_le_gt_dec 0 e).
  - rewrite Z.shiftl_mul_pow2 by lia. now apply ge_sc_pos.
  - rewrite Z.shiftl_div_pow2 by lia.
    apply (proj1 (ge_sc_neg m e B ltac:(lia))) in H.
    pose proof (pow2_pos (- e) ltac:(lia)).
    apply Z.div_le_lower_bound; lia.
Qed.

Lemma shiftl_nonneg m e : 0 <= Z.shiftl (Z.pos m) e.
Proof. apply Z.shiftl_nonneg. lia. Qed.

(** The product of a finite float and an exactly converted integer. *)
Lemma mul_of_Z_magnitude s m e n :
  0 < n < 2 ^ 53 ->
  (le_sc (Z.pos m) e 1 ->
   exists k, to_int (mul (S754_finite s m e) (of_Z n)) = Ok (cond_Zopp s k) /\ 0 <= k <= n) /\
  (ge_sc (Z.pos m) e 1 ->
   to_int (mul (S754_finite s m e) (of_Z n)) = Raise OverflowError \/
   exists k, to_int (mul (S754_finite s m e) (of_Z n)) = Ok (cond_Zopp s k) /\ n <= k).
Proof.
  intros Hn. destruct (of_Z_exact n Hn) as (mn & en & Hof & Hle & Hge).
  rewrite Hof. unfold mul, SFmul. rewrite xorb_false_r, Pos2Z.inj_mul.
  split; intros Hf.
  - pose proof (binary_round_aux_le s (Z.pos m * Z.pos mn) (e + en) n
                  ltac:(lia) ltac:(lia)
                  (le_sc_mul (Z.pos m) e (Z.pos mn) en n ltac:(lia) ltac:(lia) ltac:(lia) Hf Hle)) as H.
    destruct (binary_round_aux prec emax s (Z.pos m * Z.pos mn) (e + en) loc_Exact)
      as [s'|s'| |s' m' e']; try contradiction.
    + subst s'. exists 0. split; [destruct s; reflexivity | lia].
    + destruct H as [-> H]. exists (Z.shiftl (Z.pos m') e'). split; [reflexivity|].
      split; [apply shiftl_nonneg | apply shiftl_le_sc; [lia | exact H]].
  - pose proof (binary_round_aux_ge s (Z.pos m * Z.pos mn) (e + en) n
                  ltac:(lia) ltac:(lia)
                  (ge_sc_mul (Z.pos m) e (Z.pos mn) en n ltac:(lia) ltac:(lia) ltac:(lia) Hf Hge)) as H.
    destruct (binary_round_aux prec emax s (Z.pos m * Z.pos mn) (e + en) loc_Exact)
      as [s'|s'| |s' m' e']; try contradiction.
    + left. reflexivity.
    + destruct H as [-> H]. right. exists (Z.shiftl (Z.pos m') e'). split; [reflexivity|].
      apply shiftl_ge_sc; exact H.
Qed.

Lemma of_Z_0 : of_Z 0 = zero.
Proof. reflexivity. Qed.

(** [0 < f < 1] and [len < 2^53]: the index is between [0] and [len]. *)
Lemma split_index_fraction f n :
  valid f = true -> ltb zero f = true -> ltb f one = true -> 0 <= n < 2 ^ 53 ->
  exists k, to_int (mul f (of_Z n)) = Ok k /\ 0 <= k <= n.
Proof.
  intros Hv H0 H1 Hn. destruct (lt_one_le_sc f Hv H0 H1) as (m & e & -> & Hle).
  destruct (Z.eq_dec n 0) as [->|Hn0].
  - exists 0. rewrite of_Z_0. split; [reflexivity | lia].
  - destruct (mul_of_Z_magnitude false m e n ltac:(lia)) as [Hu _].
    destruct (Hu Hle) as (k & Hk & Hb). exists k. split; [exact Hk | exact Hb].
Qed.

Lemma leb_pos_neg m1 e1 m2 e2 :
  SFleb (S754_finite false m1 e1) (S754_finite true m2 e2) = false.
Proof. reflexivity. Qed.

Lemma leb_pos_zero m1 e1 s : SFleb (S754_finite false m1 e1) (S754_zero s) = false.
Proof. reflexivity. Qed.

Lemma leb_zero_neg m1 e1 s : SFleb (S754_zero s) (S754_finite true m1 e1) = false.
Proof. reflexivity. Qed.

Lemma leb_neg_one m e :
  leb (S754_finite true m e) (opp one) = leb one (S754_finite false m e).
Proof.
  unfold leb, SFleb, one, opp, SFopp. generalize 4503599627370496%positive. intros p.
  cbn [negb SFcompare].
  rewrite !Pos.compare_cont_spec, (Z.compare_antisym e (-52)).
  rewrite (Pos.compare_antisym m p).
  destruct (e ?= -52); simpl; try reflexivity.
  destruct (m ?= p)%positive; reflexivity.
Qed.

(** [f >= 1]: the index is at least [len], unless the product overflows. *)
Lemma split_index_ge_one f n :
  valid f = true -> is_finite f = true -> leb one f = true -> 0 <= n < 2 ^ 53 ->
  to_int (mul f (of_Z n)) = Raise OverflowError \/
  exists k, to_int (mul f (of_Z n)) = Ok k /\ n <= k.
Proof.
  intros Hv Hfin H1 Hn. destruct f as [s|s| |s m e]; try discriminate Hfin.
  { unfold leb, one in H1. rewrite leb_pos_zero in H1. discriminate H1. }
  destruct s; [unfold leb, one in H1; rewrite leb_pos_neg in H1; discriminate H1|].
  destruct (Z.eq_dec n 0) as [->|Hn0].
  - right. exists 0. rewrite of_Z_0. split; [reflexivity | lia].
  - destruct (mul_of_Z_magnitude false m e n ltac:(lia)) as [_ Hl].
    destruct (Hl (ge_one_ge_sc false m e Hv H1)) as [Ho|(k & Hk & Hb)]; [now left|].
    right. exists k. split; [exact Hk | exact Hb].
Qed.

(** [f <= -1]: the index is at most [- len], unless the product overflows. *)
Lemma split_index_le_minus_one f n :
  valid f = true -> is_finite f = true -> leb f (opp one) = true -> 0 <= n < 2 ^ 53 ->
  to_int (mul f (of_Z n)) = Raise OverflowError \/
  exists k, to_int (mul f (of_Z n)) = Ok k /\ k <= - n.
Proof.
  intros Hv Hfin H1 Hn. destruct f as [s|s| |s m e]; try discriminate Hfin.
  - unfold leb, one, opp, SFopp in H1. rewrite leb_zero_neg in H1. discriminate H1.
  - destruct s;
      [|unfold leb, one, opp, SFopp in H1; rewrite leb_pos_neg in H1; discriminate H1].
    destruct (Z.eq_dec n 0) as [->|Hn0].
    + right. exists 0. rewrite of_Z_0. split; [reflexivity | lia].
    + rewrite leb_neg_one in H1.
      destruct (mul_of_Z_magnitude true m e n ltac:(lia)) as [_ Hl].
      destruct (Hl (ge_one_ge_sc true m e Hv H1)) as [Ho|(k & Hk & Hb)]; [now left|].
      right. exists (- k). split; [exact Hk | lia].
Qed.

(** A zero fraction gives index [0]. *)
Lemma split_index_zero s n :
  0 <= n < 2 ^ 53 -> to_int (mul (S754_zero s) (of_Z n)) = Ok 0.
Proof.
  intros Hn. destruct (Z.eq_dec n 0) as [->|Hn0]; [reflexivity|].
  destruct (of_Z_exact n ltac:(lia)) as (mn & en & -> & _). reflexivity.
Qed.

End Float64Facts.

(** ** The index against the exact product

    The binary64 product is the exact product rounded to nearest, so its
    integer part is the floor of the exact product, or one more when the
    exact product rounds up to an integer. *)

Module ExactFloorFacts.

Import Dyadic Float64Facts.

Lemma shiftl_floor_bounds X e :
  0 <= X -> ge_sc X e (Z.shiftl X e) /\ le_sc X e (Z.shiftl X e + 1).
Proof.
  intros HX. destruct (Z_le_gt_dec 0 e).
  - rewrite Z.shiftl_mul_pow2 by lia. split; [apply ge_sc_pos | apply le_sc_pos]; lia.
  - rewrite Z.shiftl_div_pow2 by lia. pose proof (pow2_pos (- e) ltac:(lia)).
    pose proof (Z.div_mod X (2 ^ (- e)) ltac:(lia)).
    pose proof (Z.mod_pos_bound X (2 ^ (- e)) ltac:(lia)).
    split; [apply ge_sc_neg | apply le_sc_neg]; nia.
Qed.

Lemma exact_factor m e mn en n B :
  0 <= m -> le_sc mn en n -> ge_sc mn en n ->
  (ge_sc (m * n) e B -> ge_sc (m * mn) (e + en) B) /\
  (le_sc (m * n) e B -> le_sc (m * mn) (e + en) B).
Proof.
  intros Hm Hle Hge.
  assert (HK1 : exists K1, 0 <= K1 /\ 0 <= e + K1) by (exists (Z.max 0 (- e)); lia).
  assert (HK2 : exists K2, 0 <= K2 /\ 0 <= en + K2) by (exists (Z.max 0 (- en)); lia).
  destruct HK1 as (K1 & ? & ?), HK2 as (K2 & ? & ?).
  apply (proj1 (le_sc_scale mn en n K2 ltac:(lia) ltac:(lia))) in Hle.
  apply (proj1 (ge_sc_scale mn en n K2 ltac:(lia) ltac:(lia))) in Hge.
  assert (Heq : mn * 2 ^ (en + K2) = n * 2 ^ K2) by lia.
  pose proof (pow2_pos K2 ltac:(lia)).
  assert (Hprod : m * mn * 2 ^ (e + en + (K1 + K2)) = m * n * 2 ^ (e + K1) * 2 ^ K2).
  { replace (e + en + (K1 + K2)) with ((e + K1) + (en + K2)) by lia.
    rewrite (pow2_split (e + K1) (en + K2)) by lia.
    replace (m * mn * (2 ^ (e + K1) * 2 ^ (en + K2)))
      with (m * 2 ^ (e + K1) * (mn * 2 ^ (en + K2))) by ring.
    rewrite Heq. ring. }
  split; intros Hyp.
  - apply (proj1 (ge_sc_scale (m * n) e B K1 ltac:(lia) ltac:(lia))) in Hyp.
    apply (ge_sc_scale _ _ B (K1 + K2)); try lia.
    rewrite Hprod, (pow2_split K1 K2), Z.mul_assoc by lia.
    apply Z.mul_le_mono_nonneg_r; lia.
  - apply (proj1 (le_sc_scale (m * n) e B K1 ltac:(lia) ltac:(lia))) in Hyp.
    apply (le_sc_scale _ _ B (K1 + K2)); try lia.
    rewrite Hprod, (pow2_split K1 K2), Z.mul_assoc by lia.
    apply Z.mul_le_mono_nonneg_r; lia.
Qed.

Lemma split_index_exact_floor f n k :
  valid f = true -> ltb zero f = true -> ltb f one = true -> 0 <= n < 2 ^ 53 ->
  to_int (mul f (of_Z n)) = Ok k ->
  exact_floor f n <= k <= exact_floor f n + 1.
Proof.
  intros Hv H0 H1 Hn Hk.
  destruct (split_index_fraction f n Hv H0 H1 Hn) as (k' & Hk' & Hb).
  assert (k' = k) by congruence. subst k'.
  destruct (lt_one_le_sc f Hv H0 H1) as (m & e & -> & Hle). unfold exact_floor.
  destruct (Z.eq_dec n 0) as [->|Hn0].
  { rewrite Z.mul_0_r, Z.shiftl_0_l. lia. }
  set (q := Z.shiftl (Z.pos m * n) e).
  destruct (shiftl_floor_bounds (Z.pos m * n) e ltac:(lia)) as [Hql Hqu]. fold q in Hql, Hqu.
  assert (Hq0 : 0 <= q) by (apply Z.shiftl_nonneg; lia).
  destruct (of_Z_exact n ltac:(lia)) as (mn & en & Hof & Hnl & Hng).
  destruct (exact_factor (Z.pos m) e (Z.pos mn) en n q ltac:(lia) Hnl Hng) as [Hg _].
  destruct (exact_factor (Z.pos m) e (Z.pos mn) en n (q + 1) ltac:(lia) Hnl Hng) as [_ Hl].
  specialize (Hg Hql). specialize (Hl Hqu).
  rewrite Hof in Hk. unfold mul, SFmul in Hk. rewrite xorb_false_r, Pos2Z.inj_mul in Hk.
  assert (Hlow : q <= k).
  { destruct (Z.eq_dec q 0) as [->|Hq]; [lia|].
    assert (Hqn : q <= n).
    { unfold q. apply shiftl_le_sc; [lia|].
      replace e with (e + 0) by lia.
      apply (le_sc_mul (Z.pos m) e n 0 n); [lia | lia | lia | exact Hle |].
      apply le_sc_pos; [lia|]. rewrite Z.pow_0_r. lia. }
    pose proof (binary_round_aux_ge false (Z.pos m * Z.pos mn) (e + en) q
                  ltac:(lia) ltac:(lia) Hg) as H.
    destruct (binary_round_aux prec emax false (Z.pos m * Z.pos mn) (e + en) loc_Exact)
      as [s'|s'| |s' m' e']; try contradiction; try discriminate.
    destruct H as [-> H]. simpl in Hk. inversion Hk. now apply shiftl_ge_sc. }
  split; [exact Hlow|].
  destruct (Z_lt_ge_dec (q + 1) (2 ^ 53)) as [Hs|Hs]; [|lia].
  pose proof (binary_round_aux_le false (Z.pos m * Z.pos mn) (e + en) (q + 1)
                ltac:(lia) ltac:(lia) Hl) as H.
  destruct (binary_round_aux prec emax false (Z.pos m * Z.pos mn) (e + en) loc_Exact)
    as [s'|s'| |s' m' e']; try contradiction.
  - simpl in Hk. inversion Hk. lia.
  - destruct H as [-> H]. simpl in Hk. inversion Hk. apply shiftl_le_sc; [lia | exact H].
Qed.

End ExactFloorFacts.

(** On ten rows with a fraction of [0.7], the double nearest to 7/10 lies
    below it: the exact product has floor [6], and the rounded product is
    [7.0]. *)
Example index_of_seven_tenths :
  exact_floor Examples.seven_tenths 10 = 6 /\
  to_int (mul Examples.seven_tenths (of_Z 10)) = Ok 7.
Proof. split; vm_compute; reflexivity. Qed.

(** ** Lists, slices and dictionaries *)

Module PyFacts.

Lemma slice_bound_le k n : (slice_bound k n <= n)%nat.
Proof. unfold slice_bound. destruct (k <? 0) eqn:E; lia. Qed.

Lemma slice_app {A} k (l : list A) : slice_to k l ++ slice_from k l = l.
Proof. apply firstn_skipn. Qed.

Lemma slice_to_length {A} k (l : list A) :
  List.length (slice_to k l) = slice_bound k (List.length l).
Proof.
  unfold slice_to. rewrite length_firstn.
  pose proof (slice_bound_le k (List.length l)). lia.
Qed.

Lemma slice_from_length {A} k (l : list A) :
  List.length (slice_from k l) = (List.length l - slice_bound k (List.length l))%nat.
Proof. unfold slice_from. now rewrite length_skipn. Qed.

Lemma slice_bound_inside k n :
  0 <= k <= Z.of_nat n -> Z.of_nat (slice_bound k n) = k.
Proof. intros H. unfold slice_bound. destruct (Z.ltb_spec k 0); lia. Qed.

Lemma slice_bound_above k n : Z.of_nat n <= k -> slice_bound k n = n.
Proof. intros H. unfold slice_bound. destruct (Z.ltb_spec k 0); lia. Qed.

Lemma slice_bound_below k n : k <= - Z.of_nat n -> slice_bound k n = 0%nat.
Proof. intros H. unfold slice_bound. destruct (Z.ltb_spec k 0); lia. Qed.

Lemma slice_bound_zero n : slice_bound 0 n = 0%nat.
Proof. unfold slice_bound. simpl. lia. Qed.

Lemma mapM_ok_map {A B} (f : A -> result B) (g : A -> B) l :
  (forall x, In x l -> f x = Ok (g x)) -> mapM f l = Ok (map g l).
Proof.
  induction l as [|x r IH]; intros H; simpl; [reflexivity|].
  rewrite (H x (or_introl eq_refl)). simpl. rewrite IH; [reflexivity|].
  intros y Hy. apply H. now right.
Qed.

Lemma mapM_ok_length {A B} (f : A -> result B) l l' :
  mapM f l = Ok l' -> List.length l' = List.length l.
Proof.
  revert l'. induction l as [|x r IH]; intros l' H; simpl in H.
  - inversion H. reflexivity.
  - destruct (f x); [|discriminate]. simpl in H.
    destruct (mapM f r) eqn:E; [|discriminate]. simpl in H. inversion H. simpl.
    f_equal. now apply IH.
Qed.

Lemma mapM_ok_Forall2 {A B} (f : A -> result B) l l' :
  mapM f l = Ok l' -> Forall2 (fun x y => f x = Ok y) l l'.
Proof.
  revert l'. induction l as [|x r IH]; intros l' H; simpl in H.
  - inversion H. constructor.
  - destruct (f x) eqn:Ex; [|discriminate]. simpl in H.
    destruct (mapM f r) eqn:E; [|discriminate]. simpl in H. inversion H.
    constructor; [exact Ex | now apply IH].
Qed.

Lemma mapM_all_ok {A B} (f : A -> result B) l :
  (forall x, In x l -> exists y, f x = Ok y) -> exists l', mapM f l = Ok l'.
Proof.
  induction l as [|x r IH]; intros H; simpl; [eauto|].
  destruct (H x (or_introl eq_refl)) as [y ->]. simpl.
  destruct IH as [l' ->]; [intros z Hz; apply H; now right|]. simpl. eauto.
Qed.

Lemma map_nth_seq {A} (l : list A) d :
  map (fun i => nth i l d) (seq 0 (List.length l)) = l.
Proof.
  induction l as [|x r IH]; simpl; [reflexivity|].
  f_equal. rewrite <- seq_shift, map_map. exact IH.
Qed.

Lemma dict_get_set_same {V} k (v : V) d : dict_get k (dict_set k v d) = Some v.
Proof.
  induction d as [|[k' v'] r IH]; simpl.
  - now rewrite String.eqb_refl.
  - destruct (String.eqb k' k) eqn:E; simpl; rewrite E; [reflexivity | exact IH].
Qed.

Lemma dict_get_set_other {V} k k' (v : V) d :
  k <> k' -> dict_get k (dict_set k' v d) = dict_get k d.
Proof.
  intros Hk. induction d as [|[k0 v0] r IH]; simpl.
  - destruct (String.eqb_spec k' k); [congruence | reflexivity].
  - destruct (String.eqb_spec k0 k') as [->|N]; simpl.
    + destruct (String.eqb_spec k' k); [congruence | reflexivity].
    + destruct (String.eqb k0 k); [reflexivity | exact IH].
Qed.

Lemma str_int_inj a b : str_int a = str_int b -> a = b.
Proof.
  unfold str_int. intros H. apply DecimalZ.to_int_inj.
  assert (Hs : NilEmpty.int_of_string (NilEmpty.string_of_int (Z.to_int a)) =
               NilEmpty.int_of_string (NilEmpty.string_of_int (Z.to_int b))) by now rewrite H.
  rewrite !NilEmpty.isi in Hs. now inversion Hs.
Qed.

End PyFacts.

(** ** [split_df] *)

Module SplitFacts.

Import PyFacts Float64Facts.

Lemma take_in_range df locs :
  (forall i, In i locs -> (i < len df)%nat) ->
  take df locs = Ok {| columns := columns df; rows := map (row_at df) locs;
                       object_columns := object_columns df |}.
Proof.
  intros H. unfold take.
  rewrite (mapM_ok_map _ (row_at df)); [reflexivity|].
  intros i Hi. unfold row_at. specialize (H i Hi). unfold len in H.
  destruct (nth_error (rows df) i) eqn:E.
  - now rewrite (nth_error_nth _ _ _ E).
  - apply nth_error_None in E. lia.
Qed.

Lemma drawn_in_range `{R : NumpyRandom} df seed :
  permutes R -> forall i, In i (drawn df seed) -> (i < len df)%nat.
Proof.
  intros HR i Hi. unfold drawn in Hi.
  apply (Permutation_in _ (HR (RandomState seed) (len df))) in Hi.
  apply in_seq in Hi. lia.
Qed.

Lemma combine_seq_cells (l : list Row) s :
  map (fun ir : nat * Row => cells (snd ir)) (combine (seq s (List.length l)) l) = map cells l.
Proof.
  revert s. induction l as [|x r IH]; intros s; simpl; [reflexivity|]. f_equal. apply IH.
Qed.

Lemma combine_seq_labels (l : list Row) s :
  map (fun ir : nat * Row => fst ir) (combine (seq s (List.length l)) l) = seq s (List.length l).
Proof.
  revert s. induction l as [|x r IH]; intros s; simpl; [reflexivity|]. f_equal. apply IH.
Qed.

Lemma reset_index_cells df : map cells (rows (reset_index df)) = map cells (rows df).
Proof. unfold reset_index, len. simpl. rewrite map_map. apply combine_seq_cells. Qed.

Lemma reset_index_labels df : map label (rows (reset_index df)) = seq 0 (len df).
Proof. unfold reset_index, len. simpl. rewrite map_map. apply combine_seq_labels. Qed.

Lemma reset_index_len df : len (reset_index df) = len df.
Proof.
  unfold len. rewrite <- (length_map cells), reset_index_cells. apply length_map.
Qed.

Lemma shuffled_len `{R : NumpyRandom} df seed :
  permutes R -> len (shuffled df seed) = len df.
Proof.
  intros HR. unfold shuffled. rewrite reset_index_len. unfold len. simpl.
  rewrite length_map. unfold drawn.
  rewrite (Permutation_length (HR (RandomState seed) (len df))). apply length_seq.
Qed.

Lemma shuffled_cells `{R : NumpyRandom} df seed :
  map cells (rows (shuffled df seed)) = map (fun i => cells (row_at df i)) (drawn df seed).
Proof. unfold shuffled. rewrite reset_index_cells. simpl. apply map_map. Qed.

Lemma seed_generator_ok `{R : NumpyRandom} seed :
  0 <= seed < 2 ^ 32 -> seed_generator seed = Ok (RandomState seed).
Proof.
  intros H. unfold seed_generator.
  destruct (Z.leb_spec 0 seed); [|lia]. destruct (Z.ltb_spec seed (2 ^ 32)); [|lia].
  reflexivity.
Qed.

Lemma seed_generator_refused `{R : NumpyRandom} seed :
  ~ 0 <= seed < 2 ^ 32 ->
  seed_generator seed = Raise (ValueError "Seed must be between 0 and 2**32 - 1").
Proof.
  intros H. unfold seed_generator.
  destruct (Z.leb_spec 0 seed); [|reflexivity].
  destruct (Z.ltb_spec seed (2 ^ 32)); [lia | reflexivity].
Qed.

(** [split_df] never looks at the world: it shuffles with the generator of
    its seed, computes the index and slices. *)
Lemma split_df_unfold `{R : NumpyRandom} df f seed w :
  permutes R -> 0 <= seed < 2 ^ 32 ->
  split_df df f seed w =
  match to_int (mul f (of_Z (Z.of_nat (len df)))) with
  | Ok k => (Ok (iloc_to k (shuffled df seed), iloc_from k (shuffled df seed)), w)
  | Raise e => (Raise e, w)
  end.
Proof.
  intros HR Hseed. unfold split_df, bindM, sample, lift, ret.
  rewrite (seed_generator_ok seed Hseed). cbn [bind].
  change (fst (rng_permutation (RandomState seed) (len df))) with (drawn df seed).
  rewrite (take_in_range df _ (drawn_in_range df seed HR)).
  fold (shuffled df seed). rewrite (shuffled_len df seed HR).
  destruct (to_int (mul f (of_Z (Z.of_nat (len df))))); reflexivity.
Qed.

(** A seed that numpy refuses makes [split_df] raise before anything else
    is done. *)
Lemma split_df_refused_seed `{R : NumpyRandom} df f seed w :
  ~ 0 <= seed < 2 ^ 32 ->
  split_df df f seed w =
    (Raise (ValueError "Seed must be between 0 and 2**32 - 1"), w).
Proof.
  intros H. unfold split_df, bindM, sample.
  now rewrite (seed_generator_refused seed H).
Qed.

Lemma split_df_seed_range `{R : NumpyRandom} df f seed w r w' :
  split_df df f seed w = (Ok r, w') -> 0 <= seed < 2 ^ 32.
Proof.
  intros H.
  destruct (Z_le_gt_dec 0 seed) as [H0|H0];
    [destruct (Z_lt_ge_dec seed (2 ^ 32)) as [H1|H1]; [lia|]|];
    rewrite split_df_refused_seed in H by lia; discriminate H.
Qed.

Lemma NoDup_app_disjoint {A} (a b : list A) :
  NoDup (a ++ b) -> forall x, In x a -> ~ In x b.
Proof.
  induction a as [|y r IH]; simpl; intros H x Hx; [contradiction|].
  inversion H as [|? ? Hn Hr]; subst. destruct Hx as [->|Hx].
  - intros Hb. apply Hn. apply in_or_app. now right.
  - now apply IH.
Qed.

(** The two parts of a split, whatever the index: they are the original
    rows at two lists of positions that together rearrange [0 .. n-1]. *)
Lemma split_parts `{R : NumpyRandom} df seed k :
  permutes R ->
  let train := iloc_to k (shuffled df seed) in
  let test := iloc_from k (shuffled df seed) in
  let j := slice_bound k (len df) in
  len train = j /\ len test = (len df - j)%nat /\
  columns train = columns df /\ columns test = columns df /\
  map cells (rows train) = map (fun i => cells (row_at df i)) (firstn j (drawn df seed)) /\
  map cells (rows test) = map (fun i => cells (row_at df i)) (skipn j (drawn df seed)) /\
  Permutation (firstn j (drawn df seed) ++ skipn j (drawn df seed)) (seq 0 (len df)) /\
  (forall i, In i (firstn j (drawn df seed)) -> ~ In i (skipn j (drawn df seed))) /\
  Permutation (map cells (rows train ++ rows test)) (map cells (rows df)).
Proof.
  intros HR train test j.
  pose proof (shuffled_len df seed HR) as Hlen. unfold len in Hlen.
  assert (Hperm : Permutation (drawn df seed) (seq 0 (len df))) by apply HR.
  subst train test j. unfold len, iloc_to, iloc_from. cbn [rows columns].
  rewrite slice_to_length, slice_from_length.
  unfold slice_to, slice_from. rewrite !Hlen.
  repeat split.
  - rewrite <- firstn_map, shuffled_cells, firstn_map. reflexivity.
  - rewrite <- skipn_map, shuffled_cells, skipn_map. reflexivity.
  - rewrite firstn_skipn. exact Hperm.
  - apply NoDup_app_disjoint. rewrite firstn_skipn.
    apply (Permutation_NoDup (Permutation_sym Hperm)). apply seq_NoDup.
  - rewrite firstn_skipn, shuffled_cells.
    rewrite <- (map_map (row_at df) cells).
    apply Permutation_map.
    apply Permutation_trans with (map (row_at df) (seq 0 (len df)));
      [apply Permutation_map; exact Hperm|].
    unfold row_at, len. rewrite map_nth_seq. apply Permutation_refl.
Qed.

End SplitFacts.

(** ** Lists and results *)

Module ListFacts.

Lemma Forall2_nth_error {A B} (P : A -> B -> Prop) l l' i a b :
  Forall2 P l l' -> nth_error l i = Some a -> nth_error l' i = Some b -> P a b.
Proof.
  intros H. revert i. induction H; intros [|i] Ha Hb; simpl in *; try discriminate.
  - inversion Ha; inversion Hb; subst; auto.
  - eauto.
Qed.

Lemma Forall2_In_l {A B} (P : A -> B -> Prop) l l' a :
  Forall2 P l l' -> In a l -> exists b, In b l' /\ P a b.
Proof.
  induction 1 as [|x y l l' Hxy _ IH]; intros Hin; [destruct Hin|].
  destruct Hin as [->|Hin]; [exists y; split; [now left | auto]|].
  destruct (IH Hin) as (b & Hb & Hp). exists b. split; [now right | auto].
Qed.

Lemma Forall2_In_r {A B} (P : A -> B -> Prop) l l' b :
  Forall2 P l l' -> In b l' -> exists a, In a l /\ P a b.
Proof.
  induction 1 as [|x y l l' Hxy _ IH]; intros Hin; [destruct Hin|].
  destruct Hin as [->|Hin]; [exists x; split; [now left | auto]|].
  destruct (IH Hin) as (a & Ha & Hp). exists a. split; [now right | auto].
Qed.

(** [mapM] stops at the first element that raises. *)
Lemma mapM_first_failure {A B} (f : A -> result B) pre x post e :
  (forall y, In y pre -> is_ok (f y) = true) -> f x = Raise e ->
  mapM f (pre ++ x :: post) = Raise e.
Proof.
  induction pre as [|y pre IH]; intros Hpre Hx; simpl.
  - now rewrite Hx.
  - pose proof (Hpre y (or_introl eq_refl)) as Hy.
    destruct (f y) eqn:E; [|discriminate]. simpl.
    rewrite IH; auto. intros z Hz. apply Hpre. now right.
Qed.

(** The last pair with a given second component. *)
Lemma last_occurrence {A} (eqs : list (A * Z)) c : forall f,
  In (f, c) eqs ->
  exists pre g post,
    eqs = pre ++ (g, c) :: post /\ forall g' c', In (g', c') post -> c' <> c.
Proof.
  induction eqs as [|[g0 c0] rest IH]; intros f Hin; [destruct Hin|].
  destruct (existsb (fun gc => snd gc =? c) rest) eqn:E.
  - apply existsb_exists in E. destruct E as ([g1 c1] & Hin1 & Hc).
    simpl in Hc. apply Z.eqb_eq in Hc. subst c1.
    destruct (IH g1 Hin1) as (pre & g & post & -> & Hpost).
    exists ((g0, c0) :: pre), g, post. split; [reflexivity | exact Hpost].
  - assert (Hrest : forall g' c', In (g', c') rest -> c' <> c).
    { intros g' c' Hin' ->.
      assert (Hex : existsb (fun gc : A * Z => snd gc =? c) rest = true).
      { apply existsb_exists. exists (g', c). split; [exact Hin' | apply Z.eqb_refl]. }
      congruence. }
    destruct Hin as [Heq|Hin].
    + inversion Heq; subst. exists [], f, rest. split; [reflexivity | exact Hrest].
    + exfalso. now apply (Hrest f c).
Qed.

End ListFacts.

(** ** Rows and columns *)

Module TableFacts.

Import PyFacts ListFacts.

Lemma column_index_None p cols : ~ In p cols -> column_index p cols = None.
Proof.
  induction cols as [|c cols IH]; intros H; simpl; [reflexivity|].
  destruct (String.eqb_spec c p) as [->|Hne]; [exfalso; apply H; now left|].
  rewrite IH; [reflexivity|]. intros Hin. apply H. now right.
Qed.

Lemma row_get_missing df r p : ~ In p (columns df) -> row_get df r p = Raise (KeyError p).
Proof. intros H. unfold row_get. now rewrite (column_index_None _ _ H). Qed.

(** A cell is read through the column names and the cells alone. *)
Lemma row_get_cells df df' r r' p :
  columns df = columns df' -> cells r = cells r' -> row_get df r p = row_get df' r' p.
Proof. unfold row_get. now intros -> ->. Qed.

(** A cell of a row of the table is one of the values of its column. *)
Lemma get_column_In df p col r v :
  get_column df p = Ok col -> In r (rows df) -> row_get df r p = Ok v -> In v col.
Proof.
  unfold get_column, row_get.
  destruct (column_index p (columns df)) as [i|]; [|discriminate].
  intros H Hr Hv. apply mapM_ok_Forall2 in H.
  destruct (Forall2_In_l _ _ _ r H Hr) as (y & Hy & Hry).
  rewrite Hv in Hry. inversion Hry. now subst.
Qed.

Lemma row_at_In df i : (i < len df)%nat -> In (row_at df i) (rows df).
Proof. intros H. unfold row_at. now apply nth_In. Qed.

End TableFacts.

(** ** The parts of a split *)

Module PartFacts.

Import PyFacts SplitFacts TableFacts.

Section Parts.

Context {R : NumpyRandom}.
Variables (df : DataFrame) (seed : Z).
Hypothesis HR : permutes R.

(** Every row of a part of the shuffled table has the cells of a row of the
    dataset. *)
Lemma part_row_original k r :
  In r (rows (iloc_to k (shuffled df seed)) ++ rows (iloc_from k (shuffled df seed))) ->
  exists r0, In r0 (rows df) /\ cells r = cells r0.
Proof.
  intros Hin. unfold iloc_to, iloc_from in Hin. cbn [rows] in Hin.
  rewrite slice_app in Hin.
  apply (in_map cells) in Hin. rewrite shuffled_cells in Hin.
  apply in_map_iff in Hin. destruct Hin as (i & Hi & Hin).
  exists (row_at df i). split; [|now symmetry].
  apply row_at_In. now apply (drawn_in_range df seed HR).
Qed.

Lemma split_df_ok f w train test w' :
  split_df df f seed w = (Ok (train, test), w') ->
  exists k, to_int (mul f (of_Z (Z.of_nat (len df)))) = Ok k /\
            train = iloc_to k (shuffled df seed) /\
            test = iloc_from k (shuffled df seed) /\ w' = w.
Proof.
  intros H. pose proof (split_df_seed_range df f seed w _ _ H) as Hseed.
  rewrite (split_df_unfold df f seed w HR Hseed) in H.
  destruct (to_int (mul f (of_Z (Z.of_nat (len df))))) as [k|e]; [|discriminate].
  inversion H. exists k. auto.
Qed.

End Parts.

End PartFacts.


(** ** Claims on [split_df] *)

Section SplitClaims.

Import PyFacts Float64Facts SplitFacts.

Context {R : NumpyRandom}.
Hypothesis R_permutes : permutes R.

(** C1 (amended).  For a fraction [0 < f < 1], a dataset of fewer than
    [2^53] rows and a seed that numpy accepts, [split_df] returns a pair
    [(train, test)] where the size of [train] is the floor of the exact
    product [f * len(df)], or that floor plus one: it is
    [int(f * len(df))], and the binary64 product is rounded before it is
    truncated.  The two sizes add up to [len(df)], and the two parts are the
    unchanged original rows at two disjoint lists of positions that
    together are a rearrangement of all positions [0 .. len(df)-1]: as
    multisets of rows, train and test together are the dataset.  A seed
    outside [0 .. 2^32-1] makes [split_df] raise [ValueError]. *)
Theorem split_df_sizes_and_partition (df : DataFrame) (f : float) (seed : Z) (w : World) :
  valid f = true -> ltb zero f = true -> ltb f one = true ->
  Z.of_nat (len df) < 2 ^ 53 -> 0 <= seed < 2 ^ 32 ->
  (exists train test ptrain ptest,
     split_df df f seed w = (Ok (train, test), w) /\
     exact_floor f (Z.of_nat (len df)) <= Z.of_nat (len train)
       <= exact_floor f (Z.of_nat (len df)) + 1 /\
     to_int (mul f (of_Z (Z.of_nat (len df)))) = Ok (Z.of_nat (len train)) /\
     (len train + len test = len df)%nat /\
     map cells (rows train) = map (fun i => cells (row_at df i)) ptrain /\
     map cells (rows test) = map (fun i => cells (row_at df i)) ptest /\
     Permutation (ptrain ++ ptest) (seq 0 (len df)) /\
     (forall i, In i ptrain -> ~ In i ptest) /\
     Permutation (map cells (rows train ++ rows test)) (map cells (rows df))) /\
  (forall other, ~ 0 <= other < 2 ^ 32 ->
     exists msg, split_df df f other w = (Raise (ValueError msg), w)).
Proof.
  intros Hv H0 H1 Hn Hseed. split; [|intros other Ho; eexists; now apply split_df_refused_seed].
  destruct (split_index_fraction f (Z.of_nat (len df)) Hv H0 H1 ltac:(lia)) as (k & Hk & Hb).
  pose proof (split_parts df seed k R_permutes) as P. cbv zeta in P.
  destruct P as (Ht & Hs & _ & _ & Hct & Hcs & Hp & Hd & Hm).
  exists (iloc_to k (shuffled df seed)), (iloc_from k (shuffled df seed)).
  exists (firstn (slice_bound k (len df)) (drawn df seed)),
         (skipn (slice_bound k (len df)) (drawn df seed)).
  rewrite (split_df_unfold df f seed w R_permutes Hseed), Hk.
  pose proof (slice_bound_le k (len df)).
  assert (Hlen : Z.of_nat (len (iloc_to k (shuffled df seed))) = k).
  { rewrite Ht. apply slice_bound_inside. lia. }
  repeat split; auto.
  - rewrite Hlen.
    apply (ExactFloorFacts.split_index_exact_floor f (Z.of_nat (len df)) k Hv H0 H1);
      [lia | exact Hk].
  - rewrite Hlen.
    apply (ExactFloorFacts.split_index_exact_floor f (Z.of_nat (len df)) k Hv H0 H1);
      [lia | exact Hk].
  - now rewrite Hlen.
  - lia.
Qed.

(** C9 (amended).  [split_df] never validates the fraction.  With a seed
    that numpy accepts it raises exactly when [int(split_frac * len(df))]
    raises (a NaN or infinite product).  Otherwise, with [k] that index: a
    negative [k] counts from the end, so train has [max(len + k, 0)] rows,
    and a non-negative [k] gives [min(k, len)] rows; a finite fraction
    [>= 1] gives an empty test set, a zero fraction or a finite fraction
    [<= -1] gives an empty train set.  A seed outside [0 .. 2^32-1] makes
    [split_df] raise [ValueError], whatever the fraction. *)
Theorem split_df_outside_unit_interval (df : DataFrame) (f : float) (seed : Z) (w : World) :
  valid f = true -> Z.of_nat (len df) < 2 ^ 53 -> 0 <= seed < 2 ^ 32 ->
  let idx := to_int (mul f (of_Z (Z.of_nat (len df)))) in
  (forall other, ~ 0 <= other < 2 ^ 32 ->
     exists msg, split_df df f other w = (Raise (ValueError msg), w)) /\
  (forall e, idx = Raise e -> split_df df f seed w = (Raise e, w)) /\
  (forall k, idx = Ok k ->
     exists train test,
       split_df df f seed w = (Ok (train, test), w) /\
       (len train + len test = len df)%nat /\
       (k < 0 -> Z.of_nat (len train) = Z.max (Z.of_nat (len df) + k) 0) /\
       (0 <= k -> Z.of_nat (len train) = Z.min k (Z.of_nat (len df))) /\
       (is_finite f = true -> leb one f = true ->
          rows test = [] /\ len train = len df) /\
       (is_finite f = true -> leb f (opp one) = true \/ eqb f zero = true ->
          rows train = [] /\ len test = len df)).
Proof.
  intros Hv Hn Hseed idx. subst idx.
  split; [intros other Ho; eexists; now apply split_df_refused_seed|]. split.
  - intros e He. now rewrite (split_df_unfold df f seed w R_permutes Hseed), He.
  - intros k Hk.
    pose proof (split_parts df seed k R_permutes) as P. cbv zeta in P.
    destruct P as (Ht & Hs & _).
    exists (iloc_to k (shuffled df seed)), (iloc_from k (shuffled df seed)).
    rewrite (split_df_unfold df f seed w R_permutes Hseed), Hk.
    pose proof (slice_bound_le k (len df)) as Hle.
    assert (Hnil : forall d : DataFrame, len d = 0%nat -> rows d = []).
    { intros d Hd. unfold len in Hd. now destruct (rows d). }
    split; [reflexivity|]. split; [lia|].
    split; [|split; [|split]].
    + intros Hk0. rewrite Ht. unfold slice_bound.
      destruct (Z.ltb_spec k 0); lia.
    + intros Hk0. rewrite Ht. unfold slice_bound.
      destruct (Z.ltb_spec k 0); lia.
    + intros Hfin H1.
      destruct (split_index_ge_one f (Z.of_nat (len df)) Hv Hfin H1 ltac:(lia))
        as [Ho|(k' & Hk' & Hb)]; [congruence|].
      assert (k' = k) by congruence. subst k'.
      rewrite (slice_bound_above k (len df) Hb) in *.
      split; [apply Hnil; lia | lia].
    + intros Hfin [H1|H1].
      * destruct (split_index_le_minus_one f (Z.of_nat (len df)) Hv Hfin H1 ltac:(lia))
          as [Ho|(k' & Hk' & Hb)]; [congruence|].
        assert (k' = k) by congruence. subst k'.
        rewrite (slice_bound_below k (len df) Hb) in *.
        split; [apply Hnil; lia | lia].
      * destruct f as [s|s| |s m e]; try discriminate Hfin;
          [|destruct s; discriminate H1].
        rewrite (split_index_zero s (Z.of_nat (len df)) ltac:(lia)) in Hk.
        inversion Hk; subst k. rewrite slice_bound_zero in *.
        split; [apply Hnil; lia | lia].
Qed.

End SplitClaims.

(** C2. Two runs of [split_df] on the same dataset, fraction and seed give
    the same result, rows in the same order, whatever the state of the
    global generator and of the disk in each run: the seed is the only
    source of randomness, and the call leaves the world as it found it. *)
Theorem split_df_deterministic (R : NumpyRandom) (df : DataFrame) (f : float)
  (seed : Z) (w1 w2 : World) :
  fst (split_df df f seed w1) = fst (split_df df f seed w2) /\
  snd (split_df df f seed w1) = w1.
Proof.
  unfold split_df, bindM, sample, lift, ret.
  destruct (seed_generator seed) as [rs|e]; cbn [bind]; [|split; reflexivity].
  destruct (take df (fst (rng_permutation rs (len df)))) as [sh|e];
    [|split; reflexivity].
  destruct (to_int (mul f (of_Z (Z.of_nat (len (reset_index sh)))))); split; reflexivity.
Qed.

Lemma reversing_permutes : permutes Examples.reversing.
Proof. intros g n. simpl. apply Permutation_sym, Permutation_rev. Qed.

Lemma split_df_sizes_and_partition_witness :
  (valid Examples.seven_tenths = true /\ ltb zero Examples.seven_tenths = true /\
   ltb Examples.seven_tenths one = true /\ Z.of_nat (len (Examples.line 10)) < 2 ^ 53 /\
   0 <= 100 < 2 ^ 32) /\
  exists train test ptrain ptest,
    split_df (Examples.line 10) Examples.seven_tenths 100 Examples.world0
      = (Ok (train, test), Examples.world0) /\
    exact_floor Examples.seven_tenths (Z.of_nat (len (Examples.line 10)))
      <= Z.of_nat (len train)
      <= exact_floor Examples.seven_tenths (Z.of_nat (len (Examples.line 10))) + 1 /\
    to_int (mul Examples.seven_tenths (of_Z (Z.of_nat (len (Examples.line 10)))))
      = Ok (Z.of_nat (len train)) /\
    (len train + len test = len (Examples.line 10))%nat /\
    map cells (rows train) = map (fun i => cells (row_at (Examples.line 10) i)) ptrain /\
    map cells (rows test) = map (fun i => cells (row_at (Examples.line 10) i)) ptest /\
    Permutation (ptrain ++ ptest) (seq 0 (len (Examples.line 10))) /\
    (forall i, In i ptrain -> ~ In i ptest) /\
    Permutation (map cells (rows train ++ rows test)) (map cells (rows (Examples.line 10))).
Proof.
  assert (H1 : valid Examples.seven_tenths = true) by reflexivity.
  assert (H2 : ltb zero Examples.seven_tenths = true) by reflexivity.
  assert (H3 : ltb Examples.seven_tenths one = true) by reflexivity.
  assert (H4 : Z.of_nat (len (Examples.line 10)) < 2 ^ 53) by reflexivity.
  assert (H5 : 0 <= 100 < 2 ^ 32) by (split; [discriminate | reflexivity]).
  split; [auto|].
  exact (proj1 (split_df_sizes_and_partition reversing_permutes (Examples.line 10)
                  Examples.seven_tenths 100 Examples.world0 H1 H2 H3 H4 H5)).
Defined.

(** C1, as stated, fails.  The fraction [0.7] is the double just below
    7/10: on ten rows the exact product lies below 7 and its floor is [6],
    but the product is rounded to [7.0] before it is truncated, and train
    has seven rows.  Nor is the size the floor of the product of the
    decimal fraction: [0.29] on a hundred rows gives 28 rows, and
    [floor(0.29 * 100)] is 29. *)
Lemma split_df_size_not_exact_floor :
  (ltb zero Examples.seven_tenths = true /\ ltb Examples.seven_tenths one = true /\
   exact_floor Examples.seven_tenths (Z.of_nat (len (Examples.line 10))) = 6 /\
   exists train test,
     split_df (Examples.line 10) Examples.seven_tenths 100 Examples.world0
       = (Ok (train, test), Examples.world0) /\
     len train = 7%nat /\ len test = 3%nat) /\
  (Examples.twenty_nine_hundredths = of_decimal 29 (-2) /\
   ltb zero Examples.twenty_nine_hundredths = true /\
   ltb Examples.twenty_nine_hundredths one = true /\
   29 * Z.of_nat (len (Examples.line 100)) / 100 = 29 /\
   exists train test,
     split_df (Examples.line 100) Examples.twenty_nine_hundredths 100 Examples.world0
       = (Ok (train, test), Examples.world0) /\
     len train = 28%nat /\ len test = 72%nat).
Proof.
  split.
  - split; [reflexivity|]. split; [reflexivity|]. split; [vm_compute; reflexivity|].
    eexists. eexists. split; [vm_compute; reflexivity|]. split; reflexivity.
  - split; [vm_compute; reflexivity|]. split; [reflexivity|]. split; [reflexivity|].
    split; [vm_compute; reflexivity|].
    eexists. eexists. split; [vm_compute; reflexivity|]. split; vm_compute; reflexivity.
Qed.

(** With a fraction of [0.7], ten rows split seven to three. *)
Example split_df_seven_three :
  exists train test,
    split_df (Examples.line 10) Examples.seven_tenths 100 Examples.world0
      = (Ok (train, test), Examples.world0) /\
    len train = 7%nat /\ len test = 3%nat /\
    map label (rows train) = seq 0 7 /\ map label (rows test) = seq 7 3.
Proof.
  eexists. eexists. split; [vm_compute; reflexivity|]. repeat split.
Qed.

(** C9, as stated, fails: a fraction of [-0.5] lies outside (0, 1), and on
    four rows the index is [-2], which [iloc] counts from the end: train
    and test have two rows each. *)
Lemma split_df_negative_fraction_not_degenerate :
  ltb zero Examples.minus_half = false /\
  exists train test,
    split_df (Examples.line 4) Examples.minus_half 100 Examples.world0
      = (Ok (train, test), Examples.world0) /\
    len train = 2%nat /\ len test = 2%nat.
Proof.
  split; [reflexivity|].
  eexists. eexists. split; [vm_compute; reflexivity|]. split; reflexivity.
Qed.

Lemma split_df_outside_unit_interval_witness :
  (valid Examples.minus_half = true /\ Z.of_nat (len (Examples.line 4)) < 2 ^ 53 /\
   0 <= 100 < 2 ^ 32) /\
  let idx := to_int (mul Examples.minus_half (of_Z (Z.of_nat (len (Examples.line 4))))) in
  (forall other, ~ 0 <= other < 2 ^ 32 ->
     exists msg,
       split_df (Examples.line 4) Examples.minus_half other Examples.world0
         = (Raise (ValueError msg), Examples.world0)) /\
  (forall e, idx = Raise e ->
     split_df (Examples.line 4) Examples.minus_half 100 Examples.world0
       = (Raise e, Examples.world0)) /\
  (forall k, idx = Ok k ->
     exists train test,
       split_df (Examples.line 4) Examples.minus_half 100 Examples.world0
         = (Ok (train, test), Examples.world0) /\
       (len train + len test = len (Examples.line 4))%nat /\
       (k < 0 -> Z.of_nat (len train) = Z.max (Z.of_nat (len (Examples.line 4)) + k) 0) /\
       (0 <= k -> Z.of_nat (len train) = Z.min k (Z.of_nat (len (Examples.line 4)))) /\
       (is_finite Examples.minus_half = true -> leb one Examples.minus_half = true ->
          rows test = [] /\ len train = len (Examples.line 4)) /\
       (is_finite Examples.minus_half = true ->
          leb Examples.minus_half (opp one) = true \/ eqb Examples.minus_half zero = true ->
          rows train = [] /\ len test = len (Examples.line 4))).
Proof.
  assert (H1 : valid Examples.minus_half = true) by reflexivity.
  assert (H2 : Z.of_nat (len (Examples.line 4)) < 2 ^ 53) by reflexivity.
  assert (H3 : 0 <= 100 < 2 ^ 32) by (split; [discriminate | reflexivity]).
  split; [auto|].
  exact (split_df_outside_unit_interval reversing_permutes (Examples.line 4)
           Examples.minus_half 100 Examples.world0 H1 H2 H3).
Defined.

(** Against exact arithmetic: for [0 < f < 1] the train set has the floor
    of the exact product [f * len(df)] rows, or one more when the binary64
    product rounds up to an integer. *)
Theorem split_df_train_size_exact_floor (R : NumpyRandom) (df : DataFrame)
  (f : float) (seed : Z) (w w' : World) (train test : DataFrame) :
  permutes R ->
  valid f = true -> ltb zero f = true -> ltb f one = true ->
  Z.of_nat (len df) < 2 ^ 53 ->
  split_df df f seed w = (Ok (train, test), w') ->
  exact_floor f (Z.of_nat (len df)) <= Z.of_nat (len train)
    <= exact_floor f (Z.of_nat (len df)) + 1.
Proof.
  intros HR Hv H0 H1 Hn Hs.
  destruct (Float64Facts.split_index_fraction f (Z.of_nat (len df)) Hv H0 H1 ltac:(lia))
    as (k & Hk & Hb).
  pose proof (SplitFacts.split_df_seed_range df f seed w _ _ Hs) as Hseed.
  rewrite (SplitFacts.split_df_unfold df f seed w HR Hseed), Hk in Hs.
  inversion Hs; subst train test w'.
  pose proof (SplitFacts.split_parts df seed k HR) as P. cbv zeta in P.
  destruct P as (Ht & _). rewrite Ht, (PyFacts.slice_bound_inside k (len df)) by lia.
  apply (ExactFloorFacts.split_index_exact_floor f (Z.of_nat (len df)) k Hv H0 H1);
    [lia | exact Hk].
Qed.

Lemma split_df_train_size_exact_floor_witness :
  exists train test,
    (permutes Examples.reversing /\
     valid Examples.seven_tenths = true /\ ltb zero Examples.seven_tenths = true /\
     ltb Examples.seven_tenths one = true /\ Z.of_nat (len (Examples.line 10)) < 2 ^ 53 /\
     split_df (Examples.line 10) Examples.seven_tenths 100 Examples.world0
       = (Ok (train, test), Examples.world0)) /\
    exact_floor Examples.seven_tenths (Z.of_nat (len (Examples.line 10)))
      <= Z.of_nat (len train)
      <= exact_floor Examples.seven_tenths (Z.of_nat (len (Examples.line 10))) + 1.
Proof.
  eexists. eexists.
  assert (H1 : valid Examples.seven_tenths = true) by reflexivity.
  assert (H2 : ltb zero Examples.seven_tenths = true) by reflexivity.
  assert (H3 : ltb Examples.seven_tenths one = true) by reflexivity.
  assert (H4 : Z.of_nat (len (Examples.line 10)) < 2 ^ 53) by reflexivity.
  assert (Hs : split_df (Examples.line 10) Examples.seven_tenths 100 Examples.world0
                 = (Ok (_, _), Examples.world0)) by (vm_compute; reflexivity).
  split.
  - split; [exact reversing_permutes|]. split; [exact H1|]. split; [exact H2|].
    split; [exact H3|]. split; [exact H4 | exact Hs].
  - exact (split_df_train_size_exact_floor Examples.reversing (Examples.line 10)
             Examples.seven_tenths 100 Examples.world0 Examples.world0 _ _
             reversing_permutes H1 H2 H3 H4 Hs).
Defined.

(** ** The constructor and the equation table *)

Module ProcessorFacts.

Lemma has_column_In df p : has_column df p = true <-> In p (columns df).
Proof.
  unfold has_column. rewrite existsb_exists. split.
  - intros (c & Hc & He). apply String.eqb_eq in He. now subst.
  - intros H. exists p. split; [exact H | apply String.eqb_refl].
Qed.

Lemma missing_nil df ps :
  filter (fun p => negb (has_column df p)) ps = [] <->
  forall p, In p ps -> In p (columns df).
Proof.
  induction ps as [|q r IH]; simpl.
  - split; [intros _ p [] | reflexivity].
  - destruct (has_column df q) eqn:E; simpl.
    + rewrite IH. apply has_column_In in E. split.
      * intros H p [<-|Hp]; auto.
      * intros H p Hp. apply H. now right.
    + split; [discriminate|]. intros H. exfalso.
      assert (Hq : has_column df q = true) by (apply has_column_In, H; now left).
      congruence.
Qed.

End ProcessorFacts.

(** C8. The constructor fails with a [ValueError] exactly when some
    requested parameter name is not a column of the dataset, and the message
    lists the absent names in the order they were requested; the check is
    the constructor's first step, so no object exists in that case.  When
    every name is a column the constructor succeeds and stores its
    arguments unchanged: every [MEDProcessor] that the later methods see
    has passed the check. *)
Theorem init_validates_param_names (param_names : list string) (df : DataFrame)
  (target folder_save_name : string) :
  let missing := filter (fun p => negb (has_column df p)) param_names in
  ((exists p, In p param_names /\ ~ In p (columns df)) <->
   __init__ param_names df target folder_save_name =
     Raise (ValueError (String.append
       "The following param_names are not found in the DataFrame columns: "
       (repr_names missing)))) /\
  ((forall p, In p param_names -> In p (columns df)) <->
   __init__ param_names df target folder_save_name =
     Ok {| self_df := df; self_target := target;
           self_folder_save_name := folder_save_name;
           self_param_names := param_names |}) /\
  (forall p, In p missing <-> In p param_names /\ ~ In p (columns df)).
Proof.
  intros missing. unfold __init__. fold missing.
  pose proof (ProcessorFacts.missing_nil df param_names) as Hnil. fold missing in Hnil.
  assert (Hmem : forall p, In p missing <-> In p param_names /\ ~ In p (columns df)).
  { intros p. unfold missing. rewrite filter_In, negb_true_iff.
    rewrite <- ProcessorFacts.has_column_In. destruct (has_column df p); intuition congruence. }
  split; [|split; [|exact Hmem]].
  - destruct missing as [|m ms] eqn:E.
    + split; [|discriminate]. intros (p & Hp & Hn). exfalso.
      apply Hn. apply (proj1 Hnil eq_refl). exact Hp.
    + split; [reflexivity|]. intros _. exists m. apply Hmem. now left.
  - destruct missing as [|m ms] eqn:E.
    + split; [reflexivity|]. intros _. apply Hnil. reflexivity.
    + split; [|discriminate]. intros H. apply Hnil in H. discriminate.
Qed.

(** C10. [get_complexity_equation] reads the equation table and returns
    [None] when no record has the requested complexity, and otherwise the
    equation text of the first record, in table order, that has it,
    whatever records follow (records of the same complexity included). *)
Theorem get_complexity_equation_first_match (R : NumpyRandom) (self : MEDProcessor)
  (complexity : Z) (tmp_path : option string) (w : World) (table : list EquationRecord) :
  files w (eq_path self tmp_path) = Some table ->
  ((forall r, In r table -> Complexity r <> complexity) ->
   get_complexity_equation self complexity tmp_path w = (Ok None, w)) /\
  (forall pre r post,
     table = pre ++ r :: post ->
     Complexity r = complexity ->
     (forall x, In x pre -> Complexity x <> complexity) ->
     get_complexity_equation self complexity tmp_path w = (Ok (Some (Equation r)), w)) /\
  ((exists eq, get_complexity_equation self complexity tmp_path w = (Ok (Some eq), w)) <->
   exists r, In r table /\ Complexity r = complexity).
Proof.
  intros Hfile. unfold get_complexity_equation, bindM, read_csv, ret. rewrite Hfile.
  set (p := fun r : EquationRecord => Complexity r =? complexity).
  assert (Hp : forall r, p r = true <-> Complexity r = complexity)
    by (intros r; unfold p; apply Z.eqb_eq).
  assert (Hq : forall r, p r = false <-> Complexity r <> complexity)
    by (intros r; unfold p; apply Z.eqb_neq).
  split; [|split].
  - intros Hnone. destruct (filter p table) as [|r l] eqn:E; [reflexivity|].
    assert (Hin : In r (filter p table)) by (rewrite E; now left).
    apply filter_In in Hin. destruct Hin as [Hin Hr]. apply Hp in Hr.
    now elim (Hnone r Hin).
  - intros pre r post -> Hr Hpre. rewrite filter_app.
    assert (Hnil : filter p pre = []).
    { clear - Hpre Hq. induction pre as [|x l IH]; [reflexivity|]. simpl.
      rewrite (proj2 (Hq x) (Hpre x (or_introl eq_refl))). apply IH.
      intros y Hy. apply Hpre. now right. }
    rewrite Hnil. simpl. rewrite (proj2 (Hp r) Hr). reflexivity.
  - split.
    + intros [eq Heq]. destruct (filter p table) as [|r l] eqn:E; [discriminate|].
      assert (Hin : In r (filter p table)) by (rewrite E; now left).
      apply filter_In in Hin. exists r. split; [tauto | apply Hp; tauto].
    + intros (r & Hin & Hr). destruct (filter p table) as [|r' l] eqn:E.
      * exfalso. assert (Hf : In r (filter p table)) by (apply filter_In; split; [auto | now apply Hp]).
        rewrite E in Hf. destruct Hf.
      * eauto.
Qed.

Lemma get_complexity_equation_first_match_witness :
  files Examples.world0
    (eq_path {| self_df := Examples.line 10; self_target := "y";
                self_folder_save_name := "med_study";
                self_param_names := ["x"%string] |} None)
    = Some Examples.hall_of_fame /\
  get_complexity_equation
    {| self_df := Examples.line 10; self_target := "y";
       self_folder_save_name := "med_study"; self_param_names := ["x"%string] |}
    5 None Examples.world0
  = (Ok (Some "2*x + 1"%string), Examples.world0).
Proof.
  split; [reflexivity|].
  refine (proj1 (proj2 (get_complexity_equation_first_match Examples.reversing
    {| self_df := Examples.line 10; self_target := "y";
       self_folder_save_name := "med_study"; self_param_names := ["x"%string] |}
    5 None Examples.world0 Examples.hall_of_fame eq_refl))
    [ {| Equation := "x"; Complexity := 1 |} ]
    {| Equation := "2*x + 1"; Complexity := 5 |}
    [ {| Equation := "x^2"; Complexity := 3 |};
      {| Equation := "x + x + 1"; Complexity := 5 |} ] eq_refl eq_refl _).
  intros x [<-|[]]. discriminate.
Defined.

(** ** Order of binary64 values and column bounds *)

Module OrderFacts.

Import FloatOrder.

Lemma compare_finite s1 m1 e1 s2 m2 e2 :
  SFcompare (S754_finite s1 m1 e1) (S754_finite s2 m2 e2) =
  Some (match s1, s2 with
        | true, false => Lt
        | false, true => Gt
        | false, false =>
            match e1 ?= e2 with Lt => Lt | Gt => Gt | Eq => (m1 ?= m2)%positive end
        | true, true =>
            match e1 ?= e2 with Lt => Gt | Gt => Lt | Eq => CompOpp (m1 ?= m2)%positive end
        end).
Proof.
  simpl. rewrite !Pos.compare_cont_spec.
  destruct s1, s2, (e1 ?= e2); try reflexivity; now destruct (m1 ?= m2)%positive.
Qed.

Ltac order_cases :=
  repeat match goal with
         | |- context [Z.compare ?a ?b] => destruct (Z.compare_spec a b)
         | |- context [Pos.compare ?a ?b] => destruct (Pos.compare_spec a b)
         end.

Lemma ltb_key x y :
  ltb x y = true <-> is_nan x = false /\ is_nan y = false /\ lt3 (key x) (key y).
Proof.
  unfold ltb, SFltb.
  destruct x as [s1|s1| |s1 m1 e1], y as [s2|s2| |s2 m2 e2];
    try rewrite compare_finite; try destruct s1; try destruct s2;
    cbn [SFcompare is_nan key lt3]; order_cases; cbn [CompOpp];
    (split; [intros Hyp; try discriminate Hyp; repeat split; lia
            | intros (Hy1 & Hy2 & Hy3); try discriminate; try reflexivity; exfalso; lia]).
Qed.

Lemma leb_key x y :
  leb x y = true <-> is_nan x = false /\ is_nan y = false /\ le3 (key x) (key y).
Proof.
  unfold leb, SFleb.
  destruct x as [s1|s1| |s1 m1 e1], y as [s2|s2| |s2 m2 e2];
    try rewrite compare_finite; try destruct s1; try destruct s2;
    cbn [SFcompare is_nan key le3]; order_cases; cbn [CompOpp];
    (split; [intros Hyp; try discriminate Hyp; repeat split; lia
            | intros (Hy1 & Hy2 & Hy3); try discriminate; try reflexivity; exfalso; lia]).
Qed.

Lemma leb_refl x : is_nan x = false -> leb x x = true.
Proof.
  intros H. apply leb_key. repeat split; auto.
  unfold le3. destruct (key x) as [[a b] c]. lia.
Qed.

Lemma leb_trans x y z : leb x y = true -> leb y z = true -> leb x z = true.
Proof.
  rewrite !leb_key. intros (Hx & Hy & H1) (_ & Hz & H2). repeat split; auto.
  unfold le3 in *. destruct (key x) as [[a1 a2] a3], (key y) as [[b1 b2] b3],
    (key z) as [[c1 c2] c3]. lia.
Qed.

Lemma ltb_leb x y : ltb x y = true -> leb x y = true.
Proof.
  rewrite ltb_key, leb_key. intros (Hx & Hy & H). repeat split; auto.
  unfold lt3, le3 in *. destruct (key x) as [[a1 a2] a3], (key y) as [[b1 b2] b3]. lia.
Qed.

Lemma not_ltb_leb x y :
  is_nan x = false -> is_nan y = false -> ltb x y = false -> leb y x = true.
Proof.
  intros Hx Hy H. apply leb_key. repeat split; auto.
  assert (Hn : ~ lt3 (key x) (key y)).
  { intros Hlt. assert (Ht : ltb x y = true) by (apply ltb_key; auto). congruence. }
  unfold lt3, le3 in *. destruct (key x) as [[a1 a2] a3], (key y) as [[b1 b2] b3]. lia.
Qed.

End OrderFacts.

Module BoundsFacts.

Import OrderFacts PyFacts.

Lemma fold_min_from_value l : forall acc,
  is_nan acc = false ->
  let r := fold_left min_step l acc in
  is_nan r = false /\ leb r acc = true /\ (r = acc \/ In r l) /\
  (forall v, In v l -> is_nan v = false -> leb r v = true).
Proof.
  induction l as [|x l IH]; intros acc Hacc; simpl.
  - repeat split; auto using leb_refl; intros v Hv; destruct Hv.
  - assert (Hstep : is_nan (min_step acc x) = false /\ leb (min_step acc x) acc = true /\
                    (min_step acc x = acc \/ min_step acc x = x) /\
                    (is_nan x = false -> leb (min_step acc x) x = true)).
    { unfold min_step. rewrite Hacc. destruct (is_nan x) eqn:Ex.
      - repeat split; auto using leb_refl; discriminate.
      - destruct (ltb acc x) eqn:El.
        + repeat split; auto using leb_refl, ltb_leb.
        + repeat split; auto using leb_refl, not_ltb_leb. }
    destruct Hstep as (Hn & Hle & Hor & Hx).
    destruct (IH (min_step acc x) Hn) as (Hrn & Hrle & Hror & Hall).
    repeat split; auto.
    + eapply leb_trans; eauto.
    + destruct Hror as [->|Hin]; [destruct Hor as [->| ->]; auto|]; auto.
    + intros v [<-|Hv] Hvn; [|auto]. eapply leb_trans; eauto.
Qed.

Lemma series_min_spec l : is_minimum (series_min l) l.
Proof.
  unfold series_min, is_minimum. induction l as [|x l IH].
  - simpl. split; [intros v []|]. split; [intros (v & [] & _) | reflexivity].
  - simpl.
    assert (Hs : min_step nan x = if is_nan x then nan else x)
      by (unfold min_step; simpl; destruct (is_nan x); reflexivity).
    rewrite !Hs. clear Hs. destruct (is_nan x) eqn:Ex.
    + destruct IH as (H1 & H2 & H3). split; [|split].
      * intros v [<-|Hv] Hvn; [congruence | auto].
      * intros (v & [<-|Hv] & Hvn); [congruence|].
        destruct (H2 (ex_intro _ v (conj Hv Hvn))) as [Hin Hn]. split; [now right | exact Hn].
      * intros Hall. apply H3. intros v Hv. apply Hall. now right.
    + destruct (fold_min_from_value l x Ex) as (Hrn & Hrle & Hror & Hall).
      split; [|split].
      * intros v [<-|Hv] Hvn; auto.
      * intros _. split; [|exact Hrn]. destruct Hror as [->|Hin]; [now left | now right].
      * intros Hnan. specialize (Hnan x (or_introl eq_refl)). congruence.
Qed.

Lemma fold_max_from_value l : forall acc,
  is_nan acc = false ->
  let r := fold_left max_step l acc in
  is_nan r = false /\ leb acc r = true /\ (r = acc \/ In r l) /\
  (forall v, In v l -> is_nan v = false -> leb v r = true).
Proof.
  induction l as [|x l IH]; intros acc Hacc; simpl.
  - repeat split; auto using leb_refl; intros v Hv; destruct Hv.
  - assert (Hstep : is_nan (max_step acc x) = false /\ leb acc (max_step acc x) = true /\
                    (max_step acc x = acc \/ max_step acc x = x) /\
                    (is_nan x = false -> leb x (max_step acc x) = true)).
    { unfold max_step. rewrite Hacc. destruct (is_nan x) eqn:Ex.
      - repeat split; auto using leb_refl; discriminate.
      - destruct (ltb x acc) eqn:El.
        + repeat split; auto using leb_refl, ltb_leb.
        + repeat split; auto using leb_refl, not_ltb_leb. }
    destruct Hstep as (Hn & Hle & Hor & Hx).
    destruct (IH (max_step acc x) Hn) as (Hrn & Hrle & Hror & Hall).
    repeat split; auto.
    + eapply leb_trans; eauto.
    + destruct Hror as [->|Hin]; [destruct Hor as [->| ->]; auto|]; auto.
    + intros v [<-|Hv] Hvn; [|auto]. eapply leb_trans; eauto.
Qed.

Lemma series_max_spec l : is_maximum (series_max l) l.
Proof.
  unfold series_max, is_maximum. induction l as [|x l IH].
  - simpl. split; [intros v []|]. split; [intros (v & [] & _) | reflexivity].
  - simpl.
    assert (Hs : max_step nan x = if is_nan x then nan else x)
      by (unfold max_step; simpl; destruct (is_nan x); reflexivity).
    rewrite !Hs. clear Hs. destruct (is_nan x) eqn:Ex.
    + destruct IH as (H1 & H2 & H3). split; [|split].
      * intros v [<-|Hv] Hvn; [congruence | auto].
      * intros (v & [<-|Hv] & Hvn); [congruence|].
        destruct (H2 (ex_intro _ v (conj Hv Hvn))) as [Hin Hn]. split; [now right | exact Hn].
      * intros Hall. apply H3. intros v Hv. apply Hall. now right.
    + destruct (fold_max_from_value l x Ex) as (Hrn & Hrle & Hror & Hall).
      split; [|split].
      * intros v [<-|Hv] Hvn; auto.
      * intros _. split; [|exact Hrn]. destruct Hror as [->|Hin]; [now left | now right].
      * intros Hnan. specialize (Hnan x (or_introl eq_refl)). congruence.
Qed.

Lemma series_single v : series_min [v] = v /\ series_max [v] = v.
Proof. destruct v as [s|s| |s m e]; split; reflexivity. Qed.

Lemma column_index_Some p cols :
  In p cols -> exists i, column_index p cols = Some i /\ (i < List.length cols)%nat.
Proof.
  induction cols as [|c r IH]; simpl; [intros []|]. intros H.
  destruct (String.eqb_spec c p) as [->|N].
  - exists 0%nat. split; [reflexivity | lia].
  - destruct H as [->|H]; [congruence|].
    destruct (IH H) as (i & -> & Hi). exists (S i). split; [reflexivity | lia].
Qed.

Lemma get_column_ok df p :
  well_formed df -> In p (columns df) -> exists col, get_column df p = Ok col.
Proof.
  intros Hwf Hp. unfold get_column.
  destruct (column_index_Some p (columns df) Hp) as (i & -> & Hi).
  apply mapM_all_ok. intros r Hr.
  unfold well_formed in Hwf. rewrite Forall_forall in Hwf. specialize (Hwf r Hr).
  destruct (nth_error (cells r) i) eqn:E; [eauto|].
  apply nth_error_None in E. lia.
Qed.

End BoundsFacts.

(** ** Compiled equations *)

Module CompileFacts.


Lemma append_length (a b : string) :
  String.length (String.append a b) = (String.length a + String.length b)%nat.
Proof. induction a as [|x a IH]; simpl; [reflexivity | now rewrite IH]. Qed.

Lemma append_inj_l (a b c : string) : String.append a b = String.append a c -> b = c.
Proof. induction a as [|x a IH]; simpl; intros H; [exact H | inversion H; auto]. Qed.

Lemma append_inj_r (a b c : string) : String.append a c = String.append b c -> a = b.
Proof.
  revert b. induction a as [|x a IH]; intros [|y b] H; simpl in H.
  - reflexivity.
  - exfalso. apply (f_equal String.length) in H. simpl in H. rewrite append_length in H. lia.
  - exfalso. apply (f_equal String.length) in H. simpl in H. rewrite append_length in H. lia.
  - inversion H. f_equal. now apply IH.
Qed.


Lemma chars_app a b : chars (String.append a b) = chars a ++ chars b.
Proof. induction a as [|c a IH]; simpl; [reflexivity | unfold chars in *; simpl; now rewrite IH]. Qed.




Lemma dict_get_combine_bound {V} (ps : list string) : forall (args : list V) x,
  List.length args = List.length ps -> existsb (String.eqb x) ps = true ->
  exists v, dict_get x (combine ps args) = Some v.
Proof.
  induction ps as [|q ps IH]; intros args x Hl Hx; [discriminate|].
  destruct args as [|a args]; [discriminate|]. simpl in *.
  rewrite (String.eqb_sym x q) in Hx.
  destruct (String.eqb q x); [eauto|]. apply IH; [lia | exact Hx].
Qed.


Section Evaluation.

Context {L : Libm} {Y : Library}.



End Evaluation.

End CompileFacts.






(** ** Scoring *)

Module ScoreFacts.

Import PyFacts CompileFacts.

Lemma err_column_inj c c' target : err_column c target = err_column c' target -> c = c'.
Proof.
  unfold err_column. intros H. apply append_inj_l in H.
  apply append_inj_r in H. now apply str_int_inj.
Qed.

Section Scoring.

Context {L : Libm} {Y : Library}.

(** The values of a row of [iterrows] are numbers. *)
Lemma iterrows_value_number df x : number (iterrows_value df x) = Some x.
Proof. unfold iterrows_value. destruct (mixed df); reflexivity. Qed.

Lemma row_item_ok df r p v :
  row_item df r p = Ok v ->
  exists x, row_get df r p = Ok x /\ v = iterrows_value df x.
Proof.
  unfold row_item. destruct (row_get df r p) as [x|]; [|discriminate].
  simpl. intros H. inversion H. eauto.
Qed.

Lemma row_item_get df r p x :
  row_get df r p = Ok x -> row_item df r p = Ok (iterrows_value df x).
Proof. unfold row_item. now intros ->. Qed.

Lemma row_item_raise df r p e : row_get df r p = Raise e -> row_item df r p = Raise e.
Proof. unfold row_item. now intros ->. Qed.

Lemma row_items_ok df r ps : forall vs,
  mapM (row_item df r) ps = Ok vs ->
  exists pv, mapM (row_get df r) ps = Ok pv /\ vs = map (iterrows_value df) pv.
Proof.
  induction ps as [|p ps IH]; intros vs H; simpl in H.
  - inversion H. exists []. split; reflexivity.
  - destruct (row_item df r p) as [v|] eqn:Hp; [|discriminate]. simpl in H.
    destruct (mapM (row_item df r) ps) as [vs'|] eqn:Hps; [|discriminate].
    simpl in H. inversion H; subst vs. clear H.
    destruct (row_item_ok df r p v Hp) as (x & Hx & ->).
    destruct (IH vs' eq_refl) as (pv & Hpv & ->).
    exists (x :: pv). simpl. rewrite Hx, Hpv. split; reflexivity.
Qed.


(** On numbers the error is the quotient of the two magnitudes, computed
    by numpy: [np.abs] gives a [float64] whatever it is given. *)
Lemma np_relative_error_number (actual pred : Value) a p :
  number actual = Some a -> number pred = Some p ->
  np_relative_error actual pred = Ok (NpFloat (relative_error a p)).
Proof.
  intros Ha Hp. unfold np_relative_error, relative_error.
  destruct actual as [x|x|o], pred as [y|y|o']; simpl in Ha, Hp; try discriminate;
    inversion Ha; inversion Hp; subst; reflexivity.
Qed.

Variables (self : MEDProcessor) (df : DataFrame) (test_row : Row).

(** One step of the inner loop. *)
Lemma score_equations_cons func c rest d d' :
  score_equations self df test_row ((func, c) :: rest) d = Ok d' ->
  exists pv pred actual err,
    mapM (row_get df test_row) (self_param_names self) = Ok pv /\
    call func (map (iterrows_value df) pv) = Ok pred /\
    row_get df test_row (self_target self) = Ok actual /\
    np_relative_error (iterrows_value df actual) pred = Ok err /\
    score_equations self df test_row rest
      (dict_set (err_column c (self_target self)) err d) = Ok d'.
Proof.
  simpl. intros H.
  destruct (mapM (row_item df test_row) (self_param_names self)) as [vs|] eqn:E1;
    [|discriminate].
  destruct (row_items_ok _ _ _ _ E1) as (pv & Hpv & ->).
  simpl in H. destruct (call func (map (iterrows_value df) pv)) as [pred|] eqn:E2;
    [|discriminate].
  simpl in H. destruct (row_item df test_row (self_target self)) as [av|] eqn:E3;
    [|discriminate].
  destruct (row_item_ok _ _ _ _ E3) as (actual & Ha & ->).
  simpl in H. destruct (np_relative_error (iterrows_value df actual) pred) as [err|] eqn:E4;
    [|discriminate].
  simpl in H. exists pv, pred, actual, err. repeat split; auto.
Qed.

(** Later equations of other complexities leave an entry alone. *)
Lemma score_equations_preserves eqs : forall d d' k,
  score_equations self df test_row eqs d = Ok d' ->
  (forall g c, In (g, c) eqs -> err_column c (self_target self) <> k) ->
  dict_get k d' = dict_get k d.
Proof.
  induction eqs as [|[func c] rest IH]; intros d d' k H Hk.
  - simpl in H. now inversion H.
  - apply score_equations_cons in H.
    destruct H as (pv & pred & actual & err & _ & _ & _ & _ & H).
    rewrite (IH _ _ k H); [|intros g c' Hin; apply (Hk g c'); now right].
    apply dict_get_set_other. intros E. apply (Hk func c); [now left | now symmetry].
Qed.

(** The entry of an equation that no later equation overwrites. *)
Lemma score_equations_entry eqs : forall d d' pre func c post,
  score_equations self df test_row eqs d = Ok d' ->
  eqs = pre ++ (func, c) :: post ->
  (forall g c', In (g, c') post -> c' <> c) ->
  exists pv pred actual err,
    mapM (row_get df test_row) (self_param_names self) = Ok pv /\
    call func (map (iterrows_value df) pv) = Ok pred /\
    row_get df test_row (self_target self) = Ok actual /\
    np_relative_error (iterrows_value df actual) pred = Ok err /\
    dict_get (err_column c (self_target self)) d' = Some err.
Proof.
  induction eqs as [|[g0 c0] rest IH]; intros d d' pre func c post H E Hpost.
  - destruct pre; discriminate.
  - apply score_equations_cons in H.
    destruct H as (pv & pred & actual & err & Hpv & Hc & Ha & He & H).
    destruct pre as [|x pre]; simpl in E; inversion E; subst.
    + exists pv, pred, actual, err. repeat split; auto.
      rewrite (score_equations_preserves _ _ _ _ H).
      * apply dict_get_set_same.
      * intros g c' Hin Heq. apply err_column_inj in Heq. now apply (Hpost g c').
    + eapply IH; eauto.
Qed.

End Scoring.

Lemma bindM_ok {R : NumpyRandom} {A B} (c : M A) (k : A -> M B) w b w' :
  bindM c k w = (Ok b, w') -> exists a w1, c w = (Ok a, w1) /\ k a w1 = (Ok b, w').
Proof.
  unfold bindM. destruct (c w) as [[a|e] w1]; [eauto | discriminate].
Qed.

End ScoreFacts.

(** C3. When [test_equations] returns, there is one result row per test
    row (in the sorted order), and in each the entry recorded for an
    equation is [np.abs(actual - predicted) / (np.abs(actual) + 1e-8)],
    where [predicted] is the compiled equation at the row's parameter
    values and [actual] the row's target value: for a prediction that is a
    number, the [float64] value [|actual - predicted| / (|actual| + 1e-8)].
    (When several records share a complexity they share a column name, and
    the column keeps the entry of the last of them.)  For [actual = 0] the
    error is [0] at [predicted = 0] and [1e8] at [predicted = 1]. *)
Theorem test_equations_relative_error (R : NumpyRandom) (L : Libm) (S : Sorting)
  (Y : Library) (self : MEDProcessor) (test_df : DataFrame) (tmp_path : option string)
  (w w' : World) (results : list (dict Value)) :
  sorts S ->
  test_equations self test_df tmp_path w = (Ok results, w') ->
  let sorted := sort_values (self_param_names self) test_df in
  let recorded (equations : list (Lambda * Z)) (test_row : Row) (result_row : dict Value) :=
    forall pre func c post,
      equations = pre ++ (func, c) :: post ->
      (forall g c', In (g, c') post -> c' <> c) ->
      exists param_values pred actual err,
        mapM (row_get sorted test_row) (self_param_names self) = Ok param_values /\
        call func (map (iterrows_value sorted) param_values) = Ok pred /\
        row_get sorted test_row (self_target self) = Ok actual /\
        np_relative_error (iterrows_value sorted actual) pred = Ok err /\
        dict_get (err_column c (self_target self)) result_row = Some err /\
        (forall p, number pred = Some p ->
           err = NpFloat (div (abs (sub actual p))
                              (add (abs actual) (of_decimal 1 (-8))))) in
  (exists table equations,
     files w (eq_path self tmp_path) = Some table /\
     Forall2 (fun record fc =>
                create_function (Equation record) (self_param_names self) = Ok (fst fc) /\
                snd fc = Complexity record) table equations /\
     Forall2 (recorded equations) (rows sorted) results /\
     Permutation (rows sorted) (rows test_df)) /\
  div (abs (sub zero zero)) (add (abs zero) (of_decimal 1 (-8))) = zero /\
  div (abs (sub zero one)) (add (abs zero) (of_decimal 1 (-8))) = of_Z 100000000.
Proof.
  intros HS H sorted recorded. split; [|split; vm_compute; reflexivity].
  unfold test_equations in H.
  apply ScoreFacts.bindM_ok in H. destruct H as (table & w1 & Hread & H).
  apply ScoreFacts.bindM_ok in H. destruct H as (equations & w2 & Hcomp & H).
  apply ScoreFacts.bindM_ok in H. destruct H as (res & w3 & Hres & H).
  unfold ret in H. inversion H; subst res w3. clear H.
  unfold read_csv in Hread.
  destruct (files w (eq_path self tmp_path)) as [t|] eqn:Hf; [|discriminate].
  inversion Hread; subst t w1. clear Hread.
  unfold lift in Hcomp, Hres. inversion Hcomp as [[Hc Hw]]. inversion Hres as [[Hr Hw']].
  exists table, equations. split; [reflexivity|]. split; [|split].
  - unfold compile_all in Hc. apply PyFacts.mapM_ok_Forall2 in Hc.
    eapply Forall2_impl; [|exact Hc]. intros record fc Hfc. simpl in Hfc.
    destruct (create_function (Equation record) (self_param_names self)); [|discriminate].
    simpl in Hfc. inversion Hfc. split; reflexivity.
  - apply PyFacts.mapM_ok_Forall2 in Hr. fold sorted in Hr.
    eapply Forall2_impl; [|exact Hr]. intros test_row result_row Hrow.
    unfold recorded. intros pre func c post E Hpost.
    unfold score_row in Hrow.
    destruct (param_entries sorted test_row (self_param_names self) []) as [d0|]; [|discriminate].
    simpl in Hrow.
    destruct (row_item sorted test_row (self_target self)) as [t|] eqn:Ht; [|discriminate].
    simpl in Hrow.
    destruct (ScoreFacts.score_equations_entry self sorted test_row equations _ _
                pre func c post Hrow E Hpost)
      as (pv & pred & actual & err & Hpv & Hcall & Ha & He & Hd).
    exists pv, pred, actual, err. repeat split; auto.
    intros p Hp.
    rewrite (ScoreFacts.np_relative_error_number _ pred actual p
               (ScoreFacts.iterrows_value_number sorted actual) Hp) in He.
    now inversion He.
  - apply HS.
Qed.
(** ** The evaluation pass *)

Module PassFacts.

Import PyFacts CompileFacts ScoreFacts.

Lemma row_get_ok df r p :
  List.length (cells r) = List.length (columns df) -> In p (columns df) ->
  exists v, row_get df r p = Ok v.
Proof.
  intros Hl Hp. unfold row_get.
  destruct (BoundsFacts.column_index_Some p (columns df) Hp) as (i & -> & Hi).
  destruct (nth_error (cells r) i) eqn:E; [eauto|].
  apply nth_error_None in E. lia.
Qed.

Section Pass.

Context {L : Libm} {Y : Library}.

Lemma param_entries_ok df r ps : forall d,
  (forall p, In p ps -> exists v, row_get df r p = Ok v) ->
  exists d', param_entries df r ps d = Ok d'.
Proof.
  induction ps as [|p ps IH]; intros d H; simpl; [eauto|].
  destruct (H p (or_introl eq_refl)) as [v Hv].
  rewrite (row_item_get df r p v Hv). simpl.
  apply IH. intros q Hq. apply H. now right.
Qed.







End Pass.

End PassFacts.

(** ** Instances of the theorems on the sample data *)

Lemma keep_order_sorts : sorts Examples.keep_order.
Proof. intros by_ df. split; [reflexivity | apply Permutation_refl]. Qed.


Lemma line_well_formed n : well_formed (Examples.line n).
Proof.
  unfold well_formed, Examples.line. simpl. apply Forall_forall.
  intros r Hr. apply in_map_iff in Hr. destruct Hr as (i & <- & _). reflexivity.
Qed.

Lemma test_equations_relative_error_witness :
  exists results,
    (sorts Examples.keep_order /\
     test_equations (R := Examples.reversing) (L := Examples.no_libm)
       (S := Examples.keep_order) (Y := Examples.as_written)
       (Examples.study "med_study") (Examples.line 3) None
       Examples.world0 = (Ok results, Examples.world0)) /\
    div (abs (sub zero one)) (add (abs zero) (of_decimal 1 (-8))) = of_Z 100000000.
Proof.
  eexists.
  assert (Hrun : test_equations (R := Examples.reversing) (L := Examples.no_libm)
                   (S := Examples.keep_order) (Y := Examples.as_written)
                   (Examples.study "med_study")
                   (Examples.line 3) None Examples.world0 = (Ok _, Examples.world0))
    by (vm_compute; reflexivity).
  split; [split; [exact keep_order_sorts | exact Hrun]|].
  exact (proj2 (proj2 (test_equations_relative_error Examples.reversing Examples.no_libm
    Examples.keep_order Examples.as_written (Examples.study "med_study") (Examples.line 3)
    None Examples.world0 Examples.world0 _ keep_order_sorts Hrun))).
Defined.


(** A table of [float64] columns: at the row [x = 0] the errors of [log(x)]
    and of [1/x] are recorded as [inf], and the pass goes on to the other
    rows. *)
Example singular_table_scores_infinity :
  exists r1 r2 r3,
    test_equations (R := Examples.reversing) (L := Examples.no_libm)
      (S := Examples.keep_order) (Y := Examples.as_written)
      (Examples.study "singular") (Examples.line 3) None Examples.world0
      = (Ok [r1; r2; r3], Examples.world0) /\
    dict_get "Complexity 2 y p err" r1 = Some (NpFloat infinity) /\
    dict_get "Complexity 3 y p err" r1 = Some (NpFloat infinity).
Proof.
  do 3 eexists. split; [vm_compute; reflexivity|]. split; reflexivity.
Qed.


(** End to end on the ten-row line [y = 2*x + 1]: a 70/30 split, then the
    table whose only equation is [2*x + 1] at complexity 1.  The error
    column is exactly zero on every test row. *)
Example linear_law_scores_zero :
  exists train test params results,
    prepare_data (Examples.study "linear") Examples.seven_tenths 100 Examples.world0
      = (Ok (train, test, params), Examples.world0) /\
    test_equations (R := Examples.reversing) (L := Examples.no_libm)
      (S := Examples.keep_order) (Y := Examples.as_written)
      (Examples.study "linear") test None Examples.world0
      = (Ok results, Examples.world0) /\
    List.length results = 3%nat /\
    Forall (fun row => dict_get "Complexity 1 y p err" row = Some (NpFloat zero)) results.
Proof.
  do 4 eexists. split; [vm_compute; reflexivity|].
  split; [vm_compute; reflexivity|]. split; [reflexivity|].
  repeat constructor.
Qed.

(** ** The relative error *)

Module ErrorFacts.

Import Dyadic Float64Facts Sign.

Lemma binary_round_aux_signed sx M E l : signed sx (binary_round_aux prec emax sx M E l).
Proof.
  unfold binary_round_aux.
  destruct (shr_fexp prec emax M E l) as [mrs' e'].
  destruct (shr_fexp prec emax _ e' loc_Exact) as [mrs'' e''].
  destruct (shr_m mrs''); [reflexivity | | exact I].
  destruct (Z.leb e'' (emax - prec)); reflexivity.
Qed.

Lemma binary_round_signed sx m e : signed sx (binary_round prec emax sx m e).
Proof.
  unfold binary_round. destruct (shl_align m e _) as [mz ez].
  apply binary_round_aux_signed.
Qed.

(** A shift that the format asks for keeps a positive mantissa positive
    when the exponent is not below the least one. *)
Lemma shift_keeps_positive X e s :
  0 < X -> -1074 <= e -> 0 <= s ->
  s = 0 \/ (0 < s /\ e + s = fexp prec emax (Zdigits2 X + e)) ->
  0 < X / 2 ^ s.
Proof.
  intros HX He Hs [->|[Hs0 Hf]].
  - now rewrite Z.pow_0_r, Z.div_1_r.
  - rewrite fexp_eq in Hf. pose proof (Zdigits2_bounds X HX) as [Hd _].
    set (d := Zdigits2 X) in *.
    assert (Hsd : s = d - 53) by lia.
    replace (d - 1) with (52 + s) in Hd by lia. rewrite pow2_split in Hd by lia.
    pose proof (pow2_pos s Hs).
    assert (Hq : 2 ^ 52 <= X / 2 ^ s) by (apply Z.div_le_lower_bound; lia).
    lia.
Qed.

(** Rounding a positive number whose exponent is in range never gives
    zero. *)
Lemma binary_round_aux_positive sx M E :
  0 < M -> -1074 <= E ->
  match binary_round_aux prec emax sx M E loc_Exact with
  | S754_finite s _ _ | S754_infinity s => s = sx
  | _ => False
  end.
Proof.
  intros HM HE. unfold binary_round_aux.
  destruct (shr_fexp_exact_spec M E ltac:(lia)) as (s & Hs & He' & Hinv & Hcase).
  destruct (shr_fexp prec emax M E loc_Exact) as [mrs' e']. simpl fst in *; simpl snd in *.
  pose proof (round_shr_bounds M s mrs' Hinv) as [Hb _].
  set (m1 := round_nearest_even (shr_m mrs') (loc_of_shr_record mrs')) in *.
  pose proof (shift_keeps_positive M E s HM HE Hs Hcase) as Hq.
  assert (Hm1 : 0 < m1) by lia.
  destruct (shr_fexp_exact_spec m1 e' ltac:(lia)) as (s2 & Hs2 & He'' & Hinv2 & Hcase2).
  destruct (shr_fexp prec emax m1 e' loc_Exact) as [mrs'' e'']. simpl fst in *; simpl snd in *.
  destruct Hinv2 as [Hm2 _].
  pose proof (shift_keeps_positive m1 e' s2 Hm1 ltac:(lia) Hs2 Hcase2) as Hq2.
  rewrite <- Hm2 in Hq2.
  destruct (shr_m mrs'') as [|m2|m2]; try lia.
  destruct (Z.leb e'' (emax - prec)); auto.
Qed.

Lemma binary_round_positive sx m e :
  -1074 <= e ->
  match binary_round prec emax sx m e with
  | S754_finite s _ _ | S754_infinity s => s = sx
  | _ => False
  end.
Proof.
  intros He. unfold binary_round, shl_align.
  remember (fexp prec emax (Z.pos (digits2_pos m) + e)) as fe eqn:Hfe.
  assert (Hfe' : -1074 <= fe) by (subst fe; rewrite fexp_eq; lia). clear Hfe.
  destruct (fe - e) as [|d|d]; apply binary_round_aux_positive; lia.
Qed.

(** The sum of two positive floats is positive. *)
Lemma add_positive m1 e1 m2 e2 :
  -1074 <= e1 -> -1074 <= e2 ->
  positive (add (S754_finite false m1 e1) (S754_finite false m2 e2)).
Proof.
  intros H1 H2. unfold add, SFadd. cbv zeta.
  destruct (shl_align m1 e1 _) as [a ea].
  destruct (shl_align m2 e2 _) as [b eb].
  simpl fst. simpl cond_Zopp. change (Z.pos a + Z.pos b) with (Z.pos (a + b)).
  unfold binary_normalize.
  pose proof (binary_round_positive false (a + b) (Z.min e1 e2) ltac:(lia)) as H.
  change IntDef.Z.min with Z.min.
  destruct (binary_round prec emax false (a + b) (Z.min e1 e2)) as [s|s| |s m e];
    try contradiction; subst s; exact I.
Qed.

Lemma eps_finite : exists m e, eps = S754_finite false m e /\ -1074 <= e.
Proof. unfold eps. do 2 eexists. split; [reflexivity | lia]. Qed.

(** The denominator [|actual| + 1e-8] is positive for every value of the
    table that is not NaN. *)
Lemma denominator_positive actual :
  valid actual = true -> is_nan actual = false -> positive (add (abs actual) eps).
Proof.
  intros Hv Hn. destruct eps_finite as (me & ee & -> & Hee).
  destruct actual as [s|s| |s m e]; try discriminate Hn.
  - exact I.
  - exact I.
  - apply valid_finite_digits in Hv. destruct Hv as (_ & He & _).
    now apply add_positive.
Qed.

Lemma sub_self x : is_finite x = true -> sub x x = zero.
Proof.
  destruct x as [s|s| |s m e]; try discriminate; intros _.
  - now destruct s.
  - unfold sub, SFsub. cbv zeta. destruct (shl_align m e _) as [a ea].
    simpl fst. now rewrite Z.sub_diag.
Qed.

Lemma abs_signed x : signed false (abs x).
Proof. destruct x; simpl; auto. Qed.

Lemma add_signed x y : signed false x -> signed false y -> signed false (add x y).
Proof.
  unfold add, SFadd.
  destruct x as [sx|sx| |sx mx ex], y as [sy|sy| |sy my ey]; cbn [signed]; intros; subst;
    try exact I; try reflexivity.
  cbv zeta.
  destruct (shl_align mx ex _) as [a ea].
  destruct (shl_align my ey _) as [b eb].
  simpl fst. simpl cond_Zopp. change (Z.pos a + Z.pos b) with (Z.pos (a + b)).
  apply binary_round_signed.
Qed.

Lemma div_signed x y : signed false x -> signed false y -> signed false (div x y).
Proof.
  unfold div, SFdiv.
  destruct x as [sx|sx| |sx mx ex], y as [sy|sy| |sy my ey]; cbn [signed]; intros; subst;
    try exact I; try reflexivity.
  destruct (SFdiv_core_binary prec emax (Z.pos mx) ex (Z.pos my) ey) as [[mz ez] lz].
  apply binary_round_aux_signed.
Qed.

Lemma relative_error_signed actual pred : signed false (relative_error actual pred).
Proof.
  unfold relative_error. apply div_signed; [apply abs_signed|].
  apply add_signed; [apply abs_signed|]. unfold eps. reflexivity.
Qed.

Lemma signed_nonnegative x : signed false x -> is_nan x = true \/ leb zero x = true.
Proof.
  destruct x as [s|s| |s m e]; simpl; intros H; subst; auto.
Qed.

Lemma relative_error_same actual :
  valid actual = true -> is_finite actual = true -> relative_error actual actual = zero.
Proof.
  intros Hv Hf. unfold relative_error. rewrite (sub_self _ Hf).
  assert (Hn : is_nan actual = false) by (destruct actual; auto; discriminate).
  pose proof (denominator_positive actual Hv Hn) as Hd.
  destruct (add (abs actual) eps) as [s|s| |s m e]; try contradiction;
    destruct s; try contradiction; reflexivity.
Qed.

End ErrorFacts.

(** ** Entries of a result row *)

Module RowFacts.

Import PyFacts CompileFacts ScoreFacts ListFacts TableFacts.

Lemma err_column_longer c target :
  (String.length target < String.length (err_column c target))%nat.
Proof. unfold err_column. rewrite !append_length. simpl. lia. Qed.

Lemma err_column_not_target c target : err_column c target <> target.
Proof.
  intros H. pose proof (err_column_longer c target) as Hl. rewrite H in Hl. lia.
Qed.

(** Names outside the list are left alone by the dictionary comprehension. *)
Lemma param_entries_other {Y : Library} df r ps : forall d d' k,
  param_entries df r ps d = Ok d' -> ~ In k ps -> dict_get k d' = dict_get k d.
Proof.
  induction ps as [|p ps IH]; intros d d' k H Hk; simpl in H.
  - now inversion H.
  - destruct (row_item df r p) as [v|]; [|discriminate]. simpl in H.
    rewrite (IH _ _ k H); [|intros Hin; apply Hk; now right].
    apply dict_get_set_other. intros ->. apply Hk. now left.
Qed.

(** A listed name maps to the cell of the row. *)
Lemma param_entries_get {Y : Library} df r ps : forall d d' p,
  param_entries df r ps d = Ok d' -> In p ps ->
  exists v, row_get df r p = Ok v /\ dict_get p d' = Some (iterrows_value df v).
Proof.
  induction ps as [|q ps IH]; intros d d' p H Hp; [destruct Hp|]. simpl in H.
  destruct (row_item df r q) as [v|] eqn:Hq; [|discriminate]. simpl in H.
  destruct (in_dec string_dec p ps) as [Hin|Hnin].
  - eapply IH; eauto.
  - destruct Hp as [->|Hp]; [|contradiction].
    destruct (row_item_ok df r p v Hq) as (x & Hx & ->).
    exists x. split; [exact Hx|].
    rewrite (param_entries_other _ _ _ _ _ p H Hnin). apply dict_get_set_same.
Qed.

(** The error of a prediction is a [float64] when the prediction is a
    number, and an object when it is an object. *)
Lemma np_relative_error_outcome {L : Libm} {Y : Library} (actual pred err : Value) a :
  number actual = Some a ->
  np_relative_error actual pred = Ok err ->
  (exists p, number pred = Some p /\ err = NpFloat (relative_error a p)) \/
  (exists o o', pred = PyObject o /\ err = PyObject o').
Proof.
  intros Ha H. destruct pred as [p|p|o].
  - left. exists p. split; [reflexivity|].
    rewrite (np_relative_error_number actual (NpFloat p) a p Ha eq_refl) in H.
    now inversion H.
  - left. exists p. split; [reflexivity|].
    rewrite (np_relative_error_number actual (PyFloat p) a p Ha eq_refl) in H.
    now inversion H.
  - right. exists o. unfold np_relative_error in H.
    destruct actual as [x|x|u]; [| |discriminate Ha]; cbn [arith bind] in H;
      destruct (object_binop Sub _ _) as [d|]; try discriminate H;
      cbn [bind np_abs] in H;
      (destruct (object_abs d) as [n|]; [|discriminate H]);
      cbn [bind arith numpy_arith] in H;
      (destruct (object_binop Div _ _) as [q|]; [|discriminate H]);
      cbn [bind] in H; inversion H; eauto.
Qed.

Section Scoring.

Context {L : Libm} {Y : Library}.
Variables (self : MEDProcessor) (df : DataFrame) (test_row : Row).

(** What [score_row] leaves under a key that is not an error column of the
    table. *)
Lemma score_row_other equations d k :
  score_row self df equations test_row = Ok d ->
  (forall g c, In (g, c) equations -> err_column c (self_target self) <> k) ->
  exists d0 t,
    param_entries df test_row (self_param_names self) [] = Ok d0 /\
    row_get df test_row (self_target self) = Ok t /\
    dict_get k d = dict_get k (dict_set (self_target self) (iterrows_value df t) d0).
Proof.
  unfold score_row. intros H Hk.
  destruct (param_entries df test_row (self_param_names self) []) as [d0|]; [|discriminate].
  simpl in H.
  destruct (row_item df test_row (self_target self)) as [tv|] eqn:Ht; [|discriminate].
  destruct (row_item_ok _ _ _ _ Ht) as (t & Htg & ->).
  simpl in H. exists d0, t. split; [reflexivity|]. split; [exact Htg|].
  eapply score_equations_preserves; eauto.
Qed.

(** The entry of the last equation of a complexity. *)
Lemma score_row_entry equations d f c :
  score_row self df equations test_row = Ok d ->
  In (f, c) equations ->
  exists actual pred err,
    np_relative_error (iterrows_value df actual) pred = Ok err /\
    dict_get (err_column c (self_target self)) d = Some err.
Proof.
  unfold score_row. intros H Hin.
  destruct (param_entries df test_row (self_param_names self) []) as [d0|]; [|discriminate].
  simpl in H.
  destruct (row_item df test_row (self_target self)) as [t|]; [|discriminate].
  simpl in H.
  destruct (last_occurrence equations c f Hin) as (pre & g & post & E & Hpost).
  destruct (score_equations_entry self df test_row equations _ _ pre g c post H E Hpost)
    as (pv & pred & actual & err & _ & _ & _ & He & Hd).
  eauto.
Qed.

End Scoring.

(** The steps of a run of [test_equations] that returns. *)
Lemma test_equations_ok {R : NumpyRandom} {L : Libm} {S : Sorting} {Y : Library}
  (self : MEDProcessor) (test_df : DataFrame) (tmp_path : option string)
  (w w' : World) (results : list (dict Value)) :
  test_equations self test_df tmp_path w = (Ok results, w') ->
  exists table equations,
    files w (eq_path self tmp_path) = Some table /\
    compile_all self table = Ok equations /\
    mapM (score_row self (sort_values (self_param_names self) test_df) equations)
         (rows (sort_values (self_param_names self) test_df)) = Ok results /\
    w' = w.
Proof.
  intros H. unfold test_equations in H.
  apply bindM_ok in H. destruct H as (table & w1 & Hread & H).
  apply bindM_ok in H. destruct H as (equations & w2 & Hcomp & H).
  apply bindM_ok in H. destruct H as (res & w3 & Hres & H).
  unfold ret in H. inversion H; subst res w3. clear H.
  unfold read_csv in Hread.
  destruct (files w (eq_path self tmp_path)) as [t|] eqn:Hf; [|discriminate].
  inversion Hread; subst t w1. clear Hread.
  unfold lift in Hcomp, Hres. inversion Hcomp as [[Hc Hw]]. inversion Hres as [[Hr Hw']].
  exists table, equations. repeat split; congruence.
Qed.

(** The compiled list follows the table, record by record. *)
Lemma compile_all_complexities {Y : Library} self table equations :
  compile_all self table = Ok equations ->
  map snd equations = map Complexity table.
Proof.
  unfold compile_all. intros H. apply mapM_ok_Forall2 in H.
  induction H as [|record fc table equations Hfc _ IH]; [reflexivity|].
  simpl. rewrite IH. f_equal.
  destruct (create_function (Equation record) (self_param_names self)); [|discriminate].
  simpl in Hfc. now inversion Hfc.
Qed.

Lemma compiled_complexity {Y : Library} self table equations c :
  compile_all self table = Ok equations ->
  ((exists f, In (f, c) equations) <-> exists r, In r table /\ Complexity r = c).
Proof.
  intros H. apply compile_all_complexities in H. split.
  - intros [f Hin]. apply (in_map snd) in Hin. rewrite H in Hin. simpl in Hin.
    apply in_map_iff in Hin. destruct Hin as (r & Hc & Hr). eauto.
  - intros (r & Hr & Hc). apply (in_map Complexity) in Hr. rewrite <- H, Hc in Hr.
    apply in_map_iff in Hr. destruct Hr as ([f c'] & Hc' & Hin). simpl in Hc'. subst c'.
    eauto.
Qed.

End RowFacts.

(** ** The artifact, the hand-over and one run *)

Module OrderMore.

Import FloatOrder OrderFacts.

Lemma ltb_trans x y z : ltb x y = true -> ltb y z = true -> ltb x z = true.
Proof.
  rewrite !ltb_key. intros (Hx & Hy & H1) (_ & Hz & H2). repeat split; auto.
  unfold lt3 in *. destruct (key x) as [[a1 a2] a3], (key y) as [[b1 b2] b3],
    (key z) as [[c1 c2] c3]. lia.
Qed.

Lemma leb_ltb_trans x y z : leb x y = true -> ltb y z = true -> ltb x z = true.
Proof.
  rewrite leb_key, !ltb_key. intros (Hx & Hy & H1) (_ & Hz & H2). repeat split; auto.
  unfold lt3, le3 in *. destruct (key x) as [[a1 a2] a3], (key y) as [[b1 b2] b3],
    (key z) as [[c1 c2] c3]. lia.
Qed.

Lemma ltb_not_nan x y : ltb x y = true -> is_nan x = false /\ is_nan y = false.
Proof. rewrite ltb_key. tauto. Qed.

End OrderMore.

Module FindFacts.

Import OrderFacts OrderMore.

Section Max.

Context {A : Type}.
Variable key : A -> outcome float.

(** The item that [max] keeps is the first of those with the greatest
    key. *)
Lemma max_from_first_greatest items : forall pre best best_key post,
  key best = Done best_key -> is_nan best_key = false ->
  (forall x, In x items -> exists t, key x = Done t /\ is_nan t = false) ->
  (forall x t, In x pre -> key x = Done t -> ltb t best_key = true) ->
  (forall x t, In x post -> key x = Done t -> leb t best_key = true) ->
  exists pre' f post' t,
    pre ++ best :: post ++ items = pre' ++ f :: post' /\
    max_from key best best_key items = Done f /\
    key f = Done t /\
    (forall x t', In x pre' -> key x = Done t' -> ltb t' t = true) /\
    (forall x t', In x post' -> key x = Done t' -> leb t' t = true).
Proof.
  induction items as [|x rest IH]; intros pre best bk post Hb Hn Hitems Hpre Hpost.
  - exists pre, best, post, bk. rewrite app_nil_r. repeat split; auto.
  - destruct (Hitems x (or_introl eq_refl)) as (k & Hk & Hkn).
    assert (Hrest : forall y, In y rest -> exists t, key y = Done t /\ is_nan t = false).
    { intros y Hy. apply Hitems. now right. }
    simpl. rewrite Hk. simpl. destruct (ltb bk k) eqn:Hlt.
    + destruct (IH (pre ++ best :: post) x k [] Hk Hkn Hrest) as (pre' & f & post' & t & E & H).
      * intros y t Hy Ht. apply in_app_or in Hy. destruct Hy as [Hy|[->|Hy]].
        -- eapply ltb_trans; [eapply Hpre; eauto | exact Hlt].
        -- rewrite Hb in Ht. inversion Ht; subst. exact Hlt.
        -- eapply leb_ltb_trans; [eapply Hpost; eauto | exact Hlt].
      * intros y t [].
      * exists pre', f, post', t. split; [|exact H].
        rewrite <- E. simpl. rewrite <- app_assoc. reflexivity.
    + destruct (IH pre best bk (post ++ [x]) Hb Hn Hrest Hpre) as (pre' & f & post' & t & E & H).
      * intros y t Hy Ht. apply in_app_or in Hy. destruct Hy as [Hy|[->|[]]].
        -- eapply Hpost; eauto.
        -- rewrite Hk in Ht. inversion Ht; subst. now apply not_ltb_leb.
      * exists pre', f, post', t. split; [|exact H].
        rewrite <- E. rewrite <- app_assoc. reflexivity.
Qed.

(** [max] raises the error of the first key that cannot be computed. *)
Lemma max_from_first_error items : forall best best_key pre x post e,
  items = pre ++ x :: post ->
  (forall y, In y pre -> exists t, key y = Done t) ->
  key x = Failed e ->
  max_from key best best_key items = Failed e.
Proof.
  induction items as [|y rest IH]; intros best bk pre x post e E Hpre Hx.
  - destruct pre; discriminate.
  - destruct pre as [|p pre]; simpl in E; inversion E; subst.
    + simpl. now rewrite Hx.
    + simpl. destruct (Hpre p (or_introl eq_refl)) as [t ->]. simpl.
      destruct (ltb bk t); eapply IH; eauto; intros z Hz; apply Hpre; now right.
Qed.

Lemma max_from_not_none items : forall best best_key,
  (exists f, max_from key best best_key items = Done f) \/
  (exists e, max_from key best best_key items = Failed e).
Proof.
  intros best bk. destruct (max_from key best bk items); eauto.
Qed.

End Max.

End FindFacts.

Module PathFacts.

Import CompileFacts.

Lemma endswith_sep_app a c :
  endswith_sep (String.append a (String c EmptyString)) = Ascii.eqb c "/".
Proof.
  induction a as [|x a IH]; [reflexivity|].
  simpl. rewrite IH. destruct (String.append a (String c EmptyString)) eqn:E; [|reflexivity].
  destruct a; discriminate.
Qed.

End PathFacts.

Module RunFacts.

Import PyFacts SplitFacts TableFacts.

(** [prepare_data] and [test_equations] leave the world as it is. *)
Lemma split_df_world {R : NumpyRandom} df f seed w : snd (split_df df f seed w) = w.
Proof.
  unfold split_df, bindM, sample, lift, ret.
  destruct (seed_generator seed) as [rs|e]; [|reflexivity]. cbn [bind].
  destruct (take df _) as [sampled|e]; [|reflexivity].
  destruct (to_int _); reflexivity.
Qed.

Lemma prepare_data_world {R : NumpyRandom} self f seed w :
  snd (prepare_data self f seed w) = w.
Proof.
  unfold prepare_data, bindM.
  pose proof (split_df_world (self_df self) f seed w) as Hs.
  destruct (split_df (self_df self) f seed w) as [[[tr te]|e] w1]; simpl in Hs; subst w1;
    [|reflexivity].
  unfold lift, ret.
  destruct (mapM _ (self_param_names self)) as [mins|e]; [|reflexivity].
  destruct (mapM _ (self_param_names self)) as [maxs|e]; reflexivity.
Qed.

Lemma test_equations_world {R : NumpyRandom} {L : Libm} {S : Sorting} {Y : Library}
  self test_df tmp w :
  snd (test_equations self test_df tmp w) = w.
Proof.
  unfold test_equations, bindM, read_csv, lift, ret.
  destruct (files w (eq_path self tmp)) as [table|]; [|reflexivity].
  destruct (compile_all self table) as [equations|e]; [|reflexivity].
  destruct (mapM _ _); reflexivity.
Qed.

(** A processor whose parameter names are columns is prepared for every
    fraction strictly between 0 and 1. *)
Lemma prepare_data_total {R : NumpyRandom} self f seed w :
  permutes R -> well_formed (self_df self) ->
  (forall p, In p (self_param_names self) -> In p (columns (self_df self))) ->
  Z.of_nat (len (self_df self)) < 2 ^ 53 ->
  valid f = true -> ltb zero f = true -> ltb f one = true ->
  0 <= seed < 2 ^ 32 ->
  exists k mins maxs,
    0 <= k <= Z.of_nat (len (self_df self)) /\
    List.length mins = List.length (self_param_names self) /\
    List.length maxs = List.length (self_param_names self) /\
    prepare_data self f seed w =
      (Ok (iloc_to k (shuffled (self_df self) seed),
           iloc_from k (shuffled (self_df self) seed),
           {| names := self_param_names self; minimums := mins; maximums := maxs |}), w).
Proof.
  intros HR Hwf Hcols Hn Hv H0 H1 Hseed.
  destruct (Float64Facts.split_index_fraction f (Z.of_nat (len (self_df self))) Hv H0 H1
              ltac:(lia)) as (k & Hk & Hb).
  assert (Hmin : exists mins,
            mapM (fun param => col <- get_column (self_df self) param ;; Ok (series_min col))
                 (self_param_names self) = Ok mins).
  { apply mapM_all_ok. intros p Hp.
    destruct (BoundsFacts.get_column_ok _ p Hwf (Hcols p Hp)) as [col ->]. simpl. eauto. }
  assert (Hmax : exists maxs,
            mapM (fun param => col <- get_column (self_df self) param ;; Ok (series_max col))
                 (self_param_names self) = Ok maxs).
  { apply mapM_all_ok. intros p Hp.
    destruct (BoundsFacts.get_column_ok _ p Hwf (Hcols p Hp)) as [col ->]. simpl. eauto. }
  destruct Hmin as [mins Hmin], Hmax as [maxs Hmax].
  exists k, mins, maxs. split; [exact Hb|].
  split; [now apply mapM_ok_length in Hmin|]. split; [now apply mapM_ok_length in Hmax|].
  unfold prepare_data, bindM, lift, ret.
  rewrite (split_df_unfold (self_df self) f seed w HR Hseed), Hk, Hmin, Hmax. reflexivity.
Qed.

Lemma init_ok param_names df target folder self :
  __init__ param_names df target folder = Ok self ->
  self = {| self_df := df; self_target := target; self_folder_save_name := folder;
            self_param_names := param_names |} /\
  forall p, In p param_names -> In p (columns df).
Proof.
  unfold __init__. intros H.
  destruct (filter (fun p => negb (has_column df p)) param_names) eqn:Hmiss; [|discriminate].
  inversion H. split; [reflexivity|].
  exact (proj1 (ProcessorFacts.missing_nil df param_names) Hmiss).
Qed.

End RunFacts.

Module SplitOnFacts.

Import CompileFacts.

Lemma split_on_nonempty sep s : split_on sep s <> [].
Proof.
  destruct s as [|c r]; simpl; [discriminate|].
  destruct (Ascii.eqb c sep); [discriminate|]. destruct (split_on sep r); discriminate.
Qed.

Lemma split_on_word sep s : ~ In sep (chars s) -> split_on sep s = [s].
Proof.
  induction s as [|c r IH]; intros H; [reflexivity|]. simpl.
  destruct (Ascii.eqb_spec c sep) as [->|Hne]; [exfalso; apply H; now left|].
  rewrite IH; [reflexivity|]. intros Hin. apply H. now right.
Qed.

Lemma split_on_app sep a b :
  ~ In sep (chars a) ->
  split_on sep (String.append a (String sep b)) = a :: split_on sep b.
Proof.
  induction a as [|c r IH]; intros H; simpl.
  - now rewrite Ascii.eqb_refl.
  - destruct (Ascii.eqb_spec c sep) as [->|Hne]; [exfalso; apply H; now left|].
    rewrite IH; [reflexivity|]. intros Hin. apply H. now right.
Qed.

Lemma split_on_concat sep words :
  words <> [] -> (forall n, In n words -> ~ In sep (chars n)) ->
  split_on sep (String.concat (String sep EmptyString) words) = words.
Proof.
  induction words as [|n rest IH]; intros Hne Hall; [contradiction|].
  destruct rest as [|n2 rest].
  - simpl. apply split_on_word. apply Hall. now left.
  - change (String.concat (String sep EmptyString) (n :: n2 :: rest))
      with (String.append n (String.append (String sep EmptyString)
                                           (String.concat (String sep EmptyString) (n2 :: rest)))).
    cbn [String.append]. rewrite split_on_app by (apply Hall; now left).
    rewrite IH; [reflexivity | discriminate|].
    intros m Hm. apply Hall. now right.
Qed.

Lemma concat_split_on sep s : String.concat (String sep EmptyString) (split_on sep s) = s.
Proof.
  induction s as [|c r IH]; [reflexivity|]. simpl.
  pose proof (split_on_nonempty sep r) as Hne.
  destruct (Ascii.eqb_spec c sep) as [->|Hc].
  - destruct (split_on sep r) as [|w ws]; [contradiction|].
    change (String.concat (String sep EmptyString) (EmptyString :: w :: ws))
      with (String.append EmptyString (String.append (String sep EmptyString)
                                            (String.concat (String sep EmptyString) (w :: ws)))).
    rewrite IH. reflexivity.
  - destruct (split_on sep r) as [|w ws]; [contradiction|].
    destruct ws as [|w2 ws].
    + simpl in *. now rewrite IH.
    + change (String.concat (String sep EmptyString) (String c w :: w2 :: ws))
        with (String c (String.append w (String.append (String sep EmptyString)
                                            (String.concat (String sep EmptyString) (w2 :: ws))))).
      f_equal. exact IH.
Qed.

Lemma split_on_words sep s : forall n, In n (split_on sep s) -> ~ In sep (chars n).
Proof.
  induction s as [|c r IH]; intros n Hn; simpl in Hn.
  - destruct Hn as [<-|[]]. intros [].
  - destruct (Ascii.eqb_spec c sep) as [->|Hc].
    + destruct Hn as [<-|Hn]; [intros []|now apply IH].
    + destruct (split_on sep r) as [|w ws].
      * destruct Hn as [<-|[]]. intros [H|[]]. now apply Hc.
      * destruct Hn as [<-|Hn].
        -- intros [H|H]; [now apply Hc|]. apply (IH w); [now left | exact H].
        -- apply IH. now right.
Qed.

End SplitOnFacts.

Module HandoverFacts.

Import PyFacts TableFacts.

(** The cells that [df[names]] keeps of a row are the values that the row
    has under the names. *)
Lemma select_row df r : forall ns locs cs,
  mapM (fun name => match column_index name (columns df) with
                    | Some i => Ok i
                    | None => Raise (KeyError name)
                    end) ns = Ok locs ->
  mapM (fun i => match nth_error (cells r) i with
                 | Some v => Ok v
                 | None => Raise IndexError
                 end) locs = Ok cs ->
  mapM (row_get df r) ns = Ok cs.
Proof.
  induction ns as [|n ns IH]; intros locs cs Hl Hc; simpl in Hl.
  - inversion Hl; subst. simpl in Hc. now inversion Hc.
  - destruct (column_index n (columns df)) as [i|] eqn:Hi; [|discriminate]. simpl in Hl.
    destruct (mapM _ ns) as [locs'|] eqn:Hl'; [|discriminate].
    simpl in Hl. inversion Hl; subst locs. clear Hl. simpl in Hc.
    destruct (nth_error (cells r) i) as [v|] eqn:Hv; [|discriminate]. simpl in Hc.
    destruct (mapM _ locs') as [cs'|] eqn:Hc'; [|discriminate].
    simpl in Hc. inversion Hc; subst cs. clear Hc.
    simpl. unfold row_get at 1. rewrite Hi, Hv. simpl.
    now rewrite (IH locs' cs' eq_refl Hc').
Qed.

Lemma select_columns_ok df names :
  well_formed df -> (forall p, In p names -> In p (columns df)) ->
  exists data, select_columns df names = Ok data.
Proof.
  intros Hwf Hnames. unfold select_columns.
  destruct (mapM_all_ok (fun name => match column_index name (columns df) with
                                     | Some i => Ok i
                                     | None => Raise (KeyError name)
                                     end) names) as [locs Hlocs].
  { intros p Hp. destruct (BoundsFacts.column_index_Some p _ (Hnames p Hp)) as (i & -> & _).
    eauto. }
  rewrite Hlocs. simpl.
  assert (Hin : forall i, In i locs -> (i < List.length (columns df))%nat).
  { apply mapM_ok_Forall2 in Hlocs. intros i Hi.
    destruct (ListFacts.Forall2_In_r _ _ _ i Hlocs Hi) as (p & Hp & Hpi).
    destruct (BoundsFacts.column_index_Some p _ (Hnames p Hp)) as (j & Hj & Hlt).
    rewrite Hj in Hpi. inversion Hpi. now subst. }
  destruct (mapM_all_ok (fun r =>
              cs <- mapM (fun i => match nth_error (cells r) i with
                                   | Some v => Ok v
                                   | None => Raise IndexError
                                   end) locs ;;
              Ok {| label := label r; cells := cs |}) (rows df)) as [rs Hrs].
  { intros r Hr.
    destruct (mapM_all_ok (fun i => match nth_error (cells r) i with
                                    | Some v => Ok v
                                    | None => Raise IndexError
                                    end) locs) as [cs Hcs].
    { intros i Hi. destruct (nth_error (cells r) i) eqn:E; [eauto|].
      apply nth_error_None in E. unfold well_formed in Hwf. rewrite Forall_forall in Hwf.
      specialize (Hwf r Hr). specialize (Hin i Hi). lia. }
    rewrite Hcs. simpl. eauto. }
  rewrite Hrs. simpl. eauto.
Qed.

Lemma select_columns_rows df names data :
  select_columns df names = Ok data ->
  columns data = names /\
  Forall2 (fun r d => label d = label r /\ mapM (row_get df r) names = Ok (cells d))
          (rows df) (rows data).
Proof.
  unfold select_columns. intros H.
  destruct (mapM _ names) as [locs|] eqn:Hlocs; [|discriminate]. simpl in H.
  destruct (mapM _ (rows df)) as [rs|] eqn:Hrs; [|discriminate]. simpl in H.
  inversion H; subst data. clear H. split; [reflexivity|]. cbn [rows].
  apply mapM_ok_Forall2 in Hrs. eapply Forall2_impl; [|exact Hrs].
  intros r d Hd. simpl in Hd.
  destruct (mapM _ locs) as [cs|] eqn:Hcs; [|discriminate]. simpl in Hd.
  inversion Hd; subst d. split; [reflexivity|]. cbn [cells].
  eapply select_row; eauto.
Qed.

Lemma get_column_rows df p col :
  get_column df p = Ok col -> Forall2 (fun r t => row_get df r p = Ok t) (rows df) col.
Proof.
  unfold get_column, row_get.
  destruct (column_index p (columns df)) as [i|]; [|discriminate].
  intros H. apply mapM_ok_Forall2 in H. exact H.
Qed.

End HandoverFacts.

Module DuplicateFacts.

Import PyFacts.

Lemma mapM_app {A B} (f : A -> result B) a : forall b l,
  mapM f (a ++ b) = Ok l ->
  exists la lb, l = la ++ lb /\ mapM f a = Ok la /\ mapM f b = Ok lb.
Proof.
  induction a as [|x a IH]; intros b l H; simpl in *.
  - exists [], l. auto.
  - destruct (f x) as [y|]; [|discriminate]. simpl in *.
    destruct (mapM f (a ++ b)) as [l'|] eqn:E; [|discriminate].
    simpl in H. inversion H; subst l. clear H.
    destruct (IH b l' E) as (la & lb & -> & Ha & Hb).
    exists (y :: la), lb. rewrite Ha. simpl. auto.
Qed.

Lemma compile_all_cons {Y : Library} self r rest eqs :
  compile_all self (r :: rest) = Ok eqs ->
  exists f eqs',
    create_function (Equation r) (self_param_names self) = Ok f /\
    eqs = (f, Complexity r) :: eqs' /\ compile_all self rest = Ok eqs'.
Proof.
  unfold compile_all. simpl. intros H.
  destruct (create_function (Equation r) (self_param_names self)) as [f|]; [|discriminate].
  simpl in H. destruct (mapM _ rest) as [eqs'|]; [|discriminate].
  simpl in H. inversion H. eauto.
Qed.

Lemma filter_none {A} (p : A -> bool) l : (forall x, In x l -> p x = false) -> filter p l = [].
Proof.
  induction l as [|x l IH]; intros H; simpl; [reflexivity|].
  rewrite (H x (or_introl eq_refl)). apply IH. intros y Hy. apply H. now right.
Qed.

End DuplicateFacts.

(** ** The bounds and the calls of the backend *)

Module FullFacts.

Import PyFacts ListFacts TableFacts.

(** Every value of a column is the cell of a row of the table. *)
Lemma get_column_cell df p col v :
  get_column df p = Ok col -> In v col ->
  exists r, In r (rows df) /\ row_get df r p = Ok v.
Proof.
  intros H Hv. apply HandoverFacts.get_column_rows in H.
  destruct (Forall2_In_r _ _ _ v H Hv) as (r & Hr & Hg). eauto.
Qed.

(** The column of a one-row table is the cell of the row. *)
Lemma get_column_single df p r v :
  rows df = [r] -> row_get df r p = Ok v -> get_column df p = Ok [v].
Proof.
  unfold get_column, row_get. intros ->.
  destruct (column_index p (columns df)) as [i|]; [|discriminate].
  simpl. destruct (nth_error (cells r) i) as [x|]; [|discriminate].
  intros H. inversion H. reflexivity.
Qed.

(** The parts of a split have the columns of the dataset, and each of
    their rows has the cells of a row of the dataset. *)
Lemma split_df_parts {R : NumpyRandom} df f seed w train test w' :
  split_df df f seed w = (Ok (train, test), w') ->
  columns train = columns df /\ columns test = columns df /\
  forall r, In r (rows train ++ rows test) ->
            exists r0, In r0 (rows df) /\ cells r = cells r0.
Proof.
  unfold split_df, bindM, sample, lift, ret. intros H.
  destruct (seed_generator seed) as [rs|e]; [|discriminate]. cbn [bind] in H.
  unfold take in H.
  destruct (mapM _ (fst (rng_permutation rs (len df)))) as [picked|e] eqn:Hpick;
    [|discriminate].
  cbn [bind] in H. destruct (to_int _) as [k|e]; [|discriminate].
  inversion H; subst train test w'. clear H.
  split; [reflexivity|]. split; [reflexivity|].
  intros r Hr. unfold iloc_to, iloc_from in Hr. cbn [rows] in Hr.
  rewrite slice_app in Hr. unfold reset_index in Hr. cbn [rows] in Hr.
  apply in_map_iff in Hr. destruct Hr as ([i r1] & <- & Hin).
  apply in_combine_r in Hin. cbn [cells snd].
  apply mapM_ok_Forall2 in Hpick.
  destruct (Forall2_In_r _ _ _ r1 Hpick Hin) as (j & _ & Hj).
  destruct (nth_error (rows df) j) as [r0|] eqn:E; [|discriminate].
  inversion Hj; subst r1. exists r0. split; [|reflexivity].
  eapply nth_error_In; eauto.
Qed.

Lemma part_well_formed df part :
  well_formed df -> columns part = columns df ->
  (forall r, In r (rows part) -> exists r0, In r0 (rows df) /\ cells r = cells r0) ->
  well_formed part.
Proof.
  unfold well_formed. rewrite !Forall_forall. intros Hwf Hc Hrows r Hr.
  destruct (Hrows r Hr) as (r0 & Hr0 & ->). rewrite Hc. now apply Hwf.
Qed.

(** The calls that a recording backend receives from [run_med_discovery]. *)
Lemma run_med_discovery_recorded {R : NumpyRandom} self train_df parameters
  data response (g : rng_state) (calls : list Samples.BackendCall) :
  select_columns train_df (names parameters) = Ok data ->
  get_column train_df (self_target self) = Ok response ->
  run_med_discovery (F := Samples.journal) (B := Samples.recorder) self train_df parameters
    (Samples.recording g calls)
  = (Done tt,
     Samples.recording g
       (calls ++
          [Samples.CreateParameters (names parameters) (minimums parameters)
             (maximums parameters);
           Samples.NewMED (names parameters, minimums parameters, maximums parameters)
             (self_target self) 200;
           Samples.Augment data response;
           Samples.Save (self_folder_save_name self);
           Samples.Discover ["+"; "-"; "*"; "/"; "^"]%string [("^"%string, (-1, 1))]
             ["exp"; "log"]%string])).
Proof.
  intros Hdata Hresp. unfold run_med_discovery, run_bind, run_lift.
  rewrite Hresp, Hdata. cbn. unfold Samples.note, Samples.recording. cbn.
  rewrite <- !app_assoc. reflexivity.
Qed.

End FullFacts.

(** C7. Whenever the split succeeds on a well-formed dataset whose columns
    include every parameter name (as the constructor checks),
    [prepare_data] returns the split together with one minimum and one
    maximum per parameter, in the order of the names, taken over the
    column of the full dataset [self.df]: every value (NaN apart) that a
    row of the dataset has under the parameter, whether the row went to the
    train part or to the test part, lies between the two bounds; each
    bound is the value of some row of the dataset; both are NaN when the
    column has no value; a dataset of one row gives the value of that row
    as both bounds.  The bounds do not depend on the fraction, the seed or
    the split.  [run_med_discovery], called with the train part and these
    parameters, passes them on unchanged: a backend that records its calls
    receives [create_parameters] with the names and these bounds, then the
    construction of the [MED] object from those parameters with the
    target name and the seed 200, the train rows restricted to the
    parameter columns together with the target column of the train rows,
    the folder, and the operators. *)
Theorem prepare_data_bounds_over_full_dataset (R : NumpyRandom) (self : MEDProcessor)
  (split_frac : float) (seed : Z) (w w' : World) (train test : DataFrame) :
  well_formed (self_df self) ->
  (forall p, In p (self_param_names self) -> In p (columns (self_df self))) ->
  split_df (self_df self) split_frac seed w = (Ok (train, test), w') ->
  exists params,
    prepare_data self split_frac seed w = (Ok (train, test, params), w') /\
    names params = self_param_names self /\
    List.length (minimums params) = List.length (self_param_names self) /\
    List.length (maximums params) = List.length (self_param_names self) /\
    (forall i p mn mx,
       nth_error (self_param_names self) i = Some p ->
       nth_error (minimums params) i = Some mn ->
       nth_error (maximums params) i = Some mx ->
       let cell (r : Row) (v : float) :=
         In r (rows (self_df self)) /\ row_get (self_df self) r p = Ok v in
       (forall r v, cell r v -> is_nan v = false -> leb mn v = true /\ leb v mx = true) /\
       ((exists r v, cell r v /\ is_nan v = false) ->
        (exists r, cell r mn) /\ (exists r, cell r mx) /\
        is_nan mn = false /\ is_nan mx = false) /\
       ((forall r v, cell r v -> is_nan v = true) ->
        is_nan mn = true /\ is_nan mx = true) /\
       (forall r v, rows (self_df self) = [r] -> row_get (self_df self) r p = Ok v ->
                    mn = v /\ mx = v)) /\
    (forall f2 seed2 w2 w2' train2 test2 params2,
       prepare_data self f2 seed2 w2 = (Ok (train2, test2, params2), w2') ->
       params2 = params) /\
    (In (self_target self) (columns (self_df self)) ->
     exists data response,
       select_columns train (self_param_names self) = Ok data /\
       get_column train (self_target self) = Ok response /\
       forall (g : rng_state) (calls : list Samples.BackendCall),
         run_med_discovery (F := Samples.journal) (B := Samples.recorder) self train params
           (Samples.recording g calls)
         = (Done tt,
            Samples.recording g
              (calls ++
                 [Samples.CreateParameters (self_param_names self) (minimums params)
                    (maximums params);
                  Samples.NewMED
                    (self_param_names self, minimums params, maximums params)
                    (self_target self) 200;
                  Samples.Augment data response;
                  Samples.Save (self_folder_save_name self);
                  Samples.Discover ["+"; "-"; "*"; "/"; "^"]%string
                    [("^"%string, (-1, 1))] ["exp"; "log"]%string]))).
Proof.
  intros Hwf Hcols Hsplit.
  assert (Hmin : exists mins,
            mapM (fun param => col <- get_column (self_df self) param ;; Ok (series_min col))
                 (self_param_names self) = Ok mins).
  { apply PyFacts.mapM_all_ok. intros p Hp.
    destruct (BoundsFacts.get_column_ok _ p Hwf (Hcols p Hp)) as [col ->]. simpl. eauto. }
  assert (Hmax : exists maxs,
            mapM (fun param => col <- get_column (self_df self) param ;; Ok (series_max col))
                 (self_param_names self) = Ok maxs).
  { apply PyFacts.mapM_all_ok. intros p Hp.
    destruct (BoundsFacts.get_column_ok _ p Hwf (Hcols p Hp)) as [col ->]. simpl. eauto. }
  destruct Hmin as [mins Hmin], Hmax as [maxs Hmax].
  exists {| names := self_param_names self; minimums := mins; maximums := maxs |}.
  cbn [names minimums maximums].
  split; [|split; [reflexivity|split; [|split; [|split; [|split]]]]].
  - unfold prepare_data, bindM, lift, ret. rewrite Hsplit, Hmin, Hmax. reflexivity.
  - now apply PyFacts.mapM_ok_length in Hmin.
  - now apply PyFacts.mapM_ok_length in Hmax.
  - intros i p mn mx Hp Hmn Hmx.
    set (cell := fun (r : Row) (v : float) =>
                   In r (rows (self_df self)) /\ row_get (self_df self) r p = Ok v).
    apply PyFacts.mapM_ok_Forall2 in Hmin, Hmax.
    pose proof (ListFacts.Forall2_nth_error _ _ _ _ _ _ Hmin Hp Hmn) as Hm1.
    pose proof (ListFacts.Forall2_nth_error _ _ _ _ _ _ Hmax Hp Hmx) as Hm2.
    simpl in Hm1, Hm2.
    destruct (get_column (self_df self) p) as [col|] eqn:Hcol; [|discriminate].
    simpl in Hm1, Hm2. inversion Hm1; inversion Hm2; subst mn mx.
    destruct (BoundsFacts.series_min_spec col) as (Hmin_lb & Hmin_in & Hmin_nan).
    destruct (BoundsFacts.series_max_spec col) as (Hmax_ub & Hmax_in & Hmax_nan).
    assert (Hcell : forall r v, cell r v -> In v col).
    { intros r v [Hr Hv]. eapply TableFacts.get_column_In; eauto. }
    split; [|split; [|split]].
    + intros r v Hc Hn. split; [apply Hmin_lb | apply Hmax_ub]; eauto.
    + intros (r & v & Hc & Hn).
      assert (Hex : exists v, In v col /\ is_nan v = false) by eauto.
      destruct (Hmin_in Hex) as [Hi1 Hn1]. destruct (Hmax_in Hex) as [Hi2 Hn2].
      split; [exact (FullFacts.get_column_cell _ _ _ _ Hcol Hi1)|].
      split; [exact (FullFacts.get_column_cell _ _ _ _ Hcol Hi2)|]. split; assumption.
    + intros Hall.
      assert (Hall' : forall v, In v col -> is_nan v = true).
      { intros v Hv. destruct (FullFacts.get_column_cell _ _ _ _ Hcol Hv) as (r & Hr & Hg).
        apply (Hall r v). split; assumption. }
      split; [now apply Hmin_nan | now apply Hmax_nan].
    + intros r v Hrows Hv.
      rewrite (FullFacts.get_column_single _ _ _ _ Hrows Hv) in Hcol.
      inversion Hcol. apply BoundsFacts.series_single.
  - intros f2 seed2 w2 w2' train2 test2 params2 H2.
    unfold prepare_data, bindM, lift, ret in H2.
    destruct (split_df (self_df self) f2 seed2 w2) as [[[tr te]|e] w3]; [|discriminate].
    rewrite Hmin, Hmax in H2. inversion H2. reflexivity.
  - intros Ht.
    destruct (FullFacts.split_df_parts _ _ _ _ _ _ _ Hsplit) as (Hc & _ & Hrows).
    assert (Hwft : well_formed train).
    { apply (FullFacts.part_well_formed (self_df self)); auto.
      intros r Hr. apply Hrows, in_or_app. now left. }
    destruct (HandoverFacts.select_columns_ok train (self_param_names self) Hwft)
      as [data Hdata].
    { intros p Hp. rewrite Hc. now apply Hcols. }
    destruct (BoundsFacts.get_column_ok train (self_target self) Hwft) as [response Hresp].
    { now rewrite Hc. }
    exists data, response. split; [exact Hdata|]. split; [exact Hresp|].
    intros g calls.
    exact (FullFacts.run_med_discovery_recorded self train
             {| names := self_param_names self; minimums := mins; maximums := maxs |}
             data response g calls Hdata Hresp).
Qed.

Lemma prepare_data_bounds_over_full_dataset_witness :
  exists train test,
    (well_formed (self_df (Examples.study "med_study")) /\
     (forall p, In p (self_param_names (Examples.study "med_study")) ->
                In p (columns (self_df (Examples.study "med_study")))) /\
     split_df (self_df (Examples.study "med_study")) Examples.seven_tenths 100
       Examples.world0 = (Ok (train, test), Examples.world0)) /\
    exists params,
      prepare_data (Examples.study "med_study") Examples.seven_tenths 100 Examples.world0
        = (Ok (train, test, params), Examples.world0) /\
      names params = self_param_names (Examples.study "med_study") /\
      List.length (minimums params)
        = List.length (self_param_names (Examples.study "med_study")) /\
      List.length (maximums params)
        = List.length (self_param_names (Examples.study "med_study")).
Proof.
  assert (Hwf : well_formed (self_df (Examples.study "med_study")))
    by apply line_well_formed.
  assert (Hcols : forall p, In p (self_param_names (Examples.study "med_study")) ->
                            In p (columns (self_df (Examples.study "med_study")))).
  { intros p [<-|[]]. now left. }
  eexists. eexists.
  assert (Hsplit : split_df (self_df (Examples.study "med_study")) Examples.seven_tenths 100
                     Examples.world0 = (Ok (_, _), Examples.world0))
    by (vm_compute; reflexivity).
  split; [split; [exact Hwf | split; [exact Hcols | exact Hsplit]]|].
  destruct (prepare_data_bounds_over_full_dataset Examples.reversing
              (Examples.study "med_study") Examples.seven_tenths 100
              Examples.world0 Examples.world0 _ _ Hwf Hcols Hsplit)
    as (params & Hp & Hn & Hl1 & Hl2 & _).
  exists params. split; [exact Hp|]. split; [exact Hn|]. split; [exact Hl1 | exact Hl2].
Defined.

(** On the ten-row line the bounds of [x] are [0] and [9], and the least
    value is the value of a test row: the train part has the values
    [9 .. 3], the test part the values [2 .. 0]. *)
Example line_bounds_reach_the_test_part :
  exists train test,
    prepare_data (Examples.study "med_study") Examples.seven_tenths 100 Examples.world0
    = (Ok (train, test,
           {| names := ["x"%string]; minimums := [of_Z 0]; maximums := [of_Z 9] |}),
       Examples.world0) /\
    get_column train "x" = Ok (map of_Z [9; 8; 7; 6; 5; 4; 3]) /\
    get_column test "x" = Ok (map of_Z [2; 1; 0]).
Proof.
  do 2 eexists. split; [vm_compute; reflexivity|]. split; vm_compute; reflexivity.
Qed.

(** A column with the two zeros, which compare equal: both bounds are the
    later one. *)
Example bounds_of_the_two_zeros :
  series_min [S754_zero false; S754_zero true] = S754_zero true /\
  series_max [S754_zero false; S754_zero true] = S754_zero true.
Proof. split; reflexivity. Qed.

(** ** Further properties of the relative error *)

(** The relative error is well defined on every finite target value: the
    denominator [|actual| + 1e-8] is a positive number (or [+inf]), never
    zero, so no division by zero occurs; and a prediction that equals the
    target exactly scores exactly [0]. *)
Theorem relative_error_of_exact_prediction (actual : float) :
  valid actual = true -> is_finite actual = true ->
  Sign.positive (add (abs actual) eps) /\
  relative_error actual actual = zero.
Proof.
  intros Hv Hf. split.
  - apply ErrorFacts.denominator_positive; [exact Hv|].
    destruct actual; auto; discriminate.
  - now apply ErrorFacts.relative_error_same.
Qed.

(** Every error that [test_equations] records is NaN or non-negative: for
    each record of the equation table, every result row has an entry in
    the column of the record's complexity, and that entry is a [float64]
    that is never a negative number, or, when the prediction was not a
    number but an object (an expression in a free symbol), an object. *)
Theorem test_equations_errors_never_negative (R : NumpyRandom) (L : Libm) (S : Sorting)
  (Y : Library) (self : MEDProcessor) (test_df : DataFrame) (tmp_path : option string)
  (w w' : World) (results : list (dict Value)) (table : list EquationRecord) :
  test_equations self test_df tmp_path w = (Ok results, w') ->
  files w (eq_path self tmp_path) = Some table ->
  forall record result_row,
    In record table -> In result_row results ->
    exists v,
      dict_get (err_column (Complexity record) (self_target self)) result_row = Some v /\
      ((exists x, v = NpFloat x /\ (is_nan x = true \/ leb zero x = true)) \/
       (exists o, v = PyObject o)).
Proof.
  intros H Hfile record result_row Hrec Hrow.
  destruct (RowFacts.test_equations_ok self test_df tmp_path w w' results H)
    as (table' & equations & Hfile' & Hcomp & Hres & _).
  assert (table' = table) by congruence. subst table'.
  destruct (proj2 (RowFacts.compiled_complexity self table equations (Complexity record) Hcomp))
    as [f Hf]; [eauto|].
  apply PyFacts.mapM_ok_Forall2 in Hres.
  destruct (ListFacts.Forall2_In_r _ _ _ result_row Hres Hrow) as (test_row & _ & Hscore).
  destruct (RowFacts.score_row_entry self _ test_row equations result_row f _ Hscore Hf)
    as (actual & pred & err & He & Hd).
  exists err. split; [exact Hd|].
  destruct (RowFacts.np_relative_error_outcome _ pred err actual
              (ScoreFacts.iterrows_value_number _ actual) He)
    as [(p & _ & ->)|(o & o' & _ & ->)]; [left | right; eauto].
  eexists. split; [reflexivity|].
  apply ErrorFacts.signed_nonnegative, ErrorFacts.relative_error_signed.
Qed.

(** ** Further properties of the split and of the bounds *)

(** The bounds that [prepare_data] returns cover both partitions: every
    value (NaN apart) of a parameter column in a train row or in a test row
    lies between the minimum and the maximum returned for that parameter. *)
Theorem prepare_data_bounds_cover_train_and_test (R : NumpyRandom) (self : MEDProcessor)
  (split_frac : float) (seed : Z) (w w' : World) (train test : DataFrame)
  (params : Parameters) :
  permutes R ->
  prepare_data self split_frac seed w = (Ok (train, test, params), w') ->
  forall i p mn mx part r v,
    nth_error (names params) i = Some p ->
    nth_error (minimums params) i = Some mn ->
    nth_error (maximums params) i = Some mx ->
    part = train \/ part = test ->
    In r (rows part) -> row_get part r p = Ok v -> is_nan v = false ->
    leb mn v = true /\ leb v mx = true.
Proof.
  intros HR H i p mn mx part r v Hp Hmn Hmx Hpart Hr Hv Hnan.
  unfold prepare_data in H.
  apply ScoreFacts.bindM_ok in H. destruct H as ([tr te] & w1 & Hsplit & H).
  apply ScoreFacts.bindM_ok in H. destruct H as (mins & w2 & Hmins & H).
  apply ScoreFacts.bindM_ok in H. destruct H as (maxs & w3 & Hmaxs & H).
  unfold ret in H. inversion H; subst train test params w'. clear H.
  unfold lift in Hmins, Hmaxs. inversion Hmins as [[Hmin Hw2]]. inversion Hmaxs as [[Hmax Hw3]].
  cbn [names minimums maximums] in Hp, Hmn, Hmx.
  destruct (PartFacts.split_df_ok (self_df self) seed HR _ _ _ _ _ Hsplit)
    as (k & _ & -> & -> & _).
  assert (Hrow : exists r0, In r0 (rows (self_df self)) /\ row_get (self_df self) r0 p = Ok v).
  { destruct (PartFacts.part_row_original (self_df self) seed HR k r) as (r0 & Hr0 & Hc).
    - apply in_or_app. destruct Hpart as [->| ->]; [now left | now right].
    - exists r0. split; [exact Hr0|]. rewrite <- Hv. symmetry.
      apply TableFacts.row_get_cells; [|exact Hc].
      destruct Hpart as [->| ->]; unfold iloc_to, iloc_from, shuffled, reset_index; reflexivity. }
  destruct Hrow as (r0 & Hr0 & Hv0).
  apply PyFacts.mapM_ok_Forall2 in Hmin, Hmax. split.
  - pose proof (ListFacts.Forall2_nth_error _ _ _ _ _ _ Hmin Hp Hmn) as Hm. simpl in Hm.
    destruct (get_column (self_df self) p) as [col|] eqn:Hcol; [|discriminate].
    simpl in Hm. inversion Hm; subst mn.
    apply (BoundsFacts.series_min_spec col); [|exact Hnan].
    eapply TableFacts.get_column_In; eauto.
  - pose proof (ListFacts.Forall2_nth_error _ _ _ _ _ _ Hmax Hp Hmx) as Hm. simpl in Hm.
    destruct (get_column (self_df self) p) as [col|] eqn:Hcol; [|discriminate].
    simpl in Hm. inversion Hm; subst mx.
    apply (BoundsFacts.series_max_spec col); [|exact Hnan].
    eapply TableFacts.get_column_In; eauto.
Qed.

(** Splits of one dataset with one seed are nested: whatever the
    fractions, train followed by test is the same sequence of rows (the
    shuffled table, labelled [0 .. n-1], so the labels of the test set start
    at the size of the train set), and the train set of the smaller split
    is the beginning of the train set of the larger one. *)
Theorem split_df_same_seed_nested (R : NumpyRandom) (df : DataFrame) (f1 f2 : float)
  (seed : Z) (w1 w1' w2 w2' : World) (train1 test1 train2 test2 : DataFrame) :
  permutes R ->
  split_df df f1 seed w1 = (Ok (train1, test1), w1') ->
  split_df df f2 seed w2 = (Ok (train2, test2), w2') ->
  rows train1 ++ rows test1 = rows train2 ++ rows test2 /\
  map label (rows train1 ++ rows test1) = seq 0 (len df) /\
  ((len train1 <= len train2)%nat ->
   rows train1 = firstn (len train1) (rows train2) /\
   rows test2 = skipn (len train2 - len train1) (rows test1)).
Proof.
  intros HR H1 H2.
  destruct (PartFacts.split_df_ok df seed HR _ _ _ _ _ H1) as (k1 & _ & -> & -> & _).
  destruct (PartFacts.split_df_ok df seed HR _ _ _ _ _ H2) as (k2 & _ & -> & -> & _).
  unfold iloc_to, iloc_from. cbn [rows].
  rewrite !PyFacts.slice_app. split; [reflexivity|]. split.
  - rewrite <- (SplitFacts.shuffled_len df seed HR). unfold shuffled.
    rewrite SplitFacts.reset_index_len. apply SplitFacts.reset_index_labels.
  - unfold len. cbn [rows]. unfold slice_to, slice_from.
    set (l := rows (shuffled df seed)).
    set (j1 := slice_bound k1 (List.length l)). set (j2 := slice_bound k2 (List.length l)).
    assert (Hj1 : (j1 <= List.length l)%nat) by apply PyFacts.slice_bound_le.
    assert (Hj2 : (j2 <= List.length l)%nat) by apply PyFacts.slice_bound_le.
    rewrite !length_firstn, !Nat.min_l by lia. intros Hle. split.
    + rewrite firstn_firstn. now rewrite Nat.min_l by lia.
    + rewrite skipn_skipn. f_equal. lia.
Qed.

(** A processor that the constructor accepted never fails in
    [prepare_data] for a fraction strictly between 0 and 1 and a seed that
    numpy takes ([0 .. 2**32 - 1]): the validation of the parameter names
    is what the column look-ups rely on.  The world
    is left as it was, the two parts share the rows of the dataset, and
    there is one minimum and one maximum per parameter. *)
Theorem validated_processor_prepares_data (R : NumpyRandom) (param_names : list string)
  (df : DataFrame) (target folder_save_name : string) (self : MEDProcessor)
  (split_frac : float) (seed : Z) (w : World) :
  permutes R -> well_formed df -> Z.of_nat (len df) < 2 ^ 53 ->
  valid split_frac = true -> ltb zero split_frac = true -> ltb split_frac one = true ->
  0 <= seed < 2 ^ 32 ->
  __init__ param_names df target folder_save_name = Ok self ->
  exists train test params,
    prepare_data self split_frac seed w = (Ok (train, test, params), w) /\
    (len train + len test = len df)%nat /\
    names params = param_names /\
    List.length (minimums params) = List.length param_names /\
    List.length (maximums params) = List.length param_names.
Proof.
  intros HR Hwf Hn Hv H0 H1 Hseed Hinit. unfold __init__ in Hinit.
  destruct (filter (fun p => negb (has_column df p)) param_names) eqn:Hmiss; [|discriminate].
  inversion Hinit; subst self. clear Hinit.
  pose proof (proj1 (ProcessorFacts.missing_nil df param_names) Hmiss) as Hcols.
  destruct (Float64Facts.split_index_fraction split_frac (Z.of_nat (len df)) Hv H0 H1
              ltac:(lia)) as (k & Hk & Hb).
  assert (Hmin : exists mins,
            mapM (fun param => col <- get_column df param ;; Ok (series_min col))
                 param_names = Ok mins).
  { apply PyFacts.mapM_all_ok. intros p Hp.
    destruct (BoundsFacts.get_column_ok _ p Hwf (Hcols p Hp)) as [col ->]. simpl. eauto. }
  assert (Hmax : exists maxs,
            mapM (fun param => col <- get_column df param ;; Ok (series_max col))
                 param_names = Ok maxs).
  { apply PyFacts.mapM_all_ok. intros p Hp.
    destruct (BoundsFacts.get_column_ok _ p Hwf (Hcols p Hp)) as [col ->]. simpl. eauto. }
  destruct Hmin as [mins Hmin], Hmax as [maxs Hmax].
  exists (iloc_to k (shuffled df seed)), (iloc_from k (shuffled df seed)),
    {| names := param_names; minimums := mins; maximums := maxs |}.
  split; [|split; [|split; [reflexivity|split]]].
  - unfold prepare_data, bindM, lift, ret. cbn [self_df self_param_names].
    rewrite (SplitFacts.split_df_unfold df split_frac seed w HR Hseed), Hk, Hmin, Hmax.
    reflexivity.
  - pose proof (SplitFacts.split_parts df seed k HR) as P. cbv zeta in P.
    destruct P as (Ht & Hte & _). rewrite Ht, Hte.
    pose proof (PyFacts.slice_bound_le k (len df)). lia.
  - cbn [minimums]. now apply PyFacts.mapM_ok_length in Hmin.
  - cbn [maximums]. now apply PyFacts.mapM_ok_length in Hmax.
Qed.

(** ** Failures of the evaluation pass *)

(** The table is read at [tmp_path], or at the default place when
    [tmp_path] is [None] or the empty string.  When there is no file at
    that path, [test_equations] and [get_complexity_equation] raise
    [FileNotFoundError] for it, whatever their other arguments, and leave
    the world as it was. *)
Theorem missing_equation_table_raises (R : NumpyRandom) (L : Libm) (S : Sorting)
  (Y : Library) (self : MEDProcessor) (test_df : DataFrame) (complexity : Z)
  (tmp_path : option string) (w : World) :
  let default := String.append (self_folder_save_name self) "/hall_of_fame.csv" in
  let path := match tmp_path with
              | Some (String c s) => String c s
              | _ => default
              end in
  files w path = None ->
  test_equations self test_df tmp_path w = (Raise (FileNotFoundError path), w) /\
  get_complexity_equation self complexity tmp_path w = (Raise (FileNotFoundError path), w).
Proof.
  intros default path Hfile.
  assert (Hpath : eq_path self tmp_path = path).
  { unfold eq_path, path, default. destruct tmp_path as [[|c s]|]; reflexivity. }
  unfold test_equations, get_complexity_equation, bindM, read_csv.
  rewrite Hpath, Hfile. split; reflexivity.
Qed.

(** One equation that does not compile makes [test_equations] fail as a
    whole: the error of the first such record of the table is raised before
    any row is scored, whatever the test table is (an empty one too).
    [get_complexity_equation] reads the same table without compiling it and
    still answers. *)
Theorem test_equations_malformed_equation_aborts (R : NumpyRandom) (L : Libm) (S : Sorting)
  (Y : Library) (self : MEDProcessor) (test_df : DataFrame) (tmp_path : option string) (w : World)
  (pre post : list EquationRecord) (record : EquationRecord) (e : exn) :
  files w (eq_path self tmp_path) = Some (pre ++ record :: post) ->
  (forall r, In r pre ->
     is_ok (create_function (Equation r) (self_param_names self)) = true) ->
  create_function (Equation record) (self_param_names self) = Raise e ->
  test_equations self test_df tmp_path w = (Raise e, w) /\
  (forall complexity, exists answer,
     get_complexity_equation self complexity tmp_path w = (Ok answer, w)).
Proof.
  intros Hfile Hpre Hrec. split.
  - unfold test_equations, bindM, read_csv, lift. rewrite Hfile.
    unfold compile_all.
    rewrite (ListFacts.mapM_first_failure _ pre record post e); [reflexivity| |].
    + intros r Hr. specialize (Hpre r Hr).
      destruct (create_function (Equation r) (self_param_names self)); [reflexivity|discriminate].
    + now rewrite Hrec.
  - intros complexity. unfold get_complexity_equation, bindM, read_csv, ret.
    rewrite Hfile. eauto.
Qed.

(** On an empty test table (with the parameter columns) [test_equations]
    returns an empty result when every equation of the table compiles, and
    otherwise the compilation error: an equation that would fail at
    evaluation goes unnoticed. *)
Theorem test_equations_on_empty_test_set (R : NumpyRandom) (L : Libm) (S : Sorting)
  (Y : Library) (self : MEDProcessor) (test_df : DataFrame) (tmp_path : option string) (w : World)
  (table : list EquationRecord) :
  sorts S -> rows test_df = [] ->
  (forall p, In p (self_param_names self) -> In p (columns test_df)) ->
  files w (eq_path self tmp_path) = Some table -> table <> [] ->
  test_equations self test_df tmp_path w =
    (match compile_all self table with
     | Ok _ => Ok []
     | Raise e => Raise e
     end, w).
Proof.
  intros HS Hrows _ Hfile _. unfold test_equations, bindM, read_csv, lift, ret.
  rewrite Hfile. destruct (compile_all self table) as [equations|e]; [|reflexivity].
  destruct (HS (self_param_names self) test_df) as [_ Hperm].
  rewrite Hrows in Hperm. apply Permutation_sym, Permutation_nil in Hperm.
  rewrite Hperm. reflexivity.
Qed.


(** The constructor does not check the target name.  A processor built
    with a target that is not a column is accepted, and [test_equations]
    then raises [KeyError] for the target at the first test row, before any
    equation is evaluated. *)
Theorem unvalidated_target_raises_key_error (R : NumpyRandom) (L : Libm) (S : Sorting)
  (Y : Library) (param_names : list string) (df test_df : DataFrame) (target folder_save_name : string)
  (tmp_path : option string) (w : World) (table : list EquationRecord)
  (equations : list (Lambda * Z)) :
  let self := {| self_df := df; self_target := target;
                 self_folder_save_name := folder_save_name;
                 self_param_names := param_names |} in
  sorts S -> well_formed test_df -> columns test_df = columns df ->
  (forall p, In p param_names -> In p (columns df)) ->
  ~ In target (columns df) ->
  rows test_df <> [] ->
  files w (eq_path self tmp_path) = Some table -> table <> [] ->
  compile_all self table = Ok equations ->
  __init__ param_names df target folder_save_name = Ok self /\
  test_equations self test_df tmp_path w = (Raise (KeyError target), w).
Proof.
  intros self HS Hwf Hsame Hps Ht Hrows Hfile _ Hcomp. split.
  - unfold __init__.
    rewrite (proj2 (ProcessorFacts.missing_nil df param_names) Hps). reflexivity.
  - unfold test_equations, bindM, read_csv, lift, ret. rewrite Hfile, Hcomp.
    cbn [self_param_names self].
    set (sorted := sort_values param_names test_df).
    destruct (HS param_names test_df) as [Hcols Hperm]. fold sorted in Hcols, Hperm.
    destruct (rows sorted) as [|r rest] eqn:Hsorted.
    { apply Permutation_nil in Hperm. contradiction. }
    assert (Hlen : List.length (cells r) = List.length (columns sorted)).
    { rewrite Hcols. unfold well_formed in Hwf. rewrite Forall_forall in Hwf.
      apply Hwf. eapply Permutation_in; [exact Hperm | now left]. }
    assert (Hrow : score_row self sorted equations r = Raise (KeyError target)).
    { unfold score_row. cbn [self_param_names self_target self].
      destruct (PassFacts.param_entries_ok sorted r param_names []) as [d0 ->].
      { intros p Hp. apply PassFacts.row_get_ok; [exact Hlen|].
        rewrite Hcols, Hsame. now apply Hps. }
      simpl. rewrite (ScoreFacts.row_item_raise _ _ _ (KeyError target)); [reflexivity|].
      apply TableFacts.row_get_missing. now rewrite Hcols, Hsame. }
    simpl. rewrite Hrow. reflexivity.
Qed.

(** ** The result rows *)

(** Each result row carries the inputs of its test row: the target value
    under the target name, and the value of every parameter under its name
    (for a parameter whose name is not the name of an error column), as
    [iterrows] yields them. *)
Theorem test_equations_rows_carry_inputs (R : NumpyRandom) (L : Libm) (S : Sorting)
  (Y : Library) (self : MEDProcessor) (test_df : DataFrame) (tmp_path : option string)
  (w w' : World) (results : list (dict Value)) :
  test_equations self test_df tmp_path w = (Ok results, w') ->
  let sorted := sort_values (self_param_names self) test_df in
  Forall2 (fun test_row result_row =>
             (exists t, row_get sorted test_row (self_target self) = Ok t /\
                        dict_get (self_target self) result_row
                          = Some (iterrows_value sorted t) /\
                        number (iterrows_value sorted t) = Some t) /\
             (forall p, In p (self_param_names self) ->
                (forall c, p <> err_column c (self_target self)) ->
                exists v, row_get sorted test_row p = Ok v /\
                          dict_get p result_row = Some (iterrows_value sorted v) /\
                          number (iterrows_value sorted v) = Some v))
          (rows sorted) results.
Proof.
  intros H sorted.
  destruct (RowFacts.test_equations_ok self test_df tmp_path w w' results H)
    as (table & equations & _ & _ & Hres & _).
  fold sorted in Hres. apply PyFacts.mapM_ok_Forall2 in Hres.
  eapply Forall2_impl; [|exact Hres]. intros test_row result_row Hrow. split.
  - destruct (RowFacts.score_row_other self sorted test_row equations result_row
                (self_target self) Hrow) as (d0 & t & _ & Ht & Hd).
    { intros g c _. apply RowFacts.err_column_not_target. }
    exists t. split; [exact Ht|].
    split; [|apply ScoreFacts.iterrows_value_number].
    rewrite Hd. apply PyFacts.dict_get_set_same.
  - intros p Hp Hne.
    destruct (RowFacts.score_row_other self sorted test_row equations result_row p Hrow)
      as (d0 & t & Hd0 & Ht & Hd).
    { intros g c _ E. now apply (Hne c). }
    destruct (RowFacts.param_entries_get sorted test_row _ _ _ p Hd0 Hp) as (v & Hv & Hg).
    destruct (string_dec p (self_target self)) as [->|Hpt].
    + exists t. split; [exact Ht|].
      split; [|apply ScoreFacts.iterrows_value_number].
      rewrite Hd. apply PyFacts.dict_get_set_same.
    + exists v. split; [exact Hv|].
      split; [|apply ScoreFacts.iterrows_value_number]. rewrite Hd.
      rewrite PyFacts.dict_get_set_other by exact Hpt. exact Hg.
Qed.

(** The error columns of a result row are those of the complexities of the
    table: a row has an entry in the column of a complexity exactly when
    [get_complexity_equation] finds an equation of that complexity (no
    parameter being named like an error column). *)
Theorem error_columns_match_complexity_lookup (R : NumpyRandom) (L : Libm) (S : Sorting)
  (Y : Library) (self : MEDProcessor) (test_df : DataFrame) (tmp_path : option string)
  (w w' : World) (results : list (dict Value)) :
  test_equations self test_df tmp_path w = (Ok results, w') ->
  (forall p c, In p (self_param_names self) -> p <> err_column c (self_target self)) ->
  forall complexity result_row,
    In result_row results ->
    ((exists v, dict_get (err_column complexity (self_target self)) result_row = Some v) <->
     (exists equation,
        get_complexity_equation self complexity tmp_path w = (Ok (Some equation), w))).
Proof.
  intros H Hne complexity result_row Hrow.
  destruct (RowFacts.test_equations_ok self test_df tmp_path w w' results H)
    as (table & equations & Hfile & Hcomp & Hres & _).
  apply PyFacts.mapM_ok_Forall2 in Hres.
  destruct (ListFacts.Forall2_In_r _ _ _ result_row Hres Hrow) as (test_row & _ & Hscore).
  pose proof (RowFacts.compiled_complexity self table equations complexity Hcomp) as Hiff.
  assert (Hlookup : (exists equation,
             get_complexity_equation self complexity tmp_path w = (Ok (Some equation), w)) <->
             exists r, In r table /\ Complexity r = complexity).
  { unfold get_complexity_equation, bindM, read_csv, ret. rewrite Hfile.
    destruct (filter (fun r => Complexity r =? complexity) table) as [|r0 rest] eqn:Hflt.
    - split; [intros [eq Heq]; discriminate|].
      intros (r & Hr & Hc).
      assert (Hin : In r (filter (fun r => Complexity r =? complexity) table)).
      { apply filter_In. split; [exact Hr | now apply Z.eqb_eq]. }
      rewrite Hflt in Hin. destruct Hin.
    - split; [intros _ | eauto].
      assert (Hin : In r0 (filter (fun r => Complexity r =? complexity) table)).
      { rewrite Hflt. now left. }
      apply filter_In in Hin. destruct Hin as [Hr Hc]. apply Z.eqb_eq in Hc. eauto. }
  rewrite Hlookup, <- Hiff. split.
  - intros [v Hv].
    destruct (existsb (fun fc => snd fc =? complexity) equations) eqn:E.
    + apply existsb_exists in E. destruct E as ([f c] & Hin & Hc). simpl in Hc.
      apply Z.eqb_eq in Hc. subst c. eauto.
    + exfalso.
      destruct (RowFacts.score_row_other self _ test_row equations result_row
                  (err_column complexity (self_target self)) Hscore)
        as (d0 & t & Hd0 & _ & Hd).
      { intros g c Hin Heq. apply ScoreFacts.err_column_inj in Heq. subst c.
        assert (Hex : existsb (fun fc : Lambda * Z => snd fc =? complexity) equations = true).
        { apply existsb_exists. exists (g, complexity). split; [exact Hin | apply Z.eqb_refl]. }
        congruence. }
      rewrite Hd, PyFacts.dict_get_set_other in Hv
        by apply RowFacts.err_column_not_target.
      rewrite (RowFacts.param_entries_other _ _ _ _ _ _ Hd0) in Hv; [discriminate|].
      intros Hin. now apply (Hne _ complexity Hin).
  - intros [f Hf].
    destruct (RowFacts.score_row_entry self _ test_row equations result_row f _ Hscore Hf)
      as (actual & pred & err & _ & Hd).
    eauto.
Qed.

(** Two records of one complexity.  [get_complexity_equation] answers with
    the first equation of the complexity, but the error column of that
    complexity holds, in every result row, the error of the last one: the
    equation looked up is not the equation that was scored. *)
Theorem duplicate_complexity_first_equation_last_error (R : NumpyRandom) (L : Libm)
  (S : Sorting) (Y : Library) (self : MEDProcessor) (test_df : DataFrame)
  (tmp_path : option string) (w w' : World) (results : list (dict Value))
  (pre mid post : list EquationRecord) (first last : EquationRecord) :
  test_equations self test_df tmp_path w = (Ok results, w') ->
  files w (eq_path self tmp_path) = Some (pre ++ first :: mid ++ last :: post) ->
  Complexity last = Complexity first ->
  (forall x, In x pre -> Complexity x <> Complexity first) ->
  (forall x, In x post -> Complexity x <> Complexity first) ->
  let sorted := sort_values (self_param_names self) test_df in
  get_complexity_equation self (Complexity first) tmp_path w
    = (Ok (Some (Equation first)), w) /\
  exists func,
    create_function (Equation last) (self_param_names self) = Ok func /\
    Forall2 (fun test_row result_row =>
               exists param_values pred actual err,
                 mapM (row_get sorted test_row) (self_param_names self) = Ok param_values /\
                 call func (map (iterrows_value sorted) param_values) = Ok pred /\
                 row_get sorted test_row (self_target self) = Ok actual /\
                 np_relative_error (iterrows_value sorted actual) pred = Ok err /\
                 dict_get (err_column (Complexity first) (self_target self)) result_row
                   = Some err /\
                 (forall p, number pred = Some p ->
                    err = NpFloat (relative_error actual p)))
            (rows sorted) results.
Proof.
  intros H Hfile Hc Hpre Hpost sorted. split.
  - unfold get_complexity_equation, bindM, read_csv, ret. rewrite Hfile.
    rewrite filter_app. rewrite (DuplicateFacts.filter_none _ pre).
    + simpl. now rewrite Z.eqb_refl.
    + intros x Hx. apply Z.eqb_neq. now apply Hpre.
  - destruct (RowFacts.test_equations_ok self test_df tmp_path w w' results H)
      as (table & equations & Hfile' & Hcomp & Hres & _).
    assert (table = pre ++ first :: mid ++ last :: post) by congruence. subst table.
    unfold compile_all in Hcomp.
    replace (pre ++ first :: mid ++ last :: post)
      with ((pre ++ first :: mid) ++ last :: post) in Hcomp
      by (rewrite <- app_assoc; reflexivity).
    destruct (DuplicateFacts.mapM_app _ _ _ _ Hcomp) as (ea & eb & -> & _ & Hb).
    destruct (DuplicateFacts.compile_all_cons self last post eb Hb)
      as (func & eb' & Hfunc & -> & Hpost').
    exists func. split; [exact Hfunc|].
    fold sorted in Hres. apply PyFacts.mapM_ok_Forall2 in Hres.
    eapply Forall2_impl; [|exact Hres]. intros test_row result_row Hrow.
    unfold score_row in Hrow.
    destruct (param_entries sorted test_row (self_param_names self) []) as [d0|];
      [|discriminate].
    simpl in Hrow.
    destruct (row_item sorted test_row (self_target self)) as [t|] eqn:Ht; [|discriminate].
    simpl in Hrow. rewrite <- Hc.
    destruct (ScoreFacts.score_equations_entry self sorted test_row _ _ _
                ea func (Complexity last) eb' Hrow eq_refl)
      as (pv & pred & actual & err & Hpv & Hcall & Ha & He & Hd).
    + intros g c' Hin Heq. subst c'.
      apply RowFacts.compile_all_complexities in Hpost'.
      apply (in_map snd) in Hin. rewrite Hpost' in Hin. simpl in Hin.
      apply in_map_iff in Hin. destruct Hin as (x & Hx & Hinx).
      apply (Hpost x Hinx). congruence.
    + exists pv, pred, actual, err. repeat split; auto.
      intros p Hp.
      rewrite (ScoreFacts.np_relative_error_number _ pred actual p
                 (ScoreFacts.iterrows_value_number sorted actual) Hp) in He.
      now inversion He.
Qed.




(** What [run_med_discovery] hands to the backend.  On a well-formed train
    table that has the parameter columns and the target column, the two
    selections [train_df[parameters["names"]]] and [train_df[self.target]]
    succeed and are aligned with the train rows: the i-th row of the data
    holds the values of the i-th train row under the parameter names, in
    the order of the names and with the row's label, and the i-th response
    is the target value of the same row.  A backend that records its calls
    receives, in this order: [create_parameters] with the names, the
    minimums and the maximums of [parameters]; the construction of [MED]
    from the parameters made, with the target name and the seed 200;
    [augment] with that data and that response; [save] with the folder;
    [discover] with the five binary operators, the constraint on [^] and
    the two unary operators.  With the target column absent the call raises
    [KeyError] for it before any backend is called. *)
Theorem run_med_discovery_hands_over_train_rows (R : NumpyRandom)
  (self : MEDProcessor) (train_df : DataFrame) (parameters : Parameters) :
  well_formed train_df ->
  (forall p, In p (names parameters) -> In p (columns train_df)) ->
  (In (self_target self) (columns train_df) ->
   exists data target_values,
     select_columns train_df (names parameters) = Ok data /\
     get_column train_df (self_target self) = Ok target_values /\
     columns data = names parameters /\
     Forall2 (fun r d => label d = label r /\
                         mapM (row_get train_df r) (names parameters) = Ok (cells d))
             (rows train_df) (rows data) /\
     Forall2 (fun r t => row_get train_df r (self_target self) = Ok t)
             (rows train_df) target_values /\
     forall (g : rng_state) (calls : list Samples.BackendCall),
       run_med_discovery (F := Samples.journal) (B := Samples.recorder)
         self train_df parameters (Samples.recording g calls)
       = (Done tt,
          Samples.recording g
            (calls ++
               [Samples.CreateParameters (names parameters) (minimums parameters)
                  (maximums parameters);
                Samples.NewMED
                  (names parameters, minimums parameters, maximums parameters)
                  (self_target self) 200;
                Samples.Augment data target_values;
                Samples.Save (self_folder_save_name self);
                Samples.Discover ["+"; "-"; "*"; "/"; "^"]%string
                  [("^"%string, (-1, 1))] ["exp"; "log"]%string]))) /\
  (~ In (self_target self) (columns train_df) ->
   forall (F : FileSystem) (B : Medeq (F := F)) (m : Machine),
     run_med_discovery self train_df parameters m
     = (Failed (Builtin (KeyError (self_target self))), m)).
Proof.
  intros Hwf Hnames. split.
  - intros Ht.
    destruct (HandoverFacts.select_columns_ok train_df (names parameters) Hwf Hnames)
      as [data Hdata].
    destruct (BoundsFacts.get_column_ok train_df (self_target self) Hwf Ht) as [col Hcol].
    exists data, col. split; [exact Hdata|]. split; [exact Hcol|].
    destruct (HandoverFacts.select_columns_rows _ _ _ Hdata) as [Hc Hr].
    split; [exact Hc|]. split; [exact Hr|].
    split; [now apply HandoverFacts.get_column_rows|].
    intros g calls. now apply FullFacts.run_med_discovery_recorded.
  - intros Ht F B m. unfold run_med_discovery, run_bind, run_lift, get_column.
    rewrite (TableFacts.column_index_None _ _ Ht). reflexivity.
Qed.

(** ** The artifact of the discovery backend *)

(** [find_hof_file] returns the most recently modified of the files that
    match the pattern, and the first of them in the order of [glob] when
    several share the latest time: every match listed before it is strictly
    older, every match listed after it is not newer.  (The modification
    times of the matches are readable and are not NaN.) *)
Theorem find_hof_file_selects_most_recent (F : FileSystem) (pattern : string)
  (s : fs_state) :
  (forall p, In p (glob pattern s) -> exists t, getmtime p s = Done t /\ is_nan t = false) ->
  glob pattern s <> [] ->
  exists pre f post t,
    glob pattern s = pre ++ f :: post /\
    find_hof_file pattern s = Done (Some f) /\
    getmtime f s = Done t /\
    (forall p t', In p pre -> getmtime p s = Done t' -> ltb t' t = true) /\
    (forall p t', In p post -> getmtime p s = Done t' -> leb t' t = true).
Proof.
  intros Hread Hne. unfold find_hof_file.
  destruct (glob pattern s) as [|f0 [|f1 rest]] eqn:Hfiles; [contradiction| |].
  - destruct (Hread f0 (or_introl eq_refl)) as (t & Ht & _).
    exists [], f0, [], t. simpl. repeat split; auto; intros p t' [].
  - destruct (Hread f0 (or_introl eq_refl)) as (t0 & Ht0 & Hn0).
    destruct (FindFacts.max_from_first_greatest (fun path => getmtime path s)
                (f1 :: rest) [] f0 t0 [] Ht0 Hn0) as (pre & f & post & t & E & Hmax & H).
    + intros x Hx. apply Hread. now right.
    + intros x t [].
    + intros x t [].
    + exists pre, f, post, t. split; [exact E|]. split; [|exact H].
      cbn [List.length Nat.eqb Nat.ltb Nat.leb]. unfold max_by_key. rewrite Ht0.
      cbn [and_then]. rewrite Hmax. reflexivity.
Qed.

(** The other outcomes of [find_hof_file]: it returns [None] exactly when
    nothing matches; a single match is returned as it is, without a look at
    its modification time; with several matches, the error of the first one
    whose modification time cannot be read is raised. *)
Theorem find_hof_file_edge_cases (F : FileSystem) (pattern : string) (s : fs_state) :
  (find_hof_file pattern s = Done None <-> glob pattern s = []) /\
  (forall f, glob pattern s = [f] -> find_hof_file pattern s = Done (Some f)) /\
  (forall pre f post e,
     glob pattern s = pre ++ f :: post -> (1 < List.length (glob pattern s))%nat ->
     (forall p, In p pre -> exists t, getmtime p s = Done t) ->
     getmtime f s = Failed e ->
     find_hof_file pattern s = Failed e).
Proof.
  unfold find_hof_file. split; [|split].
  - destruct (glob pattern s) as [|f0 [|f1 rest]];
      cbn [List.length Nat.eqb Nat.ltb Nat.leb nth_error].
    + split; reflexivity.
    + split; discriminate.
    + split; [|discriminate]. unfold max_by_key.
      destruct (getmtime f0 s) as [t0|e]; cbn [and_then]; [|discriminate].
      destruct (FindFacts.max_from_not_none (fun path => getmtime path s) (f1 :: rest) f0 t0)
        as [[f ->]|[e ->]]; discriminate.
  - intros f ->. reflexivity.
  - intros pre f post e E Hlen Hpre Hf.
    destruct (glob pattern s) as [|f0 [|f1 rest]]; simpl in Hlen; try lia.
    cbn [List.length Nat.eqb Nat.ltb Nat.leb]. unfold max_by_key.
    destruct pre as [|p pre]; simpl in E; inversion E; subst.
    + rewrite Hf. reflexivity.
    + destruct (Hpre p (or_introl eq_refl)) as [t ->]. cbn [and_then].
      rewrite (FindFacts.max_from_first_error (fun path => getmtime path s) _ p t pre f post e);
        auto.
      intros y Hy. apply Hpre. now right.
Qed.

(** [move_hof_file] reports a failed move instead of raising it, but an
    error of the creation of the directory is raised.  With no file to move
    ([None] or the empty string) nothing is touched and the answer is
    [False].  Otherwise the directory is created when it does not exist,
    and only then; if that fails the error is raised and no move is
    attempted; else the file is moved to [os.path.join(dest_dir,
    "hall_of_fame.csv")] and the answer tells whether the move succeeded. *)
Theorem move_hof_file_outcomes (F : FileSystem) (dest_dir : string)
  (hof_file : option string) (s : fs_state) :
  (truthy hof_file = false -> move_hof_file dest_dir hof_file s = (Done false, s)) /\
  (forall src, hof_file = Some src -> truthy hof_file = true ->
     let attempt (s1 : fs_state) :=
       (match fst (move src (path_join dest_dir "hall_of_fame.csv") s1) with
        | Done _ => Done true
        | Failed _ => Done false
        end, snd (move src (path_join dest_dir "hall_of_fame.csv") s1)) in
     (path_exists dest_dir s = true -> move_hof_file dest_dir hof_file s = attempt s) /\
     (path_exists dest_dir s = false ->
        (forall e s1, makedirs dest_dir s = (Failed e, s1) ->
           move_hof_file dest_dir hof_file s = (Failed e, s1)) /\
        (forall s1, makedirs dest_dir s = (Done tt, s1) ->
           move_hof_file dest_dir hof_file s = attempt s1))).
Proof.
  split.
  - intros Hf. unfold move_hof_file. now rewrite Hf.
  - intros src -> Ht attempt. unfold move_hof_file, dest_file. rewrite Ht. cbn [negb].
    split.
    + intros ->. cbn [negb]. unfold attempt.
      destruct (move src (path_join dest_dir "hall_of_fame.csv") s) as [[r|e] s2]; reflexivity.
    + intros ->. cbn [negb]. split.
      * intros e s1 ->. reflexivity.
      * intros s1 ->. unfold attempt.
        destruct (move src (path_join dest_dir "hall_of_fame.csv") s1) as [[r|e] s2];
          reflexivity.
Qed.

(** Where the artifact is put and where it is read.  [test_equations] and
    [get_complexity_equation] read [f"{folder_save_name}/hall_of_fame.csv"];
    [move_hof_file] moves to [os.path.join(dest_dir, "hall_of_fame.csv")].
    The two are the same path exactly when the folder name is not empty and
    does not end with a slash.  For such a folder, [move_hof_file] called
    with the folder and a file moves that file to the path that is read
    (after the directory was made, when it did not exist).  For the empty
    folder name the path read is [/hall_of_fame.csv]; when the directory of
    the empty name cannot be made, its error is raised and nothing is
    moved. *)
Theorem artifact_destination_and_default_path (F : FileSystem) (self : MEDProcessor)
  (src : string) (s : fs_state) :
  let folder := self_folder_save_name self in
  let moved_to (dst : string) (s1 : fs_state) :=
    (match fst (move src dst s1) with
     | Done _ => Done true
     | Failed _ => Done false
     end, snd (move src dst s1)) in
  (dest_file folder = eq_path self None <->
   folder <> EmptyString /\ endswith_sep folder = false) /\
  (src <> EmptyString -> folder <> EmptyString -> endswith_sep folder = false ->
   (path_exists folder s = true ->
    move_hof_file folder (Some src) s = moved_to (eq_path self None) s) /\
   (forall s1, path_exists folder s = false -> makedirs folder s = (Done tt, s1) ->
    move_hof_file folder (Some src) s = moved_to (eq_path self None) s1)) /\
  (src <> EmptyString -> folder = EmptyString ->
   eq_path self None = "/hall_of_fame.csv"%string /\
   forall e s1, path_exists folder s = false -> makedirs folder s = (Failed e, s1) ->
     move_hof_file folder (Some src) s = (Failed e, s1)).
Proof.
  intros folder moved_to.
  assert (Hiff : dest_file folder = eq_path self None <->
                 folder <> EmptyString /\ endswith_sep folder = false).
  { unfold dest_file, path_join, eq_path. fold folder. cbn [startswith_sep].
    change (Ascii.eqb "h" "/") with false. cbv iota.
    destruct (String.eqb_spec folder EmptyString) as [->|Hne].
    + simpl. split; [discriminate | intros [H _]; now contradiction H].
    + cbn [orb]. destruct (endswith_sep folder) eqn:He.
      * split; [|intros [_ H]; discriminate].
        intros H. apply CompileFacts.append_inj_l in H. discriminate.
      * split; [auto | reflexivity]. }
  assert (Htruthy : src <> EmptyString -> truthy (Some src) = true).
  { destruct src; [now intros H | reflexivity]. }
  split; [exact Hiff|]. split.
  - intros Hsrc Hne He.
    assert (Hpath : dest_file folder = eq_path self None) by (apply Hiff; auto).
    unfold move_hof_file. rewrite (Htruthy Hsrc), Hpath. cbn [negb]. split.
    + intros ->. cbn [negb]. unfold moved_to.
      destruct (move src (eq_path self None) s) as [[r|e] s2]; reflexivity.
    + intros s1 -> ->. cbn [negb]. unfold moved_to.
      destruct (move src (eq_path self None) s1) as [[r|e] s2]; reflexivity.
  - intros Hsrc Hempty. split.
    + unfold eq_path. fold folder. now rewrite Hempty.
    + intros e s1 Hex Hmk. unfold move_hof_file.
      rewrite (Htruthy Hsrc), Hex. cbn [negb]. rewrite Hmk. reflexivity.
Qed.

(** ** One run of the workflow *)

(** A study is written as its parameter names joined by ["-"], and the
    batch loop splits it at ["-"].  Splitting gives back the names exactly
    when no name contains ["-"] (a list of one or more names); in general
    the pieces never contain ["-"] and joined again they give the text of
    the study. *)
Theorem sweep_parameter_list_round_trip :
  (forall names, names <> [] ->
     (forall n, In n names -> ~ In "-"%char (chars n)) ->
     sweep_parameter_list (String.concat "-" names) = names) /\
  (forall study_params,
     String.concat "-" (sweep_parameter_list study_params) = study_params /\
     sweep_parameter_list study_params <> [] /\
     forall n, In n (sweep_parameter_list study_params) -> ~ In "-"%char (chars n)).
Proof.
  split.
  - intros names Hne Hall. now apply SplitOnFacts.split_on_concat.
  - intros s. split; [apply SplitOnFacts.concat_split_on|].
    split; [apply SplitOnFacts.split_on_nonempty | apply SplitOnFacts.split_on_words].
Qed.

Section Run.

Context {R : NumpyRandom} {L : Libm} {S : Sorting} {F : FileSystem} {B : Medeq}
  {Y : Library} {C : Csv}.

(** A parameter name that is not a column of the dataset stops the run at
    the constructor, with its [ValueError]: nothing has been drawn from the
    generator, the backend has not been called and nothing has been
    written. *)
Theorem run_med_processor_rejects_unknown_parameter
  (in_df_path folder_save_path : string) (param_list : list string) (target : string)
  (split_seed : Z) (tt_split : float) (m : Machine) (df : DataFrame) (p : string) :
  read_dataset in_df_path (disk m) = Done df ->
  In p param_list -> ~ In p (columns df) ->
  exists msg,
    run_med_processor in_df_path folder_save_path param_list target split_seed tt_split m
    = (Failed (Builtin (ValueError msg)), m).
Proof.
  intros Hread Hp Hnot.
  unfold run_med_processor, run_bind, read_disk, run_lift. rewrite Hread.
  unfold __init__.
  destruct (filter (fun q => negb (has_column df q)) param_list) eqn:Hmiss.
  - exfalso. apply Hnot.
    exact (proj1 (ProcessorFacts.missing_nil df param_list) Hmiss p Hp).
  - simpl. eauto.
Qed.

(** A target that is not a column of the dataset is not noticed by the
    constructor nor by [prepare_data]: with a seed that numpy takes
    ([0 .. 2**32 - 1]) the run fails at the first statement of
    [run_med_discovery] with [KeyError] for the target, before the backend
    is called, and leaves the generator and the file system as they
    were. *)
Theorem run_med_processor_unknown_target_key_error
  (in_df_path folder_save_path : string) (param_list : list string) (target : string)
  (split_seed : Z) (tt_split : float) (m : Machine) (df : DataFrame) :
  permutes R -> well_formed df -> Z.of_nat (len df) < 2 ^ 53 ->
  valid tt_split = true -> ltb zero tt_split = true -> ltb tt_split one = true ->
  0 <= split_seed < 2 ^ 32 ->
  read_dataset in_df_path (disk m) = Done df ->
  (forall p, In p param_list -> In p (columns df)) ->
  ~ In target (columns df) ->
  run_med_processor in_df_path folder_save_path param_list target split_seed tt_split m
  = (Failed (Builtin (KeyError target)), m).
Proof.
  intros HR Hwf Hn Hv H0 H1 Hseed Hread Hps Ht.
  unfold run_med_processor, run_bind, read_disk, run_lift. rewrite Hread.
  unfold __init__. rewrite (proj2 (ProcessorFacts.missing_nil df param_list) Hps).
  cbn [of_result].
  set (self := {| self_df := df; self_target := target;
                  self_folder_save_name := folder_save_path;
                  self_param_names := param_list |}).
  destruct (RunFacts.prepare_data_total self tt_split split_seed (world_of m) HR Hwf Hps
              Hn Hv H0 H1 Hseed) as (k & mins & maxs & _ & _ & _ & Hprep).
  unfold in_world. rewrite Hprep. cbn [of_result np_random world_of].
  unfold run_med_discovery, run_bind, run_lift.
  unfold get_column. cbn [columns iloc_to shuffled reset_index self_target self].
  change (self_df self) with df.
  rewrite (TableFacts.column_index_None _ _ Ht). cbn [of_result].
  destruct m as [g s]. reflexivity.
Qed.

(** When the discovery leaves no file that matches the pattern, the run
    goes on: nothing is moved, and [test_equations] reads whatever is at
    [<folder>/hall_of_fame.csv].  With no table there the run ends with
    [FileNotFoundError] for that path; with a table left there by an
    earlier run, that old table is scored and its results are written. *)
Theorem run_med_processor_without_new_artifact
  (in_df_path folder_save_path : string) (param_list : list string) (target : string)
  (split_seed : Z) (tt_split : float) (m after : Machine) (df : DataFrame)
  (self : MEDProcessor) (train_df test_df : DataFrame) (parameters : Parameters)
  (w : World) :
  read_dataset in_df_path (disk m) = Done df ->
  __init__ param_list df target folder_save_path = Ok self ->
  prepare_data self tt_split split_seed (world_of m) = (Ok (train_df, test_df, parameters), w) ->
  run_med_discovery self train_df parameters m = (Done tt, after) ->
  glob hof_pattern (disk after) = [] ->
  let path := String.append folder_save_path "/hall_of_fame.csv" in
  (read_table path (disk after) = None ->
   run_med_processor in_df_path folder_save_path param_list target split_seed tt_split m
   = (Failed (Builtin (FileNotFoundError path)), after)) /\
  (forall table results,
     read_table path (disk after) = Some table -> table <> [] ->
     fst (test_equations self test_df None (world_of after)) = Ok results ->
     run_med_processor in_df_path folder_save_path param_list target split_seed tt_split m
     = on_disk (to_csv results (String.append folder_save_path "/med_unseen.csv")) after).
Proof.
  intros Hread Hinit Hprep Hdisc Hglob path.
  destruct (RunFacts.init_ok _ _ _ _ _ Hinit) as [Hself _].
  assert (Hpath : eq_path self None = path) by (subst self; reflexivity).
  pose proof (RunFacts.prepare_data_world self tt_split split_seed (world_of m)) as Hw.
  rewrite Hprep in Hw. simpl in Hw. subst w.
  assert (Hfind : find_hof_file hof_pattern (disk after) = Done None).
  { unfold find_hof_file. rewrite Hglob. reflexivity. }
  assert (Hstart :
            run_med_processor in_df_path folder_save_path param_list target split_seed tt_split m
            = (df_results <== in_world (test_equations self test_df None) ;;
               on_disk (to_csv df_results (String.append folder_save_path "/med_unseen.csv")))
              after).
  { unfold run_med_processor, run_bind at 1 2 3 4 5 6.
    unfold read_disk at 1, run_lift. rewrite Hread, Hinit. cbn [of_result].
    unfold in_world at 1. rewrite Hprep. cbn [of_result np_random world_of].
    destruct m as [g s]. cbn [random disk]. cbn [random disk] in Hdisc. rewrite Hdisc.
    unfold read_disk. rewrite Hfind.
    unfold on_disk at 1, move_hof_file. cbn [truthy negb].
    destruct after as [g' s']. reflexivity. }
  rewrite Hstart. clear Hstart. split.
  - intros Hnone. unfold run_bind, in_world.
    unfold test_equations, bindM, read_csv. rewrite Hpath.
    cbn [files world_of]. rewrite Hnone. cbn [of_result np_random].
    destruct after as [g' s']. reflexivity.
  - intros table results Htable _ Hres. unfold run_bind, in_world.
    pose proof (RunFacts.test_equations_world self test_df None (world_of after)) as Hw.
    destruct (test_equations self test_df None (world_of after)) as [r w']. simpl in Hw, Hres.
    subst r w'. cbn [of_result np_random world_of].
    destruct after as [g' s']. reflexivity.
Qed.

End Run.

(** ** Instances of the further properties on the sample data *)

Lemma relative_error_of_exact_prediction_witness :
  (valid Samples.three = true /\ is_finite Samples.three = true) /\
  Sign.positive (add (abs Samples.three) eps) /\
  relative_error Samples.three Samples.three = zero.
Proof.
  split; [split; reflexivity|].
  exact (relative_error_of_exact_prediction Samples.three eq_refl eq_refl).
Defined.

Lemma test_equations_errors_never_negative_witness :
  exists results,
    (test_equations (R := Examples.reversing) (L := Examples.no_libm)
       (S := Examples.keep_order) (Y := Examples.as_written)
       (Examples.study "med_study") (Examples.line 3) None
       Examples.world0 = (Ok results, Examples.world0) /\
     files Examples.world0 (eq_path (Examples.study "med_study") None)
       = Some Examples.hall_of_fame) /\
    forall record result_row,
      In record Examples.hall_of_fame -> In result_row results ->
      exists v : value expr,
        dict_get (err_column (Complexity record) (self_target (Examples.study "med_study")))
                 result_row = Some v /\
        ((exists x, v = NpFloat x /\ (is_nan x = true \/ leb zero x = true)) \/
         (exists o, v = PyObject o)).
Proof.
  eexists.
  assert (Hrun : test_equations (R := Examples.reversing) (L := Examples.no_libm)
                   (S := Examples.keep_order) (Y := Examples.as_written)
                   (Examples.study "med_study")
                   (Examples.line 3) None Examples.world0 = (Ok _, Examples.world0))
    by (vm_compute; reflexivity).
  split; [split; [exact Hrun | reflexivity]|].
  exact (test_equations_errors_never_negative Examples.reversing Examples.no_libm
           Examples.keep_order Examples.as_written (Examples.study "med_study")
           (Examples.line 3) None
           Examples.world0 Examples.world0 _ Examples.hall_of_fame Hrun eq_refl).
Defined.

Lemma prepare_data_bounds_cover_train_and_test_witness :
  exists train test params,
    (permutes Examples.reversing /\
     prepare_data (Examples.study "med_study") Examples.seven_tenths 100 Examples.world0
       = (Ok (train, test, params), Examples.world0)) /\
    forall i p mn mx part r v,
      nth_error (names params) i = Some p ->
      nth_error (minimums params) i = Some mn ->
      nth_error (maximums params) i = Some mx ->
      part = train \/ part = test ->
      In r (rows part) -> row_get part r p = Ok v -> is_nan v = false ->
      leb mn v = true /\ leb v mx = true.
Proof.
  do 3 eexists.
  assert (Hrun : prepare_data (Examples.study "med_study") Examples.seven_tenths 100
                   Examples.world0 = (Ok (_, _, _), Examples.world0))
    by (vm_compute; reflexivity).
  split; [split; [exact reversing_permutes | exact Hrun]|].
  exact (prepare_data_bounds_cover_train_and_test Examples.reversing
           (Examples.study "med_study") Examples.seven_tenths 100 Examples.world0
           Examples.world0 _ _ _ reversing_permutes Hrun).
Defined.

Lemma split_df_same_seed_nested_witness :
  exists train1 test1 train2 test2,
    (permutes Examples.reversing /\
     split_df (Examples.line 10) Examples.seven_tenths 100 Examples.world0
       = (Ok (train1, test1), Examples.world0) /\
     split_df (Examples.line 10) one 100 Examples.world0
       = (Ok (train2, test2), Examples.world0)) /\
    rows train1 ++ rows test1 = rows train2 ++ rows test2.
Proof.
  do 4 eexists.
  assert (H1 : split_df (Examples.line 10) Examples.seven_tenths 100 Examples.world0
               = (Ok (_, _), Examples.world0)) by (vm_compute; reflexivity).
  assert (H2 : split_df (Examples.line 10) one 100 Examples.world0
               = (Ok (_, _), Examples.world0)) by (vm_compute; reflexivity).
  split; [split; [exact reversing_permutes | split; [exact H1 | exact H2]]|].
  exact (proj1 (split_df_same_seed_nested Examples.reversing (Examples.line 10)
                  Examples.seven_tenths one 100 Examples.world0 Examples.world0
                  Examples.world0 Examples.world0 _ _ _ _ reversing_permutes H1 H2)).
Defined.

Lemma validated_processor_prepares_data_witness :
  (permutes Examples.reversing /\ well_formed (Examples.line 10) /\
   Z.of_nat (len (Examples.line 10)) < 2 ^ 53 /\
   valid Examples.seven_tenths = true /\ ltb zero Examples.seven_tenths = true /\
   ltb Examples.seven_tenths one = true /\
   0 <= 100 < 2 ^ 32 /\
   __init__ ["x"%string] (Examples.line 10) "y" "med_study"
     = Ok (Examples.study "med_study")) /\
  exists train test params,
    prepare_data (Examples.study "med_study") Examples.seven_tenths 100 Examples.world0
      = (Ok (train, test, params), Examples.world0) /\
    (len train + len test = len (Examples.line 10))%nat /\
    names params = ["x"%string] /\
    List.length (minimums params) = List.length ["x"%string] /\
    List.length (maximums params) = List.length ["x"%string].
Proof.
  assert (H1 : valid Examples.seven_tenths = true) by reflexivity.
  assert (H2 : ltb zero Examples.seven_tenths = true) by reflexivity.
  assert (H3 : ltb Examples.seven_tenths one = true) by reflexivity.
  assert (H4 : Z.of_nat (len (Examples.line 10)) < 2 ^ 53) by reflexivity.
  assert (H5 : __init__ ["x"%string] (Examples.line 10) "y" "med_study"
               = Ok (Examples.study "med_study")) by reflexivity.
  assert (H6 : 0 <= 100 < 2 ^ 32) by (split; [discriminate | reflexivity]).
  split.
  - split; [exact reversing_permutes|]. split; [exact (line_well_formed 10)|].
    split; [exact H4|]. split; [exact H1|]. split; [exact H2|]. split; [exact H3|].
    split; [exact H6 | exact H5].
  - exact (validated_processor_prepares_data Examples.reversing ["x"%string]
             (Examples.line 10) "y" "med_study" (Examples.study "med_study")
             Examples.seven_tenths 100 Examples.world0 reversing_permutes
             (line_well_formed 10) H4 H1 H2 H3 H6 H5).
Defined.

Lemma missing_equation_table_raises_witness :
  files Examples.world0 "nowhere/hall_of_fame.csv" = None /\
  test_equations (R := Examples.reversing) (L := Examples.no_libm)
    (S := Examples.keep_order) (Y := Examples.as_written) (Examples.study "nowhere") (Examples.line 3) None
    Examples.world0
    = (Raise (FileNotFoundError "nowhere/hall_of_fame.csv"), Examples.world0) /\
  get_complexity_equation (Examples.study "nowhere") 5 None Examples.world0
    = (Raise (FileNotFoundError "nowhere/hall_of_fame.csv"), Examples.world0).
Proof.
  assert (H : files Examples.world0 "nowhere/hall_of_fame.csv" = None) by reflexivity.
  split; [exact H|].
  exact (missing_equation_table_raises Examples.reversing Examples.no_libm
           Examples.keep_order Examples.as_written (Examples.study "nowhere") (Examples.line 3) 5 None
           Examples.world0 H).
Defined.

Lemma test_equations_malformed_equation_aborts_witness :
  (files Samples.world (eq_path (Examples.study "cut_short") None)
     = Some (List.app [ {| Equation := "x"%string; Complexity := 1 |} ]
               (Samples.cut_record :: [ {| Equation := "x + 1"%string; Complexity := 5 |} ])) /\
   (forall r, In r [ {| Equation := "x"%string; Complexity := 1 |} ] ->
      is_ok (create_function (Y := Examples.as_written) (Equation r) (self_param_names (Examples.study "cut_short")))
      = true) /\
   create_function (Y := Examples.as_written) (Equation Samples.cut_record)
     (self_param_names (Examples.study "cut_short")) = Raise SympifyError) /\
  test_equations (R := Examples.reversing) (L := Examples.no_libm)
    (S := Examples.keep_order) (Y := Examples.as_written) (Examples.study "cut_short") Samples.no_rows None
    Samples.world = (Raise SympifyError, Samples.world).
Proof.
  assert (H1 : files Samples.world (eq_path (Examples.study "cut_short") None)
     = Some (List.app [ {| Equation := "x"%string; Complexity := 1 |} ]
               (Samples.cut_record :: [ {| Equation := "x + 1"%string; Complexity := 5 |} ])))
    by reflexivity.
  assert (H2 : forall r, In r [ {| Equation := "x"%string; Complexity := 1 |} ] ->
      is_ok (create_function (Y := Examples.as_written) (Equation r) (self_param_names (Examples.study "cut_short")))
      = true).
  { intros r [<-|[]]. reflexivity. }
  assert (H3 : create_function (Y := Examples.as_written) (Equation Samples.cut_record)
                 (self_param_names (Examples.study "cut_short")) = Raise SympifyError)
    by reflexivity.
  split; [split; [exact H1 | split; [exact H2 | exact H3]]|].
  exact (proj1 (test_equations_malformed_equation_aborts Examples.reversing
                  Examples.no_libm Examples.keep_order Examples.as_written (Examples.study "cut_short")
                  Samples.no_rows None Samples.world _ _
                  Samples.cut_record SympifyError H1 H2 H3)).
Defined.

Lemma test_equations_on_empty_test_set_witness :
  (sorts Examples.keep_order /\ rows Samples.no_rows = [] /\
   (forall p, In p (self_param_names (Examples.study "undeclared")) ->
              In p (columns Samples.no_rows)) /\
   files Samples.world (eq_path (Examples.study "undeclared") None)
     = Some Samples.undeclared /\
   Samples.undeclared <> []) /\
  test_equations (R := Examples.reversing) (L := Examples.no_libm)
    (S := Examples.keep_order) (Y := Examples.as_written) (Examples.study "undeclared") Samples.no_rows None
    Samples.world
  = (match compile_all (Y := Examples.as_written) (Examples.study "undeclared") Samples.undeclared with
     | Ok _ => Ok []
     | Raise e => Raise e
     end, Samples.world).
Proof.
  assert (H : files Samples.world (eq_path (Examples.study "undeclared") None)
              = Some Samples.undeclared) by reflexivity.
  assert (Hps : forall p, In p (self_param_names (Examples.study "undeclared")) ->
                          In p (columns Samples.no_rows)).
  { intros p [<-|[]]. now left. }
  assert (Hne : Samples.undeclared <> []) by discriminate.
  split; [split; [exact keep_order_sorts | split; [reflexivity | split; [exact Hps |
          split; [exact H | exact Hne]]]]|].
  exact (test_equations_on_empty_test_set Examples.reversing Examples.no_libm
           Examples.keep_order Examples.as_written (Examples.study "undeclared") Samples.no_rows None
           Samples.world Samples.undeclared keep_order_sorts eq_refl Hps H Hne).
Defined.


(** The table with [x + z] on the three-row line: the pass returns, and the
    entry of [x + z] in the first row is an expression in [z]. *)
Example undeclared_name_scores_an_expression :
  exists r1 r2 r3 o,
    test_equations (R := Examples.reversing) (L := Examples.no_libm)
      (S := Examples.keep_order) (Y := Examples.as_written)
      (Examples.study "undeclared") (Examples.line 3) None Samples.world
    = (Ok [r1; r2; r3], Samples.world) /\
    dict_get "Complexity 3 y p err" r1 = Some (PyObject o).
Proof.
  do 4 eexists. split; vm_compute; reflexivity.
Qed.

Lemma unvalidated_target_raises_key_error_witness :
  exists equations,
    (sorts Examples.keep_order /\ well_formed (Examples.line 3) /\
     columns (Examples.line 3) = columns (Examples.line 10) /\
     (forall p, In p ["x"%string] -> In p (columns (Examples.line 10))) /\
     ~ In "t"%string (columns (Examples.line 10)) /\
     rows (Examples.line 3) <> [] /\
     files Examples.world0
       (eq_path {| self_df := Examples.line 10; self_target := "t";
                   self_folder_save_name := "med_study";
                   self_param_names := ["x"%string] |} None)
       = Some Examples.hall_of_fame /\
     Examples.hall_of_fame <> [] /\
     compile_all (Y := Examples.as_written) {| self_df := Examples.line 10; self_target := "t";
                    self_folder_save_name := "med_study";
                    self_param_names := ["x"%string] |} Examples.hall_of_fame
       = Ok equations) /\
    __init__ ["x"%string] (Examples.line 10) "t" "med_study"
      = Ok {| self_df := Examples.line 10; self_target := "t";
              self_folder_save_name := "med_study"; self_param_names := ["x"%string] |} /\
    test_equations (R := Examples.reversing) (L := Examples.no_libm)
      (S := Examples.keep_order) (Y := Examples.as_written)
      {| self_df := Examples.line 10; self_target := "t";
         self_folder_save_name := "med_study"; self_param_names := ["x"%string] |}
      (Examples.line 3) None Examples.world0
      = (Raise (KeyError "t"), Examples.world0).
Proof.
  eexists.
  assert (Hps : forall p, In p ["x"%string] -> In p (columns (Examples.line 10))).
  { intros p [<-|[]]. now left. }
  assert (Ht : ~ In "t"%string (columns (Examples.line 10))).
  { intros [H|[H|[]]]; discriminate H. }
  assert (Hrows : rows (Examples.line 3) <> []) by discriminate.
  assert (Hne : Examples.hall_of_fame <> []) by discriminate.
  assert (Hcomp : compile_all (Y := Examples.as_written) {| self_df := Examples.line 10; self_target := "t";
                    self_folder_save_name := "med_study";
                    self_param_names := ["x"%string] |} Examples.hall_of_fame
                  = Ok _) by (vm_compute; reflexivity).
  split.
  - split; [exact keep_order_sorts|]. split; [exact (line_well_formed 3)|].
    split; [reflexivity|]. split; [exact Hps|]. split; [exact Ht|]. split; [exact Hrows|].
    split; [reflexivity|]. split; [exact Hne | exact Hcomp].
  - exact (unvalidated_target_raises_key_error Examples.reversing Examples.no_libm
             Examples.keep_order Examples.as_written ["x"%string] (Examples.line 10) (Examples.line 3) "t"
             "med_study" None Examples.world0 Examples.hall_of_fame _ keep_order_sorts
             (line_well_formed 3) eq_refl Hps Ht Hrows eq_refl Hne Hcomp).
Defined.

Lemma test_equations_rows_carry_inputs_witness :
  exists results,
    test_equations (R := Examples.reversing) (L := Examples.no_libm)
      (S := Examples.keep_order) (Y := Examples.as_written)
      (Examples.study "med_study") (Examples.line 3) None
      Examples.world0 = (Ok results, Examples.world0) /\
    Forall2 (fun test_row result_row =>
               (exists t, row_get (Examples.line 3) test_row "y" = Ok t /\
                          dict_get "y" result_row
                            = Some (iterrows_value (Y := Examples.as_written)
                                      (Examples.line 3) t) /\
                          number (iterrows_value (Y := Examples.as_written)
                                    (Examples.line 3) t) = Some t) /\
               (forall p, In p ["x"%string] ->
                  (forall c, p <> err_column c "y") ->
                  exists v, row_get (Examples.line 3) test_row p = Ok v /\
                            dict_get p result_row
                              = Some (iterrows_value (Y := Examples.as_written)
                                        (Examples.line 3) v) /\
                            number (iterrows_value (Y := Examples.as_written)
                                      (Examples.line 3) v) = Some v))
            (rows (Examples.line 3)) results.
Proof.
  eexists.
  assert (Hrun : test_equations (R := Examples.reversing) (L := Examples.no_libm)
                   (S := Examples.keep_order) (Y := Examples.as_written)
                   (Examples.study "med_study")
                   (Examples.line 3) None Examples.world0 = (Ok _, Examples.world0))
    by (vm_compute; reflexivity).
  split; [exact Hrun|].
  exact (test_equations_rows_carry_inputs Examples.reversing Examples.no_libm
           Examples.keep_order Examples.as_written (Examples.study "med_study")
           (Examples.line 3) None
           Examples.world0 Examples.world0 _ Hrun).
Defined.

Lemma error_columns_match_complexity_lookup_witness :
  exists results,
    (test_equations (R := Examples.reversing) (L := Examples.no_libm)
       (S := Examples.keep_order) (Y := Examples.as_written) (Examples.study "med_study") (Examples.line 3) None
       Examples.world0 = (Ok results, Examples.world0) /\
     (forall p c, In p (self_param_names (Examples.study "med_study")) ->
                  p <> err_column c (self_target (Examples.study "med_study")))) /\
    forall complexity result_row,
      In result_row results ->
      ((exists v, dict_get (err_column complexity (self_target (Examples.study "med_study")))
                           result_row = Some v) <->
       (exists equation,
          get_complexity_equation (Examples.study "med_study") complexity None
            Examples.world0 = (Ok (Some equation), Examples.world0))).
Proof.
  eexists.
  assert (Hrun : test_equations (R := Examples.reversing) (L := Examples.no_libm)
                   (S := Examples.keep_order) (Y := Examples.as_written) (Examples.study "med_study")
                   (Examples.line 3) None Examples.world0 = (Ok _, Examples.world0))
    by (vm_compute; reflexivity).
  assert (Hne : forall p c, In p (self_param_names (Examples.study "med_study")) ->
                  p <> err_column c (self_target (Examples.study "med_study"))).
  { intros p c [<-|[]] H. unfold err_column in H. cbn [String.append] in H. discriminate H. }
  split; [split; [exact Hrun | exact Hne]|].
  exact (error_columns_match_complexity_lookup Examples.reversing Examples.no_libm
           Examples.keep_order Examples.as_written (Examples.study "med_study") (Examples.line 3) None
           Examples.world0 Examples.world0 _ Hrun Hne).
Defined.

Lemma find_hof_file_selects_most_recent_witness :
  ((forall p, In p (glob (FileSystem := Samples.shelf) hof_pattern Samples.temp) ->
      exists t, getmtime (FileSystem := Samples.shelf) p Samples.temp = Done t /\ is_nan t = false) /\
   glob (FileSystem := Samples.shelf) hof_pattern Samples.temp <> []) /\
  exists pre f post t,
    glob (FileSystem := Samples.shelf) hof_pattern Samples.temp = pre ++ f :: post /\
    find_hof_file (F := Samples.shelf) hof_pattern Samples.temp = Done (Some f) /\
    getmtime (FileSystem := Samples.shelf) f Samples.temp = Done t /\
    (forall p t', In p pre -> getmtime (FileSystem := Samples.shelf) p Samples.temp = Done t' -> ltb t' t = true) /\
    (forall p t', In p post -> getmtime (FileSystem := Samples.shelf) p Samples.temp = Done t' -> leb t' t = true).
Proof.
  assert (H1 : forall p, In p (glob (FileSystem := Samples.shelf) hof_pattern Samples.temp) ->
      exists t, getmtime (FileSystem := Samples.shelf) p Samples.temp = Done t /\ is_nan t = false).
  { intros p [<-|[<-|[<-|[]]]]; eexists; split; reflexivity. }
  assert (H2 : glob (FileSystem := Samples.shelf) hof_pattern Samples.temp <> [])
    by discriminate.
  split; [split; [exact H1 | exact H2]|].
  exact (find_hof_file_selects_most_recent Samples.shelf hof_pattern Samples.temp H1 H2).
Defined.

(** On the sample shelf the second artifact is found: the first of the two
    latest ones. *)
Example find_hof_file_on_the_shelf :
  find_hof_file (F := Samples.shelf) hof_pattern Samples.temp = Done (Some "/tmp/b/hall_of_fame.csv"%string).
Proof. reflexivity. Qed.

Lemma run_med_processor_rejects_unknown_parameter_witness :
  (read_dataset (Csv := Samples.csv) "med_input_csvs/data.csv" (disk (Samples.machine Samples.bare))
     = Done (Examples.line 10) /\
   In "z"%string ["x"; "z"]%string /\ ~ In "z"%string (columns (Examples.line 10))) /\
  exists msg,
    run_med_processor (L := Examples.no_libm) (S := Examples.keep_order) (Y := Examples.as_written)
      (B := Samples.idle) (C := Samples.csv)
      "med_input_csvs/data.csv" "med_post/med_88" ["x"; "z"]%string "y" 88
      default_tt_split (Samples.machine Samples.bare)
    = (Failed (Builtin (ValueError msg)), Samples.machine Samples.bare).
Proof.
  assert (H1 : read_dataset (Csv := Samples.csv) "med_input_csvs/data.csv" (disk (Samples.machine Samples.bare))
               = Done (Examples.line 10)) by reflexivity.
  assert (H2 : In "z"%string ["x"; "z"]%string) by (right; now left).
  assert (H3 : ~ In "z"%string (columns (Examples.line 10))).
  { intros [H|[H|[]]]; discriminate H. }
  split; [split; [exact H1 | split; [exact H2 | exact H3]]|].
  exact (run_med_processor_rejects_unknown_parameter (R := Examples.reversing)
           (L := Examples.no_libm) (S := Examples.keep_order) (Y := Examples.as_written) (F := Samples.shelf)
           (B := Samples.idle) (C := Samples.csv)
           "med_input_csvs/data.csv" "med_post/med_88" ["x"; "z"]%string "y" 88
           default_tt_split (Samples.machine Samples.bare) (Examples.line 10) "z" H1 H2 H3).
Defined.

Lemma run_med_processor_unknown_target_key_error_witness :
  (permutes Examples.reversing /\ well_formed (Examples.line 10) /\
   Z.of_nat (len (Examples.line 10)) < 2 ^ 53 /\
   valid default_tt_split = true /\ ltb zero default_tt_split = true /\
   ltb default_tt_split one = true /\
   0 <= 88 < 2 ^ 32 /\
   read_dataset (Csv := Samples.csv) "med_input_csvs/data.csv" (disk (Samples.machine Samples.bare))
     = Done (Examples.line 10) /\
   (forall p, In p ["x"%string] -> In p (columns (Examples.line 10))) /\
   ~ In "target_col"%string (columns (Examples.line 10))) /\
  run_med_processor (L := Examples.no_libm) (S := Examples.keep_order) (Y := Examples.as_written)
      (B := Samples.idle) (C := Samples.csv)
    "med_input_csvs/data.csv" "med_post/med_88" ["x"%string] "target_col" 88
    default_tt_split (Samples.machine Samples.bare)
  = (Failed (Builtin (KeyError "target_col")), Samples.machine Samples.bare).
Proof.
  assert (H1 : valid default_tt_split = true) by reflexivity.
  assert (H2 : ltb zero default_tt_split = true) by reflexivity.
  assert (H3 : ltb default_tt_split one = true) by reflexivity.
  assert (H4 : Z.of_nat (len (Examples.line 10)) < 2 ^ 53) by reflexivity.
  assert (H5 : read_dataset (Csv := Samples.csv) "med_input_csvs/data.csv" (disk (Samples.machine Samples.bare))
               = Done (Examples.line 10)) by reflexivity.
  assert (H6 : forall p, In p ["x"%string] -> In p (columns (Examples.line 10))).
  { intros p [<-|[]]. now left. }
  assert (H7 : ~ In "target_col"%string (columns (Examples.line 10))).
  { intros [H|[H|[]]]; discriminate H. }
  assert (H8 : 0 <= 88 < 2 ^ 32) by (split; [discriminate | reflexivity]).
  split.
  - split; [exact reversing_permutes|]. split; [exact (line_well_formed 10)|].
    split; [exact H4|]. split; [exact H1|]. split; [exact H2|]. split; [exact H3|].
    split; [exact H8|]. split; [exact H5|]. split; [exact H6 | exact H7].
  - exact (run_med_processor_unknown_target_key_error (R := Examples.reversing)
             (L := Examples.no_libm) (S := Examples.keep_order) (Y := Examples.as_written) (F := Samples.shelf)
             (B := Samples.idle) (C := Samples.csv)
             "med_input_csvs/data.csv" "med_post/med_88" ["x"%string] "target_col" 88
             default_tt_split (Samples.machine Samples.bare) (Examples.line 10)
             reversing_permutes (line_well_formed 10) H4 H1 H2 H3 H8 H5 H6 H7).
Defined.

Lemma run_med_processor_without_new_artifact_witness :
  exists train_df test_df parameters,
    (read_dataset (Csv := Samples.csv) "med_input_csvs/data.csv"
       (disk (Samples.machine Samples.bare)) = Done (Examples.line 10) /\
     __init__ ["x"%string] (Examples.line 10) "y" "med_post/med_88"
       = Ok (Examples.study "med_post/med_88") /\
     prepare_data (Examples.study "med_post/med_88") default_tt_split 88
       (world_of (C := Samples.csv) (Samples.machine Samples.bare))
       = (Ok (train_df, test_df, parameters),
          world_of (C := Samples.csv) (Samples.machine Samples.bare)) /\
     run_med_discovery (B := Samples.idle) (Examples.study "med_post/med_88") train_df
       parameters (Samples.machine Samples.bare) = (Done tt, Samples.machine Samples.bare) /\
     glob (FileSystem := Samples.shelf) hof_pattern (disk (Samples.machine Samples.bare))
       = [] /\
     read_table (Csv := Samples.csv) "med_post/med_88/hall_of_fame.csv"
       (disk (Samples.machine Samples.bare)) = None) /\
    run_med_processor (L := Examples.no_libm) (S := Examples.keep_order) (Y := Examples.as_written)
      (B := Samples.idle) (C := Samples.csv)
      "med_input_csvs/data.csv" "med_post/med_88" ["x"%string] "y" 88
      default_tt_split (Samples.machine Samples.bare)
    = (Failed (Builtin (FileNotFoundError "med_post/med_88/hall_of_fame.csv")),
       Samples.machine Samples.bare).
Proof.
  do 3 eexists.
  assert (H1 : read_dataset (Csv := Samples.csv) "med_input_csvs/data.csv"
                 (disk (Samples.machine Samples.bare)) = Done (Examples.line 10))
    by reflexivity.
  assert (H2 : __init__ ["x"%string] (Examples.line 10) "y" "med_post/med_88"
               = Ok (Examples.study "med_post/med_88")) by reflexivity.
  assert (H3 : prepare_data (Examples.study "med_post/med_88") default_tt_split 88
                 (world_of (C := Samples.csv) (Samples.machine Samples.bare))
               = (Ok (_, _, _), world_of (C := Samples.csv) (Samples.machine Samples.bare)))
    by (vm_compute; reflexivity).
  assert (H4 : ltac:(match type of H3 with
                     | _ = (Ok (?tr, _, ?ps), _) =>
                         exact (run_med_discovery (B := Samples.idle)
                                  (Examples.study "med_post/med_88") tr ps
                                  (Samples.machine Samples.bare)
                                = (Done tt, Samples.machine Samples.bare))
                     end))
    by (vm_compute; reflexivity).
  assert (H5 : glob (FileSystem := Samples.shelf) hof_pattern
                 (disk (Samples.machine Samples.bare)) = []) by reflexivity.
  assert (H6 : read_table (Csv := Samples.csv) "med_post/med_88/hall_of_fame.csv"
                 (disk (Samples.machine Samples.bare)) = None) by reflexivity.
  split.
  - split; [exact H1|]. split; [exact H2|]. split; [exact H3|]. split; [exact H4|].
    split; [exact H5 | exact H6].
  - exact (proj1 (run_med_processor_without_new_artifact (R := Examples.reversing)
             (L := Examples.no_libm) (S := Examples.keep_order) (Y := Examples.as_written) (F := Samples.shelf)
             (B := Samples.idle) (C := Samples.csv)
             "med_input_csvs/data.csv" "med_post/med_88" ["x"%string] "y" 88
             default_tt_split (Samples.machine Samples.bare) (Samples.machine Samples.bare)
             (Examples.line 10) (Examples.study "med_post/med_88") _ _ _
             (world_of (C := Samples.csv) (Samples.machine Samples.bare))
             H1 H2 H3 H4 H5) H6).
Defined.


Lemma run_med_discovery_hands_over_train_rows_witness :
  (well_formed (Examples.line 3) /\
   (forall p, In p ["x"%string] -> In p (columns (Examples.line 3))) /\
   In "y"%string (columns (Examples.line 3))) /\
  exists data target_values,
    select_columns (Examples.line 3) ["x"%string] = Ok data /\
    get_column (Examples.line 3) "y" = Ok target_values /\
    columns data = ["x"%string] /\
    run_med_discovery (R := Examples.reversing) (F := Samples.journal)
      (B := Samples.recorder) (Examples.study "med_study") (Examples.line 3)
      {| names := ["x"%string]; minimums := [of_Z 0]; maximums := [of_Z 9] |}
      (Samples.recording (R := Examples.reversing) 0 [])
    = (Done tt,
       Samples.recording (R := Examples.reversing) 0
         [Samples.CreateParameters ["x"%string] [of_Z 0] [of_Z 9];
          Samples.NewMED (["x"%string], [of_Z 0], [of_Z 9]) "y" 200;
          Samples.Augment data target_values;
          Samples.Save "med_study";
          Samples.Discover ["+"; "-"; "*"; "/"; "^"]%string [("^"%string, (-1, 1))]
            ["exp"; "log"]%string]).
Proof.
  assert (Hps : forall p, In p ["x"%string] -> In p (columns (Examples.line 3))).
  { intros p [<-|[]]. now left. }
  assert (Ht : In "y"%string (columns (Examples.line 3))) by (right; now left).
  split; [split; [exact (line_well_formed 3) | split; [exact Hps | exact Ht]]|].
  destruct (proj1 (run_med_discovery_hands_over_train_rows Examples.reversing
                     (Examples.study "med_study") (Examples.line 3)
                     {| names := ["x"%string]; minimums := [of_Z 0]; maximums := [of_Z 9] |}
                     (line_well_formed 3) Hps) Ht)
    as (data & target_values & H1 & H2 & H3 & _ & _ & H6).
  exists data, target_values.
  split; [exact H1 | split; [exact H2 | split; [exact H3 | exact (H6 0 [])]]].
Defined.

(** The train rows of the three-row line as the backend receives them. *)
Example recorder_receives_the_train_rows :
  run_med_discovery (R := Examples.reversing) (F := Samples.journal)
    (B := Samples.recorder) (Examples.study "med_study") (Examples.line 3)
    {| names := ["x"%string]; minimums := [of_Z 0]; maximums := [of_Z 9] |}
    (Samples.recording (R := Examples.reversing) 0 [])
  = (Done tt,
     Samples.recording (R := Examples.reversing) 0
       [Samples.CreateParameters ["x"%string] [of_Z 0] [of_Z 9];
        Samples.NewMED (["x"%string], [of_Z 0], [of_Z 9]) "y" 200;
        Samples.Augment
          {| columns := ["x"%string];
             rows := [ {| label := 0; cells := [of_Z 0] |};
                       {| label := 1; cells := [of_Z 1] |};
                       {| label := 2; cells := [of_Z 2] |} ];
             object_columns := [] |}
          [of_Z 1; of_Z 3; of_Z 5];
        Samples.Save "med_study";
        Samples.Discover ["+"; "-"; "*"; "/"; "^"]%string [("^"%string, (-1, 1))]
          ["exp"; "log"]%string]).
Proof. vm_compute. reflexivity. Qed.

Lemma duplicate_complexity_first_equation_last_error_witness :
  exists results func,
    (test_equations (R := Examples.reversing) (L := Examples.no_libm)
       (S := Examples.keep_order) (Y := Examples.as_written)
       (Examples.study "med_study") (Examples.line 3) None
       Examples.world0 = (Ok results, Examples.world0) /\
     files Examples.world0 (eq_path (Examples.study "med_study") None)
       = Some (List.app [ {| Equation := "x"%string; Complexity := 1 |} ]
                 ({| Equation := "2*x + 1"%string; Complexity := 5 |}
                  :: List.app [ {| Equation := "x^2"%string; Complexity := 3 |} ]
                       ({| Equation := "x + x + 1"%string; Complexity := 5 |} :: []))) /\
     (forall x, In x [ {| Equation := "x"%string; Complexity := 1 |} ] ->
        Complexity x <> 5) /\
     (forall x : EquationRecord, In x [] -> Complexity x <> 5)) /\
    get_complexity_equation (Examples.study "med_study") 5 None Examples.world0
      = (Ok (Some "2*x + 1"%string), Examples.world0) /\
    create_function (Y := Examples.as_written) "x + x + 1" ["x"%string] = Ok func.
Proof.
  eexists.
  assert (Hrun : test_equations (R := Examples.reversing) (L := Examples.no_libm)
                   (S := Examples.keep_order) (Y := Examples.as_written)
                   (Examples.study "med_study")
                   (Examples.line 3) None Examples.world0 = (Ok _, Examples.world0))
    by (vm_compute; reflexivity).
  assert (Hfile : files Examples.world0 (eq_path (Examples.study "med_study") None)
       = Some (List.app [ {| Equation := "x"%string; Complexity := 1 |} ]
                 ({| Equation := "2*x + 1"%string; Complexity := 5 |}
                  :: List.app [ {| Equation := "x^2"%string; Complexity := 3 |} ]
                       ({| Equation := "x + x + 1"%string; Complexity := 5 |} :: []))))
    by reflexivity.
  assert (Hpre : forall x, In x [ {| Equation := "x"%string; Complexity := 1 |} ] ->
                           Complexity x <> 5).
  { intros x [<-|[]]. discriminate. }
  assert (Hpost : forall x : EquationRecord, In x [] -> Complexity x <> 5).
  { intros x []. }
  pose proof (duplicate_complexity_first_equation_last_error Examples.reversing
                Examples.no_libm Examples.keep_order Examples.as_written
                (Examples.study "med_study")
                (Examples.line 3) None Examples.world0 Examples.world0 _
                _ _ _ {| Equation := "2*x + 1"%string; Complexity := 5 |}
                {| Equation := "x + x + 1"%string; Complexity := 5 |}
                Hrun Hfile eq_refl Hpre Hpost) as (Hlookup & func & Hfunc & _).
  exists func.
  split; [split; [exact Hrun | split; [exact Hfile | split; [exact Hpre | exact Hpost]]]|].
  split; [exact Hlookup | exact Hfunc].
Defined.
